(** * NNTP subscription state ([nntp/newsrc.c])

    A shallow embedding of the newsrc reader, writer and range synthesiser,
    of the subscription commands and of the cache janitor, followed by the
    properties they satisfy.

    C strings are lists of characters, article numbers are integers with
    the wrap-around of [unsigned int] written out, the group registry is
    the pair (hash by name, array in creation order) of the account
    structure, and the outcome of every system call is an input. *)

From Stdlib Require Import ZArith Ascii String List Lia Bool.
From stdpp Require Import gmap strings list fin_maps.

Local Open Scope char_scope.
Local Open Scope Z_scope.

(** ** C strings *)

Definition str (s : string) : list ascii := list_ascii_of_string s.

(** A line of text with its newline. *)
Definition text_line (s : string) : list ascii := str s ++ ["010"].

(** The part of a buffer that C string functions see: up to the first NUL. *)
Fixpoint cstr (s : list ascii) : list ascii :=
  match s with
  | [] => []
  | c :: s' => if Ascii.eqb c zero then [] else c :: cstr s'
  end.

(** [p = strchr(s, c); if (p) *p++ = '\0';] : the text before the first
    [c] and the text after it. *)
Fixpoint strchr_cut (c : ascii) (s : list ascii) : option (list ascii * list ascii) :=
  match s with
  | [] => None
  | x :: s' =>
      if Ascii.eqb x c then Some ([], s')
      else match strchr_cut c s' with
           | Some (b, a) => Some (x :: b, a)
           | None => None
           end
  end.

(** [p = strpbrk(s, accept); c = *p; *p++ = '\0';] *)
Fixpoint strpbrk_cut (accept s : list ascii) : option (list ascii * ascii * list ascii) :=
  match s with
  | [] => None
  | x :: s' =>
      if existsb (Ascii.eqb x) accept then Some ([], x, s')
      else match strpbrk_cut accept s' with
           | Some (b, m, a) => Some (x :: b, m, a)
           | None => None
           end
  end.

(** The tokens that [while (p) { b = p; p = strchr(p, ','); if (p) *p++ = '\0'; ... }]
    visits: the text between commas; there is always at least one. *)
Fixpoint split_commas (s : list ascii) : list (list ascii) :=
  match s with
  | [] => [[]]
  | x :: s' =>
      if Ascii.eqb x "," then [] :: split_commas s'
      else match split_commas s' with
           | t :: ts => (x :: t) :: ts
           | [] => [[x]]
           end
  end.

Definition code (c : ascii) : Z := Z.of_nat (nat_of_ascii c).

Definition isdigit (c : ascii) : bool := (48 <=? code c) && (code c <=? 57).

(** [isspace] in the C locale: space, and HT, LF, VT, FF, CR. *)
Definition isspace (c : ascii) : bool :=
  (code c =? 32) || ((9 <=? code c) && (code c <=? 13)).

Definition digit_val (c : ascii) : Z := code c - 48.

Definition digit_char (d : Z) : ascii := ascii_of_nat (Z.to_nat (48 + d)).

Fixpoint skip_space (s : list ascii) : list ascii :=
  match s with
  | c :: s' => if isspace c then skip_space s' else s
  | [] => []
  end.

Fixpoint scan_digits (acc : Z) (s : list ascii) : Z * list ascii :=
  match s with
  | c :: s' => if isdigit c then scan_digits (acc * 10 + digit_val c) s' else (acc, s)
  | [] => (acc, [])
  end.

(** ** Article numbers *)

(** Modelled from the spec: the declaration of [anum_t] (nntp_private.h) is
    not among the sources.  The spec calls article numbers unsigned and
    newsrc.c formats them with ["%u"], so [anum_t] is [unsigned int], 32
    bits wide; [ANUM] is its [scanf] conversion ["%u"]. *)
Definition ANUM_BITS : Z := 32.
Definition ANUM_MAX : Z := 2 ^ ANUM_BITS - 1.
Definition wrap (z : Z) : Z := z mod 2 ^ ANUM_BITS.

Definition ULONG_MAX : Z := 2 ^ 64 - 1.

(** What [strtoul] returns for the digits' value [v]: saturation at
    [ULONG_MAX], negation modulo [2^64] after a minus sign. *)
Definition strtoul_value (neg : bool) (v : Z) : Z :=
  if ULONG_MAX <? v then ULONG_MAX
  else if neg then (- v) mod 2 ^ 64 else v.

(** One [ANUM] conversion of [sscanf]: white space is skipped, a sign is
    accepted, at least one digit is required; the value is stored in an
    [unsigned int].  The result is the number and the unread input;
    [None] is a matching or input failure. *)
Definition scan_u (s : list ascii) : option (Z * list ascii) :=
  let s1 := skip_space s in
  let '(neg, s2) :=
    match s1 with
    | c :: r => if Ascii.eqb c "-" then (true, r)
                else if Ascii.eqb c "+" then (false, r) else (false, s1)
    | [] => (false, s1)
    end in
  match s2 with
  | c :: _ =>
      if isdigit c then
        let '(v, rest) := scan_digits 0 s2 in Some (wrap (strtoul_value neg v), rest)
      else None
  | [] => None
  end.

(** ["%u"] of [printf]: the decimal digits, most significant first. *)
Fixpoint print_digits (fuel : nat) (n : Z) (acc : list ascii) : list ascii :=
  match fuel with
  | O => acc
  | S fuel' =>
      let acc' := digit_char (n mod 10) :: acc in
      if n <? 10 then acc' else print_digits fuel' (n / 10) acc'
  end.

Definition print_u (n : Z) : list ascii := print_digits 10 n [].

(** ** Data model *)

(** Modelled from the spec: [struct NewsrcEntry] (nntp.h) is not among the
    sources; it is the closed interval [first .. last] of read articles. *)
Record NewsrcEntry := { e_first : Z; e_last : Z }.

(** The entry [1-0]: nothing read yet. *)
Definition sentinel : NewsrcEntry := {| e_first := 1; e_last := 0 |}.

(** Modelled from the spec: [struct NntpMboxData] (nntp.h) is not among the
    sources; these are the fields newsrc.c reads and writes.  [newsrc_ent]
    is [None] for a NULL array and [newsrc_len] is the length of the list. *)
Record NntpMboxData := {
  group : list ascii;
  first_message : Z;
  last_message : Z;
  last_loaded : Z;
  last_cached : Z;
  unread : Z;
  subscribed : bool;
  mdata_deleted : bool;
  newsrc_ent : option (list NewsrcEntry)
}.

Definition newsrc_len (mdata : NntpMboxData) : nat :=
  match newsrc_ent mdata with Some ents => length ents | None => 0%nat end.

Definition set_unread (v : Z) (m : NntpMboxData) : NntpMboxData :=
  {| group := group m; first_message := first_message m; last_message := last_message m;
     last_loaded := last_loaded m; last_cached := last_cached m; unread := v;
     subscribed := subscribed m; mdata_deleted := mdata_deleted m;
     newsrc_ent := newsrc_ent m |}.

Definition set_subscribed (v : bool) (m : NntpMboxData) : NntpMboxData :=
  {| group := group m; first_message := first_message m; last_message := last_message m;
     last_loaded := last_loaded m; last_cached := last_cached m; unread := unread m;
     subscribed := v; mdata_deleted := mdata_deleted m;
     newsrc_ent := newsrc_ent m |}.

Definition set_newsrc_ent (v : option (list NewsrcEntry)) (m : NntpMboxData) : NntpMboxData :=
  {| group := group m; first_message := first_message m; last_message := last_message m;
     last_loaded := last_loaded m; last_cached := last_cached m; unread := unread m;
     subscribed := subscribed m; mdata_deleted := mdata_deleted m;
     newsrc_ent := v |}.

Definition set_last_message (v : Z) (m : NntpMboxData) : NntpMboxData :=
  {| group := group m; first_message := first_message m; last_message := v;
     last_loaded := last_loaded m; last_cached := last_cached m; unread := unread m;
     subscribed := subscribed m; mdata_deleted := mdata_deleted m;
     newsrc_ent := newsrc_ent m |}.

Definition set_last_cached (v : Z) (m : NntpMboxData) : NntpMboxData :=
  {| group := group m; first_message := first_message m; last_message := last_message m;
     last_loaded := last_loaded m; last_cached := v; unread := unread m;
     subscribed := subscribed m; mdata_deleted := mdata_deleted m;
     newsrc_ent := newsrc_ent m |}.

(** Modelled from the spec: [struct NntpAccountData] (nntp.h) is not among
    the sources.  A pointer to a group is its position in [groups_list]:
    the array only grows, and [groups_hash] maps a name to that position.
    [fp_newsrc] tells whether the locked handle on the newsrc file is open. *)
Record NntpAccountData := {
  newsrc_file : list ascii;
  fp_newsrc : bool;
  size : Z;
  mtime : Z;
  newsrc_modified : bool;
  groups_hash : gmap (list ascii) nat;
  groups_list : list NntpMboxData
}.

Definition set_fp_newsrc (v : bool) (a : NntpAccountData) : NntpAccountData :=
  {| newsrc_file := newsrc_file a; fp_newsrc := v; size := size a; mtime := mtime a;
     newsrc_modified := newsrc_modified a; groups_hash := groups_hash a;
     groups_list := groups_list a |}.

Definition set_groups_list (v : list NntpMboxData) (a : NntpAccountData) : NntpAccountData :=
  {| newsrc_file := newsrc_file a; fp_newsrc := fp_newsrc a; size := size a; mtime := mtime a;
     newsrc_modified := newsrc_modified a; groups_hash := groups_hash a;
     groups_list := v |}.

Definition set_stat (sz mt : Z) (a : NntpAccountData) : NntpAccountData :=
  {| newsrc_file := newsrc_file a; fp_newsrc := fp_newsrc a; size := sz; mtime := mt;
     newsrc_modified := newsrc_modified a; groups_hash := groups_hash a;
     groups_list := groups_list a |}.

Definition set_newsrc_modified (v : bool) (a : NntpAccountData) : NntpAccountData :=
  {| newsrc_file := newsrc_file a; fp_newsrc := fp_newsrc a; size := size a; mtime := mtime a;
     newsrc_modified := v; groups_hash := groups_hash a;
     groups_list := groups_list a |}.

(** [mutt_hash_find(adata->groups_hash, group)], with the group it points to. *)
Definition hash_find (adata : NntpAccountData) (name : list ascii) : option (nat * NntpMboxData) :=
  match groups_hash adata !! name with
  | Some i => match groups_list adata !! i with
              | Some mdata => Some (i, mdata)
              | None => None
              end
  | None => None
  end.

(** [*ptr = mdata] for a pointer into [groups_list]. *)
Definition store_mdata (i : nat) (mdata : NntpMboxData) (adata : NntpAccountData) : NntpAccountData :=
  set_groups_list (<[i := mdata]> (groups_list adata)) adata.

(** Modelled from the spec: [struct Email] and the NNTP data hanging off it
    ([nntp_edata_get(e)->article_num]) are not among the sources. *)
Record Email := { article_num : Z; read : bool; deleted : bool }.

Definition set_read (v : bool) (e : Email) : Email :=
  {| article_num := article_num e; read := v; deleted := deleted e |}.

Inductive MailboxType :=
| MUTT_MAILBOX_ANY | MUTT_MAILBOX_ERROR | MUTT_UNKNOWN | MUTT_MBOX | MUTT_MMDF
| MUTT_MH | MUTT_MAILDIR | MUTT_NNTP | MUTT_IMAP | MUTT_NOTMUCH | MUTT_POP
| MUTT_COMPRESSED.

Definition is_nntp (t : MailboxType) : bool :=
  match t with MUTT_NNTP => true | _ => false end.

(** [struct Mailbox] (core/mailbox.h), the fields newsrc.c uses: [emails]
    holds [msg_count] messages.  [m->mdata] is an untyped pointer; newsrc.c
    compares it with a group's address ([mbox_mdata], a position in
    [groups_list]) and reads the name of the group it points to
    ([mbox_group]). *)
Record Mailbox := {
  magic : MailboxType;
  emails : list Email;
  mbox_mdata : nat;
  mbox_group : list ascii
}.

Definition set_emails (v : list Email) (m : Mailbox) : Mailbox :=
  {| magic := magic m; emails := v; mbox_mdata := mbox_mdata m; mbox_group := mbox_group m |}.

(** ** The group registry *)

(** A group as [mutt_mem_calloc] and [mdata_find] leave it. *)
Definition mdata_new (name : list ascii) : NntpMboxData :=
  {| group := name; first_message := 0; last_message := 0; last_loaded := 0;
     last_cached := 0; unread := 0; subscribed := false; mdata_deleted := true;
     newsrc_ent := None |}.

Definition mdata_find (adata : NntpAccountData) (name : list ascii) : NntpAccountData * nat :=
  match groups_hash adata !! name with
  | Some i => (adata, i)
  | None =>
      let i := length (groups_list adata) in
      ({| newsrc_file := newsrc_file adata; fp_newsrc := fp_newsrc adata;
          size := size adata; mtime := mtime adata;
          newsrc_modified := newsrc_modified adata;
          groups_hash := <[name := i]> (groups_hash adata);
          groups_list := groups_list adata ++ [mdata_new name] |}, i)
  end.

(** ** Unread count from the newsrc ranges *)

Definition unread_step (fm lm : Z) (u : Z) (e : NewsrcEntry) : Z :=
  let first := if e_first e <? fm then fm else e_first e in
  let last := if lm <? e_last e then lm else e_last e in
  if first <=? last then wrap (u - wrap (wrap (last - first) + 1)) else u.

Definition nntp_group_unread_stat (mdata : NntpMboxData) : NntpMboxData :=
  if (last_message mdata =? 0) || (last_message mdata <? first_message mdata)
  then set_unread 0 mdata
  else
    let u0 := wrap (wrap (last_message mdata - first_message mdata) + 1) in
    let ents := match newsrc_ent mdata with Some ents => ents | None => [] end in
    set_unread (fold_left (unread_step (first_message mdata) (last_message mdata)) ents u0) mdata.

(** ** Reading the newsrc file *)

(** One range token: [first-last] or a single number. *)
Definition scan_entry (tok : list ascii) : option NewsrcEntry :=
  let '(b, h) := match strchr_cut "-" tok with
                 | Some (b, h) => (b, h)
                 | None => (tok, tok)
                 end in
  match scan_u b with
  | Some (f, _) =>
      match scan_u h with
      | Some (l, _) => Some {| e_first := f; e_last := l |}
      | None => None
      end
  | None => None
  end.

(** The entries a range list yields: a token that does not scan leaves
    [j] where it was. *)
Fixpoint parse_entries (toks : list (list ascii)) : list NewsrcEntry :=
  match toks with
  | [] => []
  | t :: toks' =>
      match scan_entry t with
      | Some e => e :: parse_entries toks'
      | None => parse_entries toks'
      end
  end.

(** What one line of the file says: the group, its mark and its ranges;
    [None] when the line has neither [':'] nor ['!']. *)
Definition newsrc_line_fields (line : list ascii)
  : option (list ascii * bool * list NewsrcEntry) :=
  match strpbrk_cut [":"; "!"] (cstr line) with
  | None => None
  | Some (name, mark, rest) =>
      let ents := parse_entries (split_commas rest) in
      Some (name, Ascii.eqb mark ":",
            match ents with [] => [sentinel] | _ => ents end)
  end.

(** The body of the [while (... fgets ...)] loop of [nntp_newsrc_parse]. *)
Definition newsrc_parse_line (adata : NntpAccountData) (line : list ascii) : NntpAccountData :=
  match newsrc_line_fields line with
  | None => adata
  | Some (name, subs, ents) =>
      let '(adata1, i) := mdata_find adata name in
      match groups_list adata1 !! i with
      | None => adata1
      | Some mdata =>
          let mdata1 := set_subscribed subs (set_newsrc_ent (Some ents) mdata) in
          let mdata2 :=
            if last_message mdata1 =? 0
            then set_last_message (e_last (List.last ents sentinel)) mdata1
            else mdata1 in
          store_mdata i (nntp_group_unread_stat mdata2) adata1
      end
  end.

(** [fgets(line, n + 1, fp)]: at most [n] characters, up to and with the
    first newline; the second component is what is left of the file. *)
Fixpoint fgets (n : nat) (s : list ascii) : list ascii * list ascii :=
  match n, s with
  | O, _ => ([], s)
  | _, [] => ([], [])
  | S n', c :: s' =>
      if Ascii.eqb c "010" then ([c], s')
      else let '(l, r) := fgets n' s' in (c :: l, r)
  end.

(** The lines the loop sees until [fgets] meets the end of the file. *)
Fixpoint read_lines (fuel n : nat) (s : list ascii) : list (list ascii) :=
  match fuel with
  | O => []
  | S fuel' =>
      match s with
      | [] => []
      | _ => let '(l, r) := fgets n s in l :: read_lines fuel' n r
      end
  end.

(** What the system calls of [nntp_newsrc_parse] return. *)
Record newsrc_io := {
  io_fopen_ok : bool;
  io_lock_ok : bool;
  io_stat : option (Z * Z);
  io_content : list ascii
}.

Definition reset_group (mdata : NntpMboxData) : NntpMboxData :=
  set_newsrc_ent None (set_subscribed false mdata).

(** [nntp_newsrc_parse]: [-1] error, [0] not changed, [1] parsed. *)
Definition nntp_newsrc_parse (io : newsrc_io) (adata : NntpAccountData) : Z * NntpAccountData :=
  if negb (io_fopen_ok io) then (-1, set_fp_newsrc false adata)
  else if negb (io_lock_ok io) then (-1, set_fp_newsrc false adata)
  else match io_stat io with
       | None => (-1, set_fp_newsrc false adata)
       | Some (sz, mt) =>
           if (size adata =? sz) && (mtime adata =? mt)
           then (0, set_fp_newsrc true adata)
           else
             let adata1 := set_newsrc_modified true (set_stat sz mt (set_fp_newsrc true adata)) in
             let adata2 := set_groups_list (map reset_group (groups_list adata1)) adata1 in
             let lines :=
               if sz =? 0 then []
               else read_lines (length (io_content io)) (Z.to_nat sz) (io_content io) in
             (1, fold_left newsrc_parse_line lines adata2)
       end.

(** ** Ranges from the flags of the open mailbox *)

Record gen_state := {
  gs_ents : list NewsrcEntry;
  gs_series : bool;
  gs_first : Z;
  gs_last : Z
}.

Definition gen_init : gen_state :=
  {| gs_ents := []; gs_series := true; gs_first := 1; gs_last := 0 |}.

(** One turn of the [for] loop of [nntp_newsrc_gen_entries]. *)
Definition gen_step (fm : Z) (st : gen_state) (e : Email) : gen_state :=
  if gs_series st then
    let last := article_num e in
    if (fm <=? last) && negb (deleted e) && negb (read e) then
      {| gs_ents := gs_ents st ++ [{| e_first := gs_first st; e_last := wrap (last - 1) |}];
         gs_series := false; gs_first := gs_first st; gs_last := last |}
    else
      {| gs_ents := gs_ents st; gs_series := true; gs_first := gs_first st; gs_last := last |}
  else
    if deleted e || read e then
      {| gs_ents := gs_ents st; gs_series := true;
         gs_first := wrap (gs_last st + 1); gs_last := article_num e |}
    else
      {| gs_ents := gs_ents st; gs_series := false;
         gs_first := gs_first st; gs_last := article_num e |}.

(** The entries [nntp_newsrc_gen_entries] leaves in [newsrc_ent]. *)
Definition gen_entries (fm ll : Z) (es : list Email) : list NewsrcEntry :=
  let st := fold_left (gen_step fm) es gen_init in
  if gs_series st && (gs_first st <=? ll)
  then gs_ents st ++ [{| e_first := gs_first st; e_last := ll |}]
  else gs_ents st.

(** [nntp_newsrc_gen_entries] on a mailbox in [SORT_ORDER]; the final
    [mutt_mem_realloc] to no entries at all frees the array. *)
Definition nntp_newsrc_gen_entries (m : Mailbox) (mdata : NntpMboxData) : NntpMboxData :=
  match gen_entries (first_message mdata) (last_loaded mdata) (emails m) with
  | [] => set_newsrc_ent None mdata
  | ents => set_newsrc_ent (Some ents) mdata
  end.

(** ** Writing the newsrc file *)

(** The text of one entry: a single number, [first-last], or nothing at
    all when [first > last] (no [snprintf] is made then, and the byte at
    [off] is taken to be the NUL of a buffer still filled with zeros). *)
Definition entry_text (e : NewsrcEntry) : list ascii :=
  if e_first e =? e_last e then print_u (e_first e)
  else if e_first e <? e_last e then print_u (e_first e) ++ "-" :: print_u (e_last e)
  else [].

(** The output buffer of [nntp_newsrc_update]: the [off] characters
    written so far and the allocated size [buflen]. *)
Record out_buf := { ob_text : list ascii; ob_len : Z }.

Definition ob_off (b : out_buf) : Z := Z.of_nat (length (ob_text b)).

(** [if (off + need > buflen) { buflen *= 2; mutt_mem_realloc(&buf, buflen); }] *)
Definition ob_reserve (need : Z) (b : out_buf) : out_buf :=
  if ob_len b <? ob_off b + need
  then {| ob_text := ob_text b; ob_len := 2 * ob_len b |}
  else b.

(** [snprintf(buf + off, buflen - off, ...); off += strlen(buf + off);]
    at most [buflen - off - 1] characters of the text are written. *)
Definition ob_snprintf (s : list ascii) (b : out_buf) : out_buf :=
  {| ob_text := ob_text b ++ take (Z.to_nat (ob_len b - ob_off b - 1)) s;
     ob_len := ob_len b |}.

(** [buf[off++] = c;] *)
Definition ob_putc (c : ascii) (b : out_buf) : out_buf :=
  {| ob_text := ob_text b ++ [c]; ob_len := ob_len b |}.

(** The [for (j ...)] loop of [nntp_newsrc_update], from entry [j] on. *)
Fixpoint write_entries (j : nat) (ents : list NewsrcEntry) (b : out_buf) : out_buf :=
  match ents with
  | [] => b
  | e :: ents' =>
      let b1 := ob_reserve 1024 b in
      let b2 := match j with O => b1 | _ => ob_putc "," b1 end in
      write_entries (S j) ents' (ob_snprintf (entry_text e) b2)
  end.

(** One turn of the [for (i ...)] loop: a group without an entry array
    is passed over. *)
Definition write_group (b : out_buf) (mdata : NntpMboxData) : out_buf :=
  match newsrc_ent mdata with
  | None => b
  | Some ents =>
      let b1 := ob_reserve (Z.of_nat (length (group mdata)) + 3) b in
      let b2 := ob_snprintf (group mdata ++ [if subscribed mdata then ":" else "!"; " "]) b1 in
      ob_putc "010" (write_entries 0 ents b2)
  end.

Definition newsrc_buf_init : out_buf := {| ob_text := []; ob_len := 10240 |}.

(** The text [nntp_newsrc_update] hands to [update_file]. *)
Definition newsrc_buf (adata : NntpAccountData) : list ascii :=
  ob_text (fold_left write_group (groups_list adata) newsrc_buf_init).

(** What the system calls of [update_file] return; [w_partial] is how
    much of the text reached the temporary file when writing it failed. *)
Record file_io := {
  w_fopen_ok : bool;
  w_fputs_ok : bool;
  w_fclose_ok : bool;
  w_rename_ok : bool;
  w_unlink_ok : bool;
  w_partial : nat
}.

(** [limits.h]. *)
Definition PATH_MAX : Z := 4096.

(** [snprintf(tmpfile, sizeof(tmpfile), "%s.tmp", filename)] *)
Definition tmp_name (filename : list ascii) : list ascii :=
  take (Z.to_nat (PATH_MAX - 1)) (filename ++ str ".tmp").

Definition unlink (io : file_io) (path : list ascii)
    (fs : gmap (list ascii) (list ascii)) : gmap (list ascii) (list ascii) :=
  if w_unlink_ok io then delete path fs else fs.

(** [update_file]: the file system maps a path to the bytes of the file. *)
Definition update_file (io : file_io) (fs : gmap (list ascii) (list ascii))
    (filename buf : list ascii) : Z * gmap (list ascii) (list ascii) :=
  let tmpfile := tmp_name filename in
  if negb (w_fopen_ok io) then (-1, fs)
  else
    let fs1 := <[tmpfile := []]> fs in
    if negb (w_fputs_ok io)
    then (-1, unlink io tmpfile (<[tmpfile := take (w_partial io) (cstr buf)]> fs1))
    else if negb (w_fclose_ok io)
    then (-1, unlink io tmpfile (<[tmpfile := take (w_partial io) (cstr buf)]> fs1))
    else
      let fs2 := <[tmpfile := cstr buf]> fs1 in
      if negb (w_rename_ok io) then (-1, unlink io tmpfile fs2)
      else
        (0, <[filename := cstr buf]> (delete tmpfile fs2)).


(** ** Subscription commands *)

(** The commands return the group's address, [None] for NULL.
    Modelled from the spec: [mutt_set_flag] is not among the sources; with
    [MUTT_READ] it sets the read flag of the message. *)

Definition mutt_newsgroup_subscribe (adata : NntpAccountData) (name : list ascii)
  : option nat * NntpAccountData :=
  match name with
  | [] => (None, adata)
  | _ =>
      let '(adata1, i) := mdata_find adata name in
      match groups_list adata1 !! i with
      | None => (None, adata1)
      | Some mdata =>
          let mdata1 := set_subscribed true mdata in
          let mdata2 := match newsrc_ent mdata1 with
                        | None => set_newsrc_ent (Some [sentinel]) mdata1
                        | Some _ => mdata1
                        end in
          (Some i, store_mdata i mdata2 adata1)
      end
  end.

(** [C_SaveUnsubscribed] is the configuration variable [save_unsubscribed]. *)
Definition mutt_newsgroup_unsubscribe (C_SaveUnsubscribed : bool)
    (adata : NntpAccountData) (name : list ascii) : option nat * NntpAccountData :=
  match name with
  | [] => (None, adata)
  | _ =>
      match hash_find adata name with
      | None => (None, adata)
      | Some (i, mdata) =>
          let mdata1 := set_subscribed false mdata in
          let mdata2 := if C_SaveUnsubscribed then mdata1 else set_newsrc_ent None mdata1 in
          (Some i, store_mdata i mdata2 adata)
      end
  end.

Definition is_open_on (m : option Mailbox) (i : nat) : bool :=
  match m with
  | Some mb => Nat.eqb (mbox_mdata mb) i
  | None => false
  end.

Definition mark_all (v : bool) (m : option Mailbox) : option Mailbox :=
  match m with
  | Some mb => Some (set_emails (map (set_read v) (emails mb)) mb)
  | None => None
  end.

Definition mutt_newsgroup_catchup (m : option Mailbox) (adata : NntpAccountData)
    (name : list ascii) : option nat * option Mailbox * NntpAccountData :=
  match name with
  | [] => (None, m, adata)
  | _ =>
      match hash_find adata name with
      | None => (None, m, adata)
      | Some (i, mdata) =>
          let mdata1 :=
            match newsrc_ent mdata with
            | Some _ => set_newsrc_ent
                          (Some [{| e_first := 1; e_last := last_message mdata |}]) mdata
            | None => mdata
            end in
          let mdata2 := set_unread 0 mdata1 in
          (Some i, if is_open_on m i then mark_all true m else m,
           store_mdata i mdata2 adata)
      end
  end.

Definition mutt_newsgroup_uncatchup (m : option Mailbox) (adata : NntpAccountData)
    (name : list ascii) : option nat * option Mailbox * NntpAccountData :=
  match name with
  | [] => (None, m, adata)
  | _ =>
      match hash_find adata name with
      | None => (None, m, adata)
      | Some (i, mdata) =>
          let mdata1 :=
            match newsrc_ent mdata with
            | Some _ => set_newsrc_ent
                          (Some [{| e_first := 1; e_last := wrap (first_message mdata - 1) |}])
                          mdata
            | None => mdata
            end in
          if is_open_on m i then
            let count := match m with Some mb => Z.of_nat (length (emails mb)) | None => 0 end in
            (Some i, mark_all false m, store_mdata i (set_unread (wrap count) mdata1) adata)
          else
            let u := last_message mdata1 in
            let u' := match newsrc_ent mdata1 with
                      | Some ents => wrap (u - e_last (List.hd sentinel ents))
                      | None => u
                      end in
            (Some i, m, store_mdata i (set_unread u' mdata1) adata)
      end
  end.

(** ** The next group with unread articles *)

(** The count [nntp_mailbox] makes over the open mailbox; [msg_count] is
    an [int], so the [unsigned int] counter cannot wrap. *)
Definition live_unread (m : Mailbox) : Z :=
  fold_left (fun u e => if negb (read e) && negb (deleted e) then u + 1 else u) (emails m) 0.

(** The [for] loop of [nntp_mailbox] over [groups_list]: the name it
    copies out, if it reaches the [break]. *)
Fixpoint nntp_mailbox_scan (m : Mailbox) (gl : list NntpMboxData) : option (list ascii) :=
  match gl with
  | [] => None
  | mdata :: rest =>
      if negb (subscribed mdata) || (unread mdata =? 0) then nntp_mailbox_scan m rest
      else if is_nntp (magic m) && bool_decide (group mdata = mbox_group m) then
        if live_unread m =? 0 then nntp_mailbox_scan m rest else Some (group mdata)
      else Some (group mdata)
  end.

(** Modelled from the spec: [mutt_str_strfcpy] is not among the sources;
    it copies at most [dsize - 1] characters and does nothing when
    [dsize] is 0. *)
Definition mutt_str_strfcpy (dest src : list ascii) (dsize : nat) : list ascii :=
  match dsize with
  | O => dest
  | S n => take n src
  end.

(** [nntp_mailbox]: the contents of [buf] afterwards; [CurrentNewsSrv] is
    the global it reads. *)
Definition nntp_mailbox (CurrentNewsSrv : NntpAccountData) (m : option Mailbox)
    (buf : list ascii) (buflen : nat) : list ascii :=
  match m with
  | None => buf
  | Some mb =>
      match nntp_mailbox_scan mb (groups_list CurrentNewsSrv) with
      | Some name => mutt_str_strfcpy buf name buflen
      | None => buf
      end
  end.

(** ** Trimming the caches *)

(** [sscanf(id, ANUM "%c", &anum, &c) == 1]: a number and nothing after it. *)
Definition scan_id (id : list ascii) : option Z :=
  match scan_u (cstr id) with
  | Some (n, []) => Some n
  | _ => None
  end.

(** Modelled from the spec: the body cache (bcache.h) is not among the
    sources; it is the set of the ids it holds, [mutt_bcache_del] removes
    one and [mutt_bcache_list] calls back on each. *)
Definition mutt_bcache_del (bcache : gset (list ascii)) (id : list ascii) : gset (list ascii) :=
  bcache ∖ {[ id ]}.

(** [nntp_bcache_delete]; [data] is the group, or NULL to delete all. *)
Definition nntp_bcache_delete (id : list ascii) (bcache : gset (list ascii))
    (data : option NntpMboxData) : gset (list ascii) :=
  match data with
  | None => mutt_bcache_del bcache id
  | Some mdata =>
      match scan_id id with
      | Some anum =>
          if (anum <? first_message mdata) || (last_message mdata <? anum)
          then mutt_bcache_del bcache id
          else bcache
      | None => mutt_bcache_del bcache id
      end
  end.

Definition mutt_bcache_list (bcache : gset (list ascii))
    (want_id : list ascii -> gset (list ascii) -> option NntpMboxData -> gset (list ascii))
    (data : option NntpMboxData) : gset (list ascii) :=
  foldl (fun bc id => want_id id bc data) bcache (elements bcache).

Definition nntp_bcache_update (mdata : NntpMboxData) (bcache : gset (list ascii))
  : gset (list ascii) :=
  mutt_bcache_list bcache nntp_bcache_delete (Some mdata).

(** [sscanf(hdata, ANUM " " ANUM, &first, &last) == 2] *)
Definition scan_index (hdata : list ascii) : option (Z * Z) :=
  match scan_u (cstr hdata) with
  | Some (f, r) =>
      match scan_u r with
      | Some (l, _) => Some (f, l)
      | None => None
      end
  | None => None
  end.

Definition index_text (fm lm : Z) : list ascii :=
  print_u fm ++ " " :: print_u lm ++ [zero].

(** One turn of the cleaning loop of [nntp_hcache_update]. *)
Definition hcache_clean (fm lm : Z) (hc : gmap (list ascii) (list ascii)) (current : Z)
  : gmap (list ascii) (list ascii) :=
  if (fm <=? current) && (current <=? lm) then hc
  else delete (print_u current) hc.

(** Modelled from the spec: the header cache (hcache/hcache.h) is not among
    the sources; it is a map from keys to raw data with fetch, store and
    delete.
    [nntp_hcache_update] on an open cache; [None] when the cleaning loop
    does not end ([current <= last] with [last = UINT_MAX]). *)
Definition nntp_hcache_update (mdata : NntpMboxData) (hc : gmap (list ascii) (list ascii))
  : option (NntpMboxData * gmap (list ascii) (list ascii)) :=
  let fm := first_message mdata in
  let lm := last_message mdata in
  let store := <[str "index" := index_text fm lm]> in
  match hc !! str "index" with
  | Some hdata =>
      match scan_index hdata with
      | Some (first, last) =>
          if last =? ANUM_MAX then None
          else
            let hc1 := foldl (hcache_clean fm lm) hc (seqZ first (last - first + 1)) in
            Some (set_last_cached last mdata,
                  if negb (fm =? first) || negb (lm =? last) then store hc1 else hc1)
      | None => Some (mdata, store hc)
      end
  | None => Some (mdata, store hc)
  end.

(** ** Notions used to state the properties *)

(** The articles of an entry that lie in the window [fm .. lm]. *)
Definition clamped_len (fm lm : Z) (e : NewsrcEntry) : Z :=
  let lo := Z.max (e_first e) fm in
  let hi := Z.min (e_last e) lm in
  if lo <=? hi then hi - lo + 1 else 0.

Definition read_in_window (fm lm : Z) (ents : list NewsrcEntry) : Z :=
  fold_right Z.add 0 (map (clamped_len fm lm) ents).

(** The unread count as a difference of integers, before any wrap-around. *)
Definition window_minus_read (fm lm : Z) (ents : list NewsrcEntry) : Z :=
  (lm - fm + 1) - read_in_window fm lm ents.

Definition ranges_of (mdata : NntpMboxData) : list NewsrcEntry :=
  match newsrc_ent mdata with Some ents => ents | None => [] end.

Definition bounds_1_10 (ents : list NewsrcEntry) : NntpMboxData :=
  {| group := str "g"; first_message := 1; last_message := 10; last_loaded := 0;
     last_cached := 0; unread := 0; subscribed := true; mdata_deleted := false;
     newsrc_ent := Some ents |}.


(** An article number lies in an entry, in one of a list of entries. *)
Definition covers (e : NewsrcEntry) (n : Z) : Prop := e_first e <= n <= e_last e.

Definition covered (ents : list NewsrcEntry) (n : Z) : Prop :=
  Exists (fun e => covers e n) ents.


(** The messages of the mailbox, by strictly increasing article number,
    all above [lo]. *)
Fixpoint increasing (lo : Z) (es : list Email) : Prop :=
  match es with
  | [] => True
  | e :: es' => lo < article_num e /\ increasing (article_num e) es'
  end.

(** A loaded article that counts as read: read, deleted, or below the
    first article of the group. *)
Definition counts_read (fm : Z) (e : Email) : bool :=
  read e || deleted e || (article_num e <? fm).

(** Whether the number [n] counts as read, given the loaded articles and
    whether the article before them does: a loaded article by its own
    flags, a number that is not loaded like its neighbours (read unless
    both are unread, and like the last article after the end). *)
Fixpoint counted_read (fm : Z) (prev : bool) (es : list Email) (n : Z) : bool :=
  match es with
  | [] => prev
  | e :: es' =>
      if n <? article_num e then prev || counts_read fm e
      else if n =? article_num e then counts_read fm e
      else counted_read fm (counts_read fm e) es' n
  end.



(** The entries still to come from a state of the loop of
    [nntp_newsrc_gen_entries], the trailing one included. *)
Fixpoint gen_tail (fm ll : Z) (series : bool) (first last : Z) (es : list Email)
  : list NewsrcEntry :=
  match es with
  | [] => if series && (first <=? ll) then [{| e_first := first; e_last := ll |}] else []
  | e :: es' =>
      if series then
        if (fm <=? article_num e) && negb (deleted e) && negb (read e)
        then {| e_first := first; e_last := wrap (article_num e - 1) |}
               :: gen_tail fm ll false first (article_num e) es'
        else gen_tail fm ll true first (article_num e) es'
      else
        if deleted e || read e
        then gen_tail fm ll true (wrap (last + 1)) (article_num e) es'
        else gen_tail fm ll false first (article_num e) es'
  end.

Definition flags_1_to_5 : list Email :=
  [ {| article_num := 1; read := true; deleted := false |};
    {| article_num := 2; read := true; deleted := false |};
    {| article_num := 3; read := false; deleted := false |};
    {| article_num := 4; read := true; deleted := false |};
    {| article_num := 5; read := false; deleted := false |} ].

(** The end of [nntp_newsrc_gen_entries]: the trailing entry, if any. *)
Definition gen_finish (ll : Z) (st : gen_state) : list NewsrcEntry :=
  if gs_series st && (gs_first st <=? ll)
  then gs_ents st ++ [{| e_first := gs_first st; e_last := ll |}]
  else gs_ents st.

Definition mailbox_1_to_5 : Mailbox :=
  {| magic := MUTT_NNTP; emails := flags_1_to_5; mbox_mdata := 0%nat;
     mbox_group := str "g" |}.

Definition group_1_to_5 : NntpMboxData :=
  {| group := str "g"; first_message := 1; last_message := 5; last_loaded := 5;
     last_cached := 0; unread := 0; subscribed := true; mdata_deleted := false;
     newsrc_ent := None |}.

(** An interval with [lo <= hi] whose ends are article numbers. *)
Definition valid_entry (e : NewsrcEntry) : Prop :=
  0 <= e_first e <= e_last e /\ e_last e <= ANUM_MAX.

(** A character a group name can hold without ending the name early. *)
Definition name_char (c : ascii) : Prop := c <> zero /\ c <> ":" /\ c <> "!".

(** The characters of a written range list: digits, ['-'] and [',']. *)
Definition range_char (c : ascii) : Prop := isdigit c = true \/ c = "-" \/ c = ",".

(** What precedes the first number of a written range list (nothing, or
    the space after the mark) and what follows the last one (nothing, or
    the end of the line). *)
Definition blank (pre : list ascii) : Prop := pre = [] \/ pre = [" "].
Definition eol (post : list ascii) : Prop := post = [] \/ post = ["010"].

(** Every name in the hash points into the array of groups. *)
Definition registry_ok (adata : NntpAccountData) : Prop :=
  forall name i, groups_hash adata !! name = Some i ->
                 (i < length (groups_list adata))%nat.

Definition empty_account : NntpAccountData :=
  {| newsrc_file := str "/home/user/.newsrc"; fp_newsrc := false; size := 0; mtime := 0;
     newsrc_modified := false; groups_hash := ∅; groups_list := [] |}.

Definition caught_up_group : NntpMboxData :=
  {| group := str "alt.test"; first_message := 1; last_message := 10;
     last_loaded := 0; last_cached := 0; unread := 0; subscribed := true;
     mdata_deleted := false;
     newsrc_ent := Some [ {| e_first := 1; e_last := 10 |} ] |}.

(** An account whose only group has been caught up by hand since the
    newsrc file (29 bytes, modification time 5) was last read. *)
Definition account_after_catchup : NntpAccountData :=
  {| newsrc_file := str "/home/user/.newsrc"; fp_newsrc := true; size := 29; mtime := 5;
     newsrc_modified := false;
     groups_hash := {[ str "alt.test" := 0%nat ]};
     groups_list := [ caught_up_group ] |}.

Definition unchanged_file : newsrc_io :=
  {| io_fopen_ok := true; io_lock_ok := true; io_stat := Some (29, 5);
     io_content := text_line "alt.test: 1-3" ++ text_line "comp.lang.c! 1" |}.



Definition one_newsrc : gmap (list ascii) (list ascii) :=
  {[ str "/home/user/.newsrc" := text_line "alt.test: 1-3" ]}.

(** A registry whose only group is known from the server's list but has
    no entry array: it was never in the newsrc file. *)
Definition account_no_ranges : NntpAccountData :=
  {| newsrc_file := str "/home/user/.newsrc"; fp_newsrc := true; size := 30; mtime := 5;
     newsrc_modified := false;
     groups_hash := {[ str "alt.test" := 0%nat ]};
     groups_list :=
       [ {| group := str "alt.test"; first_message := 1; last_message := 10;
            last_loaded := 0; last_cached := 0; unread := 10; subscribed := false;
            mdata_deleted := false; newsrc_ent := None |} ] |}.

(** The registry after [mutt_newsgroup_catchup] and then
    [mutt_newsgroup_uncatchup] on the same group. *)
Definition catchup_uncatchup (m : option Mailbox) (adata : NntpAccountData)
    (name : list ascii) : NntpAccountData :=
  let '(_, m1, adata1) := mutt_newsgroup_catchup m adata name in
  let '(_, _, adata2) := mutt_newsgroup_uncatchup m1 adata1 name in
  adata2.

(** The messages of the open mailbox that are neither read nor deleted. *)
Definition live_count (m : Mailbox) : nat :=
  length (List.filter (fun e => negb (read e) && negb (deleted e)) (emails m)).

(** The group is the one the caller has open. *)
Definition is_open_group (m : Mailbox) (mdata : NntpMboxData) : bool :=
  is_nntp (magic m) && bool_decide (group mdata = mbox_group m).

(** A group [nntp_mailbox] stops at: subscribed, with a cached unread
    count that is not zero and, when it is the open group, with a live
    unread message. *)
Definition eligible (m : Mailbox) (mdata : NntpMboxData) : bool :=
  subscribed mdata && negb (unread mdata =? 0) &&
  (if is_open_group m mdata then negb (Nat.eqb (live_count m) 0) else true).

Definition all_read_mailbox : Mailbox :=
  {| magic := MUTT_NNTP;
     emails := [ {| article_num := 1; read := true; deleted := false |};
                 {| article_num := 2; read := false; deleted := true |} ];
     mbox_mdata := 0%nat; mbox_group := str "alt.test" |}.

Definition stale_group : NntpMboxData :=
  {| group := str "alt.test"; first_message := 1; last_message := 2; last_loaded := 2;
     last_cached := 0; unread := 2; subscribed := true; mdata_deleted := false;
     newsrc_ent := Some [sentinel] |}.

Definition other_group : NntpMboxData :=
  {| group := str "comp.lang.c"; first_message := 1; last_message := 7; last_loaded := 0;
     last_cached := 0; unread := 3; subscribed := true; mdata_deleted := false;
     newsrc_ent := Some [ {| e_first := 1; e_last := 4 |} ] |}.

(** The article number lies in the window of the group. *)
Definition in_window (mdata : NntpMboxData) (n : Z) : bool :=
  (first_message mdata <=? n) && (n <=? last_message mdata).

(** The ids [nntp_bcache_delete] leaves in the body cache of a group. *)
Definition bcache_keeps (mdata : NntpMboxData) (id : list ascii) : bool :=
  match scan_id id with
  | Some anum => negb ((anum <? first_message mdata) || (last_message mdata <? anum))
  | None => false
  end.

Definition window_100_200 : NntpMboxData :=
  {| group := str "alt.test"; first_message := 100; last_message := 200;
     last_loaded := 0; last_cached := 0; unread := 0; subscribed := true;
     mdata_deleted := false; newsrc_ent := Some [sentinel] |}.

Definition bodies_50_150_250 : gset (list ascii) :=
  {[ str "50"; str "150"; str "250" ]}.

(** A header cache whose index record says 100 .. 200 although it holds
    a header for article 50. *)
Definition headers_index_100_200 : gmap (list ascii) (list ascii) :=
  <[ str "index" := index_text 100 200 ]>
    (<[ str "50" := str "header of 50" ]>
       (<[ str "150" := str "header of 150" ]> ∅)).

(** A header cache whose index record says 40 .. 260. *)
Definition headers_index_40_260 : gmap (list ascii) (list ascii) :=
  <[ str "index" := index_text 40 260 ]>
    (<[ str "50" := str "header of 50" ]>
       (<[ str "150" := str "header of 150" ]>
          (<[ str "250" := str "header of 250" ]> ∅))).

(** What the header cache holds under [key] after [nntp_hcache_update]. *)
Definition hcache_after (mdata : NntpMboxData) (hc : gmap (list ascii) (list ascii))
    (key : list ascii) : option (option (list ascii)) :=
  match nntp_hcache_update mdata hc with
  | Some (_, hc') => Some (hc' !! key)
  | None => None
  end.

(** The text of a range list when nothing has to be cut: the entries
    from the [j]th on, with a comma before all but the first. *)
Fixpoint entries_text (j : nat) (ents : list NewsrcEntry) : list ascii :=
  match ents with
  | [] => []
  | e :: ents' =>
      (match j with O => [] | _ => [","] end) ++ entry_text e ++ entries_text (S j) ents'
  end.

(** The whole line of a group: name, mark, space, ranges, newline. *)
Definition newsrc_line (name : list ascii) (subs : bool) (ents : list NewsrcEntry) : list ascii :=
  name ++ [if subs then ":" else "!"; " "] ++ entries_text 0 ents ++ ["010"].

(** The buffer has its initial size at least and room for the final NUL. *)
Definition buf_ok (b : out_buf) : Prop := 10240 <= ob_len b /\ ob_off b < ob_len b.

(** A group the writer can write in full: a name that fits the buffer
    and at least one entry, all of them valid. *)
Definition writable_group (mdata : NntpMboxData) : Prop :=
  Z.of_nat (length (group mdata)) + 3 <= 10240 /\
  match newsrc_ent mdata with
  | Some ents => ents <> [] /\ Forall valid_entry ents
  | None => True
  end.

Definition group_text (mdata : NntpMboxData) : list ascii :=
  match newsrc_ent mdata with
  | None => []
  | Some ents => newsrc_line (group mdata) (subscribed mdata) ents
  end.

Definition ranges_with_neighbours : list NewsrcEntry :=
  [ {| e_first := 1; e_last := 2 |}; {| e_first := 3; e_last := 4 |};
    {| e_first := 3; e_last := 10 |}; {| e_first := 12; e_last := 12 |} ].

Definition group_with_neighbours : NntpMboxData :=
  {| group := str "alt.test"; first_message := 1; last_message := 20; last_loaded := 0;
     last_cached := 0; unread := 0; subscribed := true; mdata_deleted := false;
     newsrc_ent := Some ranges_with_neighbours |}.

Definition all_calls_succeed : file_io :=
  {| w_fopen_ok := true; w_fputs_ok := true; w_fclose_ok := true; w_rename_ok := true;
     w_unlink_ok := true; w_partial := 0 |}.

(** Entries in ascending order that do not overlap, the first not
    starting below [lo]; an entry may be empty, as the sentinel is. *)
Fixpoint ascending (lo : Z) (ents : list NewsrcEntry) : Prop :=
  match ents with
  | [] => True
  | e :: ents' =>
      lo <= e_first e /\ e_first e <= e_last e + 1 /\ ascending (e_last e + 1) ents'
  end.

(** * The rest of newsrc.c *)

(** ** The registry as a whole *)

(** The hash and the array agree: a name is hashed to the position of
    the group of that name, and every group of the array is hashed. *)
Definition registry_wf (adata : NntpAccountData) : Prop :=
  (forall name i, groups_hash adata !! name = Some i ->
     exists mdata, groups_list adata !! i = Some mdata /\ group mdata = name) /\
  (forall i mdata, groups_list adata !! i = Some mdata ->
     groups_hash adata !! group mdata = Some i).

Definition set_first_message (v : Z) (m : NntpMboxData) : NntpMboxData :=
  {| group := group m; first_message := v; last_message := last_message m;
     last_loaded := last_loaded m; last_cached := last_cached m; unread := unread m;
     subscribed := subscribed m; mdata_deleted := mdata_deleted m;
     newsrc_ent := newsrc_ent m |}.

Definition set_mdata_deleted (v : bool) (m : NntpMboxData) : NntpMboxData :=
  {| group := group m; first_message := first_message m; last_message := last_message m;
     last_loaded := last_loaded m; last_cached := last_cached m; unread := unread m;
     subscribed := subscribed m; mdata_deleted := v;
     newsrc_ent := newsrc_ent m |}.

(** [nntp_newsrc_close]: the handle is unlocked and closed. *)
Definition nntp_newsrc_close (adata : NntpAccountData) : NntpAccountData :=
  set_fp_newsrc false adata.

(** ** The status of an article *)

(** [anum] lies in one of the entries: the [for] loop of
    [nntp_article_status]. *)
Fixpoint in_newsrc (ents : list NewsrcEntry) (anum : Z) : bool :=
  match ents with
  | [] => false
  | e :: ents' => ((e_first e <=? anum) && (anum <=? e_last e)) || in_newsrc ents' anum
  end.

(** [nntp_article_status]: the message with its read flag and, beside it,
    its old flag ([struct Email] keeps both); [group] is NULL for the group
    of the mailbox itself, [C_MarkOld] is the configuration variable
    [mark_old]. *)
Definition nntp_article_status (C_MarkOld : bool) (adata : NntpAccountData) (m : Mailbox)
    (e : Email) (old : bool) (name : option (list ascii)) (anum : Z) : Email * bool :=
  let mdata :=
    match name with
    | Some g => snd <$> hash_find adata g
    | None => groups_list adata !! mbox_mdata m
    end in
  match mdata with
  | None => (e, old)
  | Some mdata =>
      if in_newsrc (ranges_of mdata) anum then (set_read true e, old)
      else if last_cached mdata <? anum then (e, old)
      else (e, if C_MarkOld then true else old)
  end.

(** ** Deleting the caches of a group *)

(** [nntp_delete_group_cache] on a group of a server that is [cacheable]:
    [hfile] is the expanded name of its header cache file, [io] says
    whether [unlink] succeeds, and [bcache] is the body cache of the
    group, [None] when it cannot be opened.  The result is the group, the
    file system and what is left in the body cache. *)
Definition nntp_delete_group_cache (cacheable : bool) (io : file_io) (hfile : list ascii)
    (fs : gmap (list ascii) (list ascii)) (bcache : option (gset (list ascii)))
    (mdata : NntpMboxData)
  : NntpMboxData * gmap (list ascii) (list ascii) * option (gset (list ascii)) :=
  if negb cacheable then (mdata, fs, bcache)
  else
    (set_last_cached 0 mdata, unlink io hfile fs,
     match bcache with
     | Some bc => Some (mutt_bcache_list bc nntp_bcache_delete None)
     | None => None
     end).

(** ** The name of a header cache file *)




(** ** The list of the groups of the server *)

(** Modelled from the spec: the fields [allowed] and [desc] of
    [struct NntpMboxData] (nntp.h, not among the sources), which only the
    functions of the active list use, are kept beside the registry, under
    the position of the group; a group without an entry has them as
    [mutt_mem_calloc] left them. *)
Record NntpMboxInfo := { allowed : bool; desc : option (list ascii) }.

Definition info_new : NntpMboxInfo := {| allowed := false; desc := None |}.

Definition info_of (infos : gmap nat NntpMboxInfo) (i : nat) : NntpMboxInfo :=
  default info_new (infos !! i).

(** [%Ns] of [sscanf]: white space is skipped, then at most [w]
    characters that are not white space are read, at least one. *)
Fixpoint scan_nonspace (w : nat) (s : list ascii) : list ascii * list ascii :=
  match w, s with
  | S w', c :: s' =>
      if isspace c then ([], s)
      else let '(a, r) := scan_nonspace w' s' in (c :: a, r)
  | _, _ => ([], s)
  end.

Definition scan_s (w : nat) (s : list ascii) : option (list ascii * list ascii) :=
  match scan_nonspace w (skip_space s) with
  | ([], _) => None
  | (word, r) => Some (word, r)
  end.

(** [%N[^\n]] of [sscanf]: at most [w] characters other than newline, at
    least one; white space is not skipped. *)
Fixpoint scan_not_nl (w : nat) (s : list ascii) : list ascii * list ascii :=
  match w, s with
  | S w', c :: s' =>
      if Ascii.eqb c "010" then ([], s)
      else let '(a, r) := scan_not_nl w' s' in (c :: a, r)
  | _, _ => ([], s)
  end.

(** [sscanf(line, "%1023s " ANUM " " ANUM " %c %8191[^\n]", group, &last,
    &first, &mod, desc) >= 4]: the group, [last], [first], the flag and the
    description, which stays empty when the fifth conversion fails. *)
Definition scan_group_line (line : list ascii)
  : option (list ascii * Z * Z * ascii * list ascii) :=
  match scan_s (Z.to_nat 1023) (cstr line) with
  | None => None
  | Some (name, r1) =>
      match scan_u r1 with
      | None => None
      | Some (last, r2) =>
          match scan_u r2 with
          | None => None
          | Some (first, r3) =>
              match skip_space r3 with
              | [] => None
              | flag :: r4 =>
                  Some (name, last, first, flag, fst (scan_not_nl (Z.to_nat 8191) (skip_space r4)))
              end
          end
      end
  end.

(** Modelled from the spec: [mutt_str_replace] is not among the sources; it
    replaces the string by a copy of the new one, NULL when that is empty. *)
Definition mutt_str_replace (s : list ascii) : option (list ascii) :=
  match s with
  | [] => None
  | _ => Some s
  end.

(** [nntp_add_group] on a line of the server's list. *)
Definition nntp_add_group (line : list ascii)
    (st : NntpAccountData * gmap nat NntpMboxInfo)
  : NntpAccountData * gmap nat NntpMboxInfo :=
  let '(adata, infos) := st in
  match scan_group_line line with
  | None => (adata, infos)
  | Some (name, last, first, flag, d) =>
      let '(adata1, i) := mdata_find adata name in
      match groups_list adata1 !! i with
      | None => (adata1, infos)
      | Some mdata =>
          let mdata1 := set_last_message last
                          (set_first_message first (set_mdata_deleted false mdata)) in
          let info := {| allowed := Ascii.eqb flag "y" || Ascii.eqb flag "m";
                         desc := mutt_str_replace d |} in
          let mdata2 :=
            match newsrc_ent mdata1 with
            | Some _ => nntp_group_unread_stat mdata1
            | None =>
                if negb (last_cached mdata1 =? 0) then nntp_group_unread_stat mdata1
                else if negb (last_message mdata1 =? 0)
                        && (first_message mdata1 <=? last_message mdata1)
                then set_unread (wrap (wrap (last_message mdata1 - first_message mdata1) + 1))
                       mdata1
                else set_unread 0 mdata1
            end in
          (store_mdata i mdata2 adata1, <[i := info]> infos)
      end
  end.

(** ["%lu"] of [printf] for an [unsigned long]. *)
Definition print_lu (n : Z) : list ascii := print_digits 20 (n mod 2 ^ 64) [].

(** The line of a group in the cache of the active list. *)
Definition active_line (mdata : NntpMboxData) (info : NntpMboxInfo) : list ascii :=
  group mdata ++ " " :: print_u (last_message mdata) ++ " " :: print_u (first_message mdata)
    ++ " " :: (if allowed info then "y" else "n")
    :: match desc info with Some d => " " :: d | None => [] end ++ ["010"].

(** The [for] loop of [nntp_active_save_cache], from group [i] on. *)
Fixpoint write_active (infos : gmap nat NntpMboxInfo) (i : nat)
    (gl : list NntpMboxData) (b : out_buf) : out_buf :=
  match gl with
  | [] => b
  | mdata :: gl' =>
      if mdata_deleted mdata then write_active infos (S i) gl' b
      else
        let info := info_of infos i in
        let dlen := match desc info with Some d => length d | None => 0%nat end in
        let b1 := ob_reserve (Z.of_nat (length (group mdata)) + Z.of_nat dlen + 50) b in
        write_active infos (S i) gl' (ob_snprintf (active_line mdata info) b1)
  end.

(** The text [nntp_active_save_cache] hands to [update_file]. *)
Definition active_buf (newgroups_time : Z) (adata : NntpAccountData)
    (infos : gmap nat NntpMboxInfo) : list ascii :=
  ob_text (write_active infos 0 (groups_list adata)
             (ob_snprintf (print_lu newgroups_time ++ ["010"]) newsrc_buf_init)).

(** [nntp_active_save_cache]; [file] is the expanded name of the cache
    file of the server. *)
Definition nntp_active_save_cache (cacheable : bool) (newgroups_time : Z)
    (io : file_io) (fs : gmap (list ascii) (list ascii)) (file : list ascii)
    (adata : NntpAccountData) (infos : gmap nat NntpMboxInfo)
  : Z * gmap (list ascii) (list ascii) :=
  if negb cacheable then (0, fs)
  else update_file io fs file (active_buf newgroups_time adata infos).

Definition LONG_MAX : Z := 2 ^ 63 - 1.

(** [%ld] of [sscanf]: like [ANUM], with the value [strtol] returns,
    which saturates at [LONG_MIN] and [LONG_MAX]. *)
Definition scan_ld (s : list ascii) : option (Z * list ascii) :=
  let s1 := skip_space s in
  let '(neg, s2) :=
    match s1 with
    | c :: r => if Ascii.eqb c "-" then (true, r)
                else if Ascii.eqb c "+" then (false, r) else (false, s1)
    | [] => (false, s1)
    end in
  match s2 with
  | c :: _ =>
      if isdigit c then
        let '(v, rest) := scan_digits 0 s2 in
        Some (if neg then Z.max (- v) (- LONG_MAX - 1) else Z.min v LONG_MAX, rest)
      else None
  | [] => None
  end.

(** [sscanf(buf, "%ld%4095s", &t, file) == 1]: a number and no word
    after it. *)
Definition scan_timestamp (buf : list ascii) : option Z :=
  match scan_ld (cstr buf) with
  | Some (t, r) =>
      match scan_s (Z.to_nat 4095) r with
      | Some _ => None
      | None => Some t
      end
  | None => None
  end.

(** [active_get_cache]: [content] is the cache file, [None] when it cannot
    be opened; the result is the return value, the time of the last
    refresh and the registry. *)
Definition active_get_cache (content : option (list ascii)) (newgroups_time : Z)
    (st : NntpAccountData * gmap nat NntpMboxInfo)
  : Z * Z * (NntpAccountData * gmap nat NntpMboxInfo) :=
  match content with
  | None => (-1, newgroups_time, st)
  | Some text =>
      match read_lines (length text) (Z.to_nat 8191) text with
      | [] => (-1, newgroups_time, st)
      | first :: lines =>
          match scan_timestamp first with
          | None => (-1, newgroups_time, st)
          | Some t =>
              if t =? 0 then (-1, newgroups_time, st)
              else (0, t, fold_left (fun s l => nntp_add_group l s) lines st)
          end
      end
  end.

(** ** Notions used to state the properties of the rest *)

(** The group a line of the newsrc file is about. *)
Definition line_group (line : list ascii) : option (list ascii) :=
  match newsrc_line_fields line with
  | Some (name, _, _) => Some name
  | None => None
  end.

Definition two_groups : NntpAccountData :=
  {| newsrc_file := str "/home/user/.newsrc"; fp_newsrc := false; size := 0; mtime := 0;
     newsrc_modified := false;
     groups_hash := <[ str "comp.lang.c" := 1%nat ]> {[ str "alt.test" := 0%nat ]};
     groups_list := [ stale_group; other_group ] |}.

(** The lines [nntp_newsrc_parse] reads from a file whose size is [sz]. *)
Definition lines_read (io : newsrc_io) (sz : Z) : list (list ascii) :=
  if sz =? 0 then []
  else read_lines (length (io_content io)) (Z.to_nat sz) (io_content io).

(** The group of a line after the line has been read: mark and ranges
    from the line, [last_message] from the last range when it was not
    known, the unread count recomputed. *)
Definition line_result (subs : bool) (ents : list NewsrcEntry) (mdata : NntpMboxData)
  : NntpMboxData :=
  let mdata1 := set_subscribed subs (set_newsrc_ent (Some ents) mdata) in
  nntp_group_unread_stat
    (if last_message mdata1 =? 0
     then set_last_message (e_last (List.last ents sentinel)) mdata1
     else mdata1).

(** A character of a group name that the newsrc file can carry. *)
Definition file_name_char (c : ascii) : Prop := name_char c /\ c <> "010".

(** A group the newsrc file can carry in full. *)
Definition portable_group (mdata : NntpMboxData) : Prop :=
  writable_group mdata /\ Forall file_name_char (group mdata).

Definition fresh_start (text : list ascii) : newsrc_io :=
  {| io_fopen_ok := true; io_lock_ok := true;
     io_stat := Some (Z.of_nat (length text), 7); io_content := text |}.

(** The lines of the groups that have an entry array, in registry order. *)
Fixpoint group_lines (gl : list NntpMboxData) : list (list ascii) :=
  match gl with
  | [] => []
  | mdata :: gl' =>
      match newsrc_ent mdata with
      | Some ents => newsrc_line (group mdata) (subscribed mdata) ents :: group_lines gl'
      | None => group_lines gl'
      end
  end.

(** A line of text as [fgets] returns it whole: no newline but the last
    character, and no longer than the buffer. *)
Definition whole_line (n : nat) (l : list ascii) : Prop :=
  exists body, l = body ++ ["010"] /\ Forall (fun c => c <> "010") body /\
               (length l <= n)%nat.

(** A group whose two articles are read, and an account of two groups
    with ranges. *)
Definition read_group : NntpMboxData :=
  {| group := str "alt.test"; first_message := 1; last_message := 2; last_loaded := 2;
     last_cached := 0; unread := 0; subscribed := false; mdata_deleted := false;
     newsrc_ent := Some [ {| e_first := 1; e_last := 2 |} ] |}.

Definition two_read_groups : NntpAccountData :=
  {| newsrc_file := str "/home/user/.newsrc"; fp_newsrc := false; size := 0; mtime := 0;
     newsrc_modified := false;
     groups_hash := <[ str "comp.lang.c" := 1%nat ]> {[ str "alt.test" := 0%nat ]};
     groups_list := [ read_group; other_group ] |}.

(** The cached unread count is the one [nntp_group_unread_stat] computes
    from the ranges and the window of the group. *)
Definition unread_consistent (mdata : NntpMboxData) : Prop :=
  unread (nntp_group_unread_stat mdata) = unread mdata.

(** A group name the list of the server can carry: one word of at most
    1023 characters. *)
Definition listed_name (name : list ascii) : Prop :=
  name <> [] /\ Forall (fun c => isspace c = false /\ c <> zero) name /\
  Z.of_nat (length name) <= 1023.

(** A description the list can carry: none, or text of at most 8191
    characters on one line that does not start with white space. *)
Definition listed_desc (d : option (list ascii)) : Prop :=
  match d with
  | None => True
  | Some [] => False
  | Some (c :: d') =>
      isspace c = false /\ Forall (fun x => x <> "010" /\ x <> zero) (c :: d') /\
      Z.of_nat (length (c :: d')) <= 8191
  end.

(** A group as the cache of the active list can keep it. *)
Definition listed_group (mdata : NntpMboxData) (info : NntpMboxInfo) : Prop :=
  listed_name (group mdata) /\ listed_desc (desc info) /\
  0 <= first_message mdata <= ANUM_MAX /\ 0 <= last_message mdata <= ANUM_MAX /\
  Z.of_nat (length (active_line mdata info)) <= 8191.

(** The group a line of the active list is about. *)
Definition active_line_group (line : list ascii) : option (list ascii) :=
  match scan_group_line line with
  | Some (name, _, _, _, _) => Some name
  | None => None
  end.

(** The lines of the groups that are not deleted, from position [i] on. *)
Fixpoint active_lines (infos : gmap nat NntpMboxInfo) (i : nat) (gl : list NntpMboxData)
  : list (list ascii) :=
  match gl with
  | [] => []
  | mdata :: gl' =>
      if mdata_deleted mdata then active_lines infos (S i) gl'
      else active_line mdata (info_of infos i) :: active_lines infos (S i) gl'
  end.

(** Every group that is not deleted can be kept in the cache. *)
Fixpoint all_listed (infos : gmap nat NntpMboxInfo) (i : nat) (gl : list NntpMboxData)
  : Prop :=
  match gl with
  | [] => True
  | mdata :: gl' =>
      (mdata_deleted mdata = false -> listed_group mdata (info_of infos i)) /\
      all_listed infos (S i) gl'
  end.

(** Two groups the server lists, the second one with a description. *)
Definition listed_infos : gmap nat NntpMboxInfo :=
  {[ 1%nat := {| allowed := true; desc := Some (str "The C language") |} ]}.

Definition listed_groups : NntpAccountData :=
  {| newsrc_file := str "/home/user/.newsrc"; fp_newsrc := false; size := 0; mtime := 0;
     newsrc_modified := false;
     groups_hash := <[ str "comp.lang.c" := 1%nat ]> {[ str "alt.test" := 0%nat ]};
     groups_list := [ stale_group; other_group ] |}.

(** * Properties *)

(** ** Arithmetic of article numbers *)

Lemma wrap_wrap z : wrap (wrap z) = wrap z.
Proof. unfold wrap. apply Z.mod_mod. discriminate. Qed.

Lemma wrap_small z : 0 <= z <= ANUM_MAX -> wrap z = z.
Proof.
  unfold wrap, ANUM_MAX, ANUM_BITS. intros H.
  apply Z.mod_small. lia.
Qed.

Lemma wrap_range z : 0 <= wrap z <= ANUM_MAX.
Proof.
  unfold wrap, ANUM_MAX, ANUM_BITS.
  pose proof (Z.mod_pos_bound z (2 ^ 32) ltac:(lia)). lia.
Qed.

Lemma wrap_sub_l a b : wrap (wrap a - b) = wrap (a - b).
Proof. unfold wrap. apply Zminus_mod_idemp_l. Qed.

Lemma wrap_sub_r a b : wrap (a - wrap b) = wrap (a - b).
Proof. unfold wrap. apply Zminus_mod_idemp_r. Qed.

Lemma wrap_add_l a b : wrap (wrap a + b) = wrap (a + b).
Proof. unfold wrap. apply Zplus_mod_idemp_l. Qed.

(** ** The unread count *)

Lemma unread_step_clamped fm lm x e :
  unread_step fm lm (wrap x) e = wrap (x - clamped_len fm lm e).
Proof.
  unfold unread_step, clamped_len.
  replace (if e_first e <? fm then fm else e_first e) with (Z.max (e_first e) fm)
    by (destruct (Z.ltb_spec (e_first e) fm); lia).
  replace (if lm <? e_last e then lm else e_last e) with (Z.min (e_last e) lm)
    by (destruct (Z.ltb_spec lm (e_last e)); lia).
  destruct (Z.max (e_first e) fm <=? Z.min (e_last e) lm).
  - set (f := Z.max (e_first e) fm). set (l := Z.min (e_last e) lm).
    rewrite wrap_sub_r, wrap_sub_l.
    replace (x - (wrap (l - f) + 1)) with (x - 1 - wrap (l - f)) by lia.
    rewrite wrap_sub_r. f_equal. lia.
  - f_equal. lia.
Qed.

Lemma unread_fold fm lm ents : forall x,
  fold_left (unread_step fm lm) ents (wrap x) = wrap (x - read_in_window fm lm ents).
Proof.
  induction ents as [|e ents IH]; intros x; simpl.
  - f_equal. unfold read_in_window. simpl. lia.
  - rewrite unread_step_clamped, IH. f_equal.
    unfold read_in_window. simpl. lia.
Qed.

Lemma unread_stat_closed_form mdata :
  unread (nntp_group_unread_stat mdata) =
    if (last_message mdata =? 0) || (last_message mdata <? first_message mdata)
    then 0
    else wrap (window_minus_read (first_message mdata) (last_message mdata)
                 (ranges_of mdata)).
Proof.
  unfold nntp_group_unread_stat, window_minus_read, ranges_of.
  destruct ((last_message mdata =? 0) || (last_message mdata <? first_message mdata));
    simpl; [reflexivity|].
  rewrite wrap_add_l, unread_fold. reflexivity.
Qed.

(** Entries that do not overlap cannot hold more than the window. *)
Lemma read_in_window_ascending fm lm ents : forall lo,
  ascending lo ents ->
  0 <= read_in_window fm lm ents <= Z.max 0 (lm - Z.max lo fm + 1).
Proof.
  induction ents as [|e ents IH]; intros lo Hasc.
  - unfold read_in_window. simpl. lia.
  - destruct Hasc as (Hlo & Hfl & Hrest).
    specialize (IH _ Hrest).
    change (read_in_window fm lm (e :: ents))
      with (clamped_len fm lm e + read_in_window fm lm ents).
    unfold clamped_len. cbv zeta.
    destruct (Z.leb_spec (Z.max (e_first e) fm) (Z.min (e_last e) lm)); lia.
Qed.

(** With ascending entries nothing wraps: the unread count is the exact
    difference, which is not negative. *)
Lemma unread_stat_exact_when_ascending mdata :
  ascending 0 (ranges_of mdata) ->
  0 <= first_message mdata ->
  last_message mdata - first_message mdata < ANUM_MAX ->
  last_message mdata <> 0 -> first_message mdata <= last_message mdata ->
  unread (nntp_group_unread_stat mdata) =
    window_minus_read (first_message mdata) (last_message mdata) (ranges_of mdata)
  /\ 0 <= unread (nntp_group_unread_stat mdata).
Proof.
  intros Hasc Hf Hl Hnz Hle. rewrite unread_stat_closed_form.
  destruct (Z.eqb_spec (last_message mdata) 0); [contradiction|].
  destruct (Z.ltb_spec (last_message mdata) (first_message mdata)); [lia|].
  simpl.
  pose proof (read_in_window_ascending (first_message mdata) (last_message mdata)
                (ranges_of mdata) 0 Hasc) as Hsum.
  unfold window_minus_read.
  set (x := last_message mdata - first_message mdata + 1
            - read_in_window (first_message mdata) (last_message mdata) (ranges_of mdata))
    in *.
  assert (Hx : 0 <= x <= ANUM_MAX) by (unfold x; lia).
  rewrite wrap_small by exact Hx. split; [reflexivity|lia].
Qed.

(** C3, as stated, fails: with bounds [1,10] and the range 1-10 stored
    twice the difference is -10, and the count is not clamped to 0. *)
Lemma unread_stat_does_not_clamp :
  let mdata := bounds_1_10 [ {| e_first := 1; e_last := 10 |}; {| e_first := 1; e_last := 10 |} ] in
  window_minus_read 1 10 (ranges_of mdata) = -10 /\
  unread (nntp_group_unread_stat mdata) = 4294967286 /\
  unread (nntp_group_unread_stat mdata) <> Z.max 0 (window_minus_read 1 10 (ranges_of mdata)).
Proof. vm_compute. repeat split; discriminate. Qed.

(** C3, amended: the recomputed unread count is 0 when [last_message] is 0
    or below [first_message]; otherwise it is the size of the window minus
    the sum of the clamped sizes of the stored intervals, reduced modulo
    [2^32] (no clamping); for bounds [1,10] and ranges 1-3, 5-7 it is 4. *)
Theorem unread_stat_window_minus_ranges :
  (forall mdata,
     unread (nntp_group_unread_stat mdata) =
       if (last_message mdata =? 0) || (last_message mdata <? first_message mdata)
       then 0
       else (window_minus_read (first_message mdata) (last_message mdata) (ranges_of mdata))
              mod 2 ^ 32) /\
  unread (nntp_group_unread_stat
            (bounds_1_10 [ {| e_first := 1; e_last := 3 |}; {| e_first := 5; e_last := 7 |} ])) = 4.
Proof.
  split; [|reflexivity].
  intros mdata. apply unread_stat_closed_form.
Qed.

(** ** The ranges synthesised from the open mailbox *)

Section Synthesis.

Variables fm ll : Z.

Lemma gen_fold_tail es : forall st,
  gen_finish ll (fold_left (gen_step fm) es st) =
    gs_ents st ++ gen_tail fm ll (gs_series st) (gs_first st) (gs_last st) es.
Proof.
  induction es as [|e es IH]; intros st; simpl.
  - unfold gen_finish. destruct (gs_series st && (gs_first st <=? ll)).
    + reflexivity.
    + symmetry. apply app_nil_r.
  - rewrite IH. unfold gen_step.
    destruct (gs_series st).
    + destruct ((fm <=? article_num e) && negb (deleted e) && negb (read e)); simpl.
      * rewrite <- app_assoc. reflexivity.
      * reflexivity.
    + destruct (deleted e || read e); reflexivity.
Qed.

Lemma gen_entries_tail es : gen_entries fm ll es = gen_tail fm ll true 1 0 es.
Proof. apply (gen_fold_tail es gen_init). Qed.

Lemma unread_test e :
  (fm <=? article_num e) && negb (deleted e) && negb (read e) = negb (counts_read fm e).
Proof.
  unfold counts_read.
  destruct (read e), (deleted e), (Z.leb_spec fm (article_num e)),
    (Z.ltb_spec (article_num e) fm); simpl; try reflexivity; lia.
Qed.

Lemma read_test last e :
  fm <= last -> last < article_num e ->
  deleted e || read e = counts_read fm e.
Proof.
  unfold counts_read. intros.
  destruct (Z.ltb_spec (article_num e) fm); [lia|].
  destruct (read e), (deleted e); reflexivity.
Qed.

Lemma covered_cons e ents n : covered (e :: ents) n <-> covers e n \/ covered ents n.
Proof. unfold covered. apply Exists_cons. Qed.

Lemma covered_nil n : covered [] n <-> False.
Proof. unfold covered. apply Exists_nil. Qed.

Lemma counted_read_before es lo n :
  increasing lo es -> n <= lo -> counted_read fm true es n = true.
Proof.
  destruct es as [|e es]; simpl; [reflexivity|].
  intros [Hlt _] Hn.
  destruct (Z.ltb_spec n (article_num e)); [reflexivity|lia].
Qed.

(** The numbers covered by the entries still to come. *)
Lemma gen_tail_covered es : forall series first last,
  increasing last es ->
  Forall (fun e => article_num e <= ll) es ->
  0 <= last -> ll <= ANUM_MAX ->
  (series = true -> 1 <= first <= last + 1) ->
  (series = false -> fm <= last) ->
  forall n,
    covered (gen_tail fm ll series first last es) n <->
    (if series then first <= n else last < n) /\ n <= ll /\
    counted_read fm series es n = true.
Proof.
  induction es as [|e es IH]; intros series first last Hinc Hll H0 Hmax Hs Hns n.
  - simpl. destruct series; simpl.
    + destruct (Z.leb_spec first ll).
      * rewrite covered_cons, covered_nil. unfold covers. simpl. intuition lia.
      * rewrite covered_nil. intuition lia.
    + rewrite covered_nil. intuition discriminate.
  - destruct Hinc as [Hlt Hinc]. inversion Hll as [|? ? Hle Hll']; subst.
    assert (Hw1 : wrap (article_num e - 1) = article_num e - 1)
      by (apply wrap_small; lia).
    assert (Hw2 : wrap (last + 1) = last + 1) by (apply wrap_small; lia).
    assert (IHs : forall f, 1 <= f <= article_num e + 1 ->
              covered (gen_tail fm ll true f (article_num e) es) n <->
              f <= n /\ n <= ll /\ counted_read fm true es n = true).
    { intros f Hf. apply IH; try assumption; try lia; try discriminate. }
    assert (IHn : forall f, fm <= article_num e ->
              covered (gen_tail fm ll false f (article_num e) es) n <->
              article_num e < n /\ n <= ll /\ counted_read fm false es n = true).
    { intros f Hf. apply IH; try assumption; try lia; try discriminate. }
    assert (Hbef : n <= article_num e -> counted_read fm true es n = true)
      by (apply counted_read_before; assumption).
    simpl. destruct series.
    + specialize (Hs eq_refl).
      rewrite unread_test. destruct (counts_read fm e) eqn:Hcr; simpl.
      * rewrite IHs by lia.
        destruct (Z.ltb_spec n (article_num e)); [rewrite Hbef by lia; intuition lia|].
        destruct (Z.eqb_spec n (article_num e)); [rewrite Hbef by lia|]; intuition lia.
      * assert (fm <= article_num e).
        { rewrite <- negb_true_iff, <- unread_test in Hcr.
          destruct (Z.leb_spec fm (article_num e)); [lia|discriminate]. }
        rewrite covered_cons, Hw1, IHn by lia.
        unfold covers; simpl.
        destruct (Z.ltb_spec n (article_num e)); [intuition lia|].
        destruct (Z.eqb_spec n (article_num e)); [intuition (try lia; try discriminate)|].
        intuition lia.
    + specialize (Hns eq_refl).
      rewrite (read_test last e) by lia.
      destruct (counts_read fm e) eqn:Hcr; simpl.
      * rewrite Hw2, IHs by lia.
        destruct (Z.ltb_spec n (article_num e)); [rewrite Hbef by lia; intuition lia|].
        destruct (Z.eqb_spec n (article_num e)); [rewrite Hbef by lia|]; intuition lia.
      * rewrite IHn by lia.
        destruct (Z.ltb_spec n (article_num e)); [intuition (try lia; try discriminate)|].
        destruct (Z.eqb_spec n (article_num e)); [intuition (try lia; try discriminate)|].
        intuition lia.
Qed.

Lemma increasing_above es : forall lo e,
  increasing lo es -> In e es -> lo < article_num e.
Proof.
  induction es as [|a es IH]; intros lo e Hinc Hin; [destruct Hin|].
  destruct Hinc as [Hlt Hinc]. destruct Hin as [->|Hin]; [assumption|].
  specialize (IH _ _ Hinc Hin). lia.
Qed.

Lemma counted_read_loaded es : forall lo prev e,
  increasing lo es -> In e es ->
  counted_read fm prev es (article_num e) = counts_read fm e.
Proof.
  induction es as [|a es IH]; intros lo prev e Hinc Hin; [destruct Hin|].
  destruct Hinc as [Hlt Hinc]. simpl. destruct Hin as [->|Hin].
  - rewrite Z.ltb_irrefl, Z.eqb_refl. reflexivity.
  - pose proof (increasing_above es _ _ Hinc Hin).
    destruct (Z.ltb_spec (article_num e) (article_num a)); [lia|].
    destruct (Z.eqb_spec (article_num e) (article_num a)); [lia|].
    eapply IH; eassumption.
Qed.




End Synthesis.

Lemma ranges_of_gen_entries m mdata :
  ranges_of (nntp_newsrc_gen_entries m mdata)
    = gen_entries (first_message mdata) (last_loaded mdata) (emails m).
Proof.
  unfold nntp_newsrc_gen_entries, ranges_of.
  destruct (gen_entries (first_message mdata) (last_loaded mdata) (emails m));
    reflexivity.
Qed.



(** ** Printing and scanning numbers *)

Lemma digit_char_spec d :
  0 <= d <= 9 -> isdigit (digit_char d) = true /\ digit_val (digit_char d) = d.
Proof.
  intros H.
  assert (Hd : d = 0 \/ d = 1 \/ d = 2 \/ d = 3 \/ d = 4 \/ d = 5 \/ d = 6
               \/ d = 7 \/ d = 8 \/ d = 9) by lia.
  repeat (destruct Hd as [->|Hd]; [split; reflexivity|]).
  subst; split; reflexivity.
Qed.

Lemma isdigit_not_special c :
  isdigit c = true ->
  isspace c = false /\ c <> "-" /\ c <> "+" /\ c <> "," /\ c <> ":" /\ c <> "!" /\ c <> zero.
Proof.
  unfold isdigit, isspace. intros H.
  apply andb_true_iff in H. destruct H as [H1 H2].
  apply Z.leb_le in H1. apply Z.leb_le in H2.
  split.
  - destruct (Z.eqb_spec (code c) 32); [lia|].
    destruct (Z.leb_spec 9 (code c)), (Z.leb_spec (code c) 13); simpl; try reflexivity; lia.
  - repeat split; intros ->; vm_compute in H1, H2;
      first [exact (H1 eq_refl) | exact (H2 eq_refl)].
Qed.

Lemma print_digits_app fuel : forall n acc,
  print_digits fuel n acc = print_digits fuel n [] ++ acc.
Proof.
  induction fuel as [|fuel IH]; intros n acc; simpl; [reflexivity|].
  destruct (n <? 10); [reflexivity|].
  rewrite IH, (IH _ [_]), <- app_assoc. reflexivity.
Qed.

Lemma print_digits_digits fuel : forall n acc,
  0 <= n ->
  Forall (fun c => isdigit c = true) acc ->
  Forall (fun c => isdigit c = true) (print_digits fuel n acc).
Proof.
  induction fuel as [|fuel IH]; intros n acc Hn Hacc; simpl; [assumption|].
  assert (Hd : isdigit (digit_char (n mod 10)) = true).
  { apply digit_char_spec. pose proof (Z.mod_pos_bound n 10). lia. }
  destruct (n <? 10).
  - constructor; assumption.
  - apply IH.
    + apply Z.div_pos; lia.
    + constructor; assumption.
Qed.

Lemma print_digits_ne fuel : forall n acc,
  (0 < fuel)%nat \/ acc <> [] -> print_digits fuel n acc <> [].
Proof.
  induction fuel as [|fuel IH]; intros n acc H; simpl.
  - destruct H as [H|H]; [lia|assumption].
  - destruct (n <? 10); [discriminate|].
    apply IH. right. discriminate.
Qed.

Lemma print_u_digits n : 0 <= n -> Forall (fun c => isdigit c = true) (print_u n).
Proof. intros Hn. apply print_digits_digits; [assumption|constructor]. Qed.

Lemma print_u_cons n :
  0 <= n -> exists c s, print_u n = c :: s /\ isdigit c = true.
Proof.
  intros Hn. pose proof (print_u_digits n Hn) as Hd.
  assert (Hne : print_u n <> []) by (apply print_digits_ne; left; lia).
  destruct (print_u n) as [|c s]; [contradiction|].
  exists c, s. split; [reflexivity|]. inversion Hd; assumption.
Qed.

(** Scanning the digits just printed gives the number back. *)
Lemma scan_print_digits fuel : forall n acc,
  0 <= n < 10 ^ Z.of_nat fuel ->
  exists k, forall a,
    scan_digits a (print_digits fuel n acc) = scan_digits (a * 10 ^ k + n) acc
    /\ 0 <= k.
Proof.
  induction fuel as [|fuel IH]; intros n acc Hn.
  - exists 0. intros a. simpl in *. split; [|lia]. f_equal; lia.
  - simpl.
    assert (Hd : isdigit (digit_char (n mod 10)) = true /\
                 digit_val (digit_char (n mod 10)) = n mod 10).
    { apply digit_char_spec. pose proof (Z.mod_pos_bound n 10). lia. }
    destruct Hd as [Hd Hv].
    destruct (Z.ltb_spec n 10).
    + exists 1. intros a. simpl. rewrite Hd, Hv.
      rewrite Z.mod_small by lia. split; [|lia]. f_equal; lia.
    + destruct (IH (n / 10) (digit_char (n mod 10) :: acc)) as [k Hk].
      { split; [apply Z.div_pos; lia|].
        apply Z.div_lt_upper_bound; [lia|].
        rewrite Nat2Z.inj_succ, Z.pow_succ_r in Hn by lia. lia. }
      exists (k + 1). intros a. destruct (Hk a) as [Hs Hk0].
      rewrite Hs. simpl. rewrite Hd, Hv. split; [|lia].
      f_equal. rewrite Z.pow_add_r by lia.
      pose proof (Z.div_mod n 10). lia.
Qed.

Lemma scan_digits_stop a s :
  (forall c r, s = c :: r -> isdigit c = false) -> scan_digits a s = (a, s).
Proof.
  destruct s as [|c r]; intros H; simpl; [reflexivity|].
  rewrite (H c r eq_refl). reflexivity.
Qed.

Lemma skip_space_digit c s : isdigit c = true -> skip_space (c :: s) = c :: s.
Proof.
  intros H. simpl. destruct (isdigit_not_special c H) as [-> _]. reflexivity.
Qed.

Lemma skip_space_app pre s :
  Forall (fun c => isspace c = true) pre -> skip_space (pre ++ s) = skip_space s.
Proof.
  induction 1 as [|c pre Hc _ IH]; simpl; [reflexivity|].
  rewrite Hc. exact IH.
Qed.

(** [scan_u] reads back what [print_u] wrote, whatever white space
    comes before it and whatever comes after it that is not a digit. *)
Lemma scan_u_print pre n post :
  Forall (fun c => isspace c = true) pre ->
  0 <= n <= ANUM_MAX ->
  (forall c r, post = c :: r -> isdigit c = false) ->
  scan_u (pre ++ print_u n ++ post) = Some (n, post).
Proof.
  intros Hpre Hn Hpost. unfold scan_u.
  rewrite skip_space_app by assumption.
  destruct (print_u_cons n) as (c & s & Hp & Hc); [lia|].
  rewrite Hp. simpl app. rewrite skip_space_digit by assumption.
  destruct (isdigit_not_special c Hc) as (_ & Hm & Hpl & _).
  destruct (Ascii.eqb_spec c "-"); [contradiction|].
  destruct (Ascii.eqb_spec c "+"); [contradiction|].
  rewrite Hc.
  change (c :: s ++ post) with ((c :: s) ++ post). rewrite <- Hp.
  unfold print_u. rewrite <- print_digits_app.
  destruct (scan_print_digits 10 n post) as [k Hk].
  { unfold ANUM_MAX, ANUM_BITS in Hn.
    change (10 ^ Z.of_nat 10) with 10000000000. lia. }
  destruct (Hk 0) as [Hs _]. rewrite Hs.
  replace (0 * 10 ^ k + n) with n by lia.
  rewrite scan_digits_stop by assumption.
  unfold strtoul_value, ULONG_MAX.
  unfold ANUM_MAX, ANUM_BITS in Hn.
  destruct (Z.ltb_spec (2 ^ 64 - 1) n); [lia|].
  rewrite wrap_small by (unfold ANUM_MAX, ANUM_BITS; lia). reflexivity.
Qed.

(** Printing is injective on article numbers. *)
Lemma print_u_inj n m :
  0 <= n <= ANUM_MAX -> 0 <= m <= ANUM_MAX -> print_u n = print_u m -> n = m.
Proof.
  intros Hn Hm Heq.
  pose proof (scan_u_print [] n [] (List.Forall_nil _) Hn ltac:(discriminate)) as H1.
  pose proof (scan_u_print [] m [] (List.Forall_nil _) Hm ltac:(discriminate)) as H2.
  simpl in H1, H2. rewrite !app_nil_r in *. rewrite Heq, H2 in H1. congruence.
Qed.

(** ** Cutting C strings *)

Lemma cstr_id s : Forall (fun c => c <> zero) s -> cstr s = s.
Proof.
  induction 1 as [|c s Hc _ IH]; simpl; [reflexivity|].
  destruct (Ascii.eqb_spec c zero); [contradiction|]. rewrite IH. reflexivity.
Qed.

Lemma strchr_cut_here c a b :
  Forall (fun x => x <> c) a -> strchr_cut c (a ++ c :: b) = Some (a, b).
Proof.
  induction 1 as [|x a Hx _ IH]; simpl.
  - rewrite Ascii.eqb_refl. reflexivity.
  - destruct (Ascii.eqb_spec x c); [contradiction|]. rewrite IH. reflexivity.
Qed.

Lemma strchr_cut_none c s : Forall (fun x => x <> c) s -> strchr_cut c s = None.
Proof.
  induction 1 as [|x a Hx _ IH]; simpl; [reflexivity|].
  destruct (Ascii.eqb_spec x c); [contradiction|]. rewrite IH. reflexivity.
Qed.

Lemma split_commas_here a b :
  Forall (fun x => x <> ",") a -> split_commas (a ++ "," :: b) = a :: split_commas b.
Proof.
  induction 1 as [|x a Hx _ IH]; simpl; [reflexivity|].
  destruct (Ascii.eqb_spec x ","); [contradiction|]. rewrite IH. reflexivity.
Qed.

Lemma split_commas_none a : Forall (fun x => x <> ",") a -> split_commas a = [a].
Proof.
  induction 1 as [|x a Hx _ IH]; simpl; [reflexivity|].
  destruct (Ascii.eqb_spec x ","); [contradiction|]. rewrite IH. reflexivity.
Qed.

Lemma strpbrk_cut_here name m rest :
  Forall name_char name -> m = ":" \/ m = "!" ->
  strpbrk_cut [":"; "!"] (name ++ m :: rest) = Some (name, m, rest).
Proof.
  intros Hname Hm. induction Hname as [|x name Hx _ IH]; simpl.
  - destruct Hm as [->| ->]; reflexivity.
  - destruct Hx as (_ & H1 & H2).
    destruct (Ascii.eqb_spec x ":"); [contradiction|].
    destruct (Ascii.eqb_spec x "!"); [contradiction|].
    simpl. rewrite IH. reflexivity.
Qed.


(** ** Writing a range list and reading it back *)

Lemma digit_range_char c : isdigit c = true -> range_char c.
Proof. intros H. left. exact H. Qed.

Lemma range_char_plain c : range_char c -> c <> zero /\ c <> ":" /\ c <> "!".
Proof.
  intros [H|[->| ->]].
  - destruct (isdigit_not_special c H) as (_ & _ & _ & _ & ? & ? & ?). auto.
  - repeat split; discriminate.
  - repeat split; discriminate.
Qed.

Lemma entry_text_chars e :
  0 <= e_first e -> 0 <= e_last e ->
  Forall (fun c => isdigit c = true \/ c = "-") (entry_text e).
Proof.
  intros Hf Hl. unfold entry_text.
  assert (Hd : forall n, 0 <= n -> Forall (fun c => isdigit c = true \/ c = "-") (print_u n)).
  { intros n Hn. eapply Forall_impl; [apply print_u_digits; assumption|].
    simpl. auto. }
  destruct (e_first e =? e_last e); [auto|].
  destruct (e_first e <? e_last e); [|constructor].
  apply Forall_app. split; [auto|]. constructor; auto.
Qed.

Lemma entries_text_chars ents : forall j,
  Forall valid_entry ents -> Forall range_char (entries_text j ents).
Proof.
  induction ents as [|e ents IH]; intros j Hv; simpl; [constructor|].
  inversion Hv as [|? ? [He1 He2] Hv']; subst.
  apply Forall_app. split.
  - destruct j; [constructor|].
    constructor; [right; right; reflexivity|constructor].
  - apply Forall_app. split; [|apply IH; assumption].
    eapply Forall_impl; [apply entry_text_chars; lia|].
    simpl. intros c [H|H]; [left|right; left]; assumption.
Qed.

Lemma blank_spaces pre :
  blank pre ->
  Forall (fun c => isspace c = true) pre /\
  Forall (fun c => c <> "-") pre /\ Forall (fun c => c <> ",") pre.
Proof.
  intros [->| ->]; repeat split; repeat constructor; discriminate.
Qed.

Lemma eol_plain post :
  eol post ->
  (forall c r, post = c :: r -> isdigit c = false) /\
  Forall (fun c => c <> "-") post /\ Forall (fun c => c <> ",") post.
Proof.
  intros [->| ->]; repeat split; repeat constructor; try discriminate.
  intros c r Heq. inversion Heq. reflexivity.
Qed.

Lemma digits_no (x : ascii) s :
  (isdigit x = false) ->
  Forall (fun c => isdigit c = true) s -> Forall (fun c => c <> x) s.
Proof.
  intros Hx Hs. eapply Forall_impl; [exact Hs|].
  simpl. intros c Hc ->. congruence.
Qed.

(** One written entry scans back to itself. *)
Lemma scan_entry_text pre e post :
  blank pre -> eol post -> valid_entry e ->
  scan_entry (pre ++ entry_text e ++ post) = Some e.
Proof.
  intros Hpre Hpost [Hfl Hmax].
  destruct (blank_spaces pre Hpre) as (Hsp & Hpm & _).
  destruct (eol_plain post Hpost) as (Hnd & Hqm & _).
  destruct e as [f l]. simpl in *.
  unfold scan_entry, entry_text. simpl.
  pose proof (digits_no "-" (print_u f) eq_refl (print_u_digits f ltac:(lia))) as Hdf.
  pose proof (digits_no "-" (print_u l) eq_refl (print_u_digits l ltac:(lia))) as Hdl.
  destruct (Z.eqb_spec f l) as [->|Hne].
  - rewrite strchr_cut_none by (repeat (apply Forall_app; split); assumption).
    rewrite scan_u_print by (try assumption; lia). reflexivity.
  - destruct (Z.ltb_spec f l); [|lia].
    rewrite <- app_assoc. simpl. rewrite app_assoc.
    rewrite strchr_cut_here by (apply Forall_app; split; assumption).
    rewrite <- (app_nil_r (print_u f)).
    rewrite scan_u_print by (try assumption; try lia; discriminate).
    pose proof (scan_u_print [] l post (List.Forall_nil _) ltac:(lia) Hnd) as Hl.
    simpl in Hl. rewrite Hl. reflexivity.
Qed.

Lemma parse_entries_text ents : forall pre e j,
  blank pre -> valid_entry e -> Forall valid_entry ents ->
  parse_entries (split_commas (pre ++ entry_text e ++ entries_text (S j) ents ++ ["010"]))
    = e :: ents.
Proof.
  induction ents as [|e' ents IH]; intros pre e j Hpre He Hv.
  - simpl entries_text. simpl app at 3.
    destruct (blank_spaces pre Hpre) as (_ & _ & Hpc).
    rewrite split_commas_none.
    + simpl. rewrite scan_entry_text; auto. right; reflexivity.
    + apply Forall_app. split; [assumption|]. apply Forall_app. split.
      * destruct He as [He1 He2].
        eapply Forall_impl; [apply entry_text_chars; lia|].
        simpl. intros c [H|H].
        -- destruct (isdigit_not_special c H) as (_ & _ & _ & ? & _). assumption.
        -- subst. discriminate.
      * repeat constructor. discriminate.
  - inversion Hv as [|? ? He' Hv']; subst.
    simpl entries_text.
    replace (pre ++ entry_text e ++
               ("," :: entry_text e' ++ entries_text (S (S j)) ents) ++ ["010"])
      with ((pre ++ entry_text e) ++
              "," :: ([] ++ entry_text e' ++ entries_text (S (S j)) ents ++ ["010"])).
    2:{ simpl. rewrite <- !app_assoc. reflexivity. }
    destruct (blank_spaces pre Hpre) as (_ & _ & Hpc).
    rewrite split_commas_here.
    + pose proof (scan_entry_text pre e [] Hpre (or_introl eq_refl) He) as Hs.
      rewrite app_nil_r in Hs.
      pose proof (IH [] e' (S j) (or_introl eq_refl) He' Hv') as IH'.
      simpl parse_entries. rewrite Hs. simpl in IH' |- *. rewrite IH'. reflexivity.
    + apply Forall_app. split; [assumption|].
      destruct He as [He1 He2].
      eapply Forall_impl; [apply entry_text_chars; lia|].
      simpl. intros c [H|H].
      * destruct (isdigit_not_special c H) as (_ & _ & _ & ? & _). assumption.
      * subst. discriminate.
Qed.

(** The full line of a group reads back as its name, mark and ranges. *)
Lemma newsrc_line_fields_line name subs ents :
  Forall name_char name ->
  ents <> [] ->
  Forall valid_entry ents ->
  newsrc_line_fields (newsrc_line name subs ents) = Some (name, subs, ents).
Proof.
  intros Hname Hne Hv.
  destruct ents as [|e ents]; [contradiction|].
  inversion Hv as [|? ? He Hv']; subst.
  unfold newsrc_line_fields, newsrc_line.
  set (m := if subs then ":" else "!").
  assert (Hm : m = ":" \/ m = "!") by (unfold m; destruct subs; auto).
  rewrite cstr_id.
  - replace (name ++ [m; " "] ++ entries_text 0 (e :: ents) ++ ["010"])
      with (name ++ m :: ([" "] ++ entry_text e ++ entries_text 1 ents ++ ["010"]))
      by (simpl; rewrite <- app_assoc; reflexivity).
    rewrite strpbrk_cut_here by assumption.
    rewrite parse_entries_text by (auto; right; reflexivity).
    unfold m. destruct subs; reflexivity.
  - apply Forall_app. split.
    + eapply Forall_impl; [exact Hname|]. simpl. intros c [H _]. exact H.
    + apply Forall_app. split.
      * destruct Hm as [-> | ->]; repeat constructor; discriminate.
      * apply Forall_app. split; [|repeat constructor; discriminate].
        eapply Forall_impl; [apply (entries_text_chars (e :: ents) 0 Hv)|].
        simpl. intros c Hc. apply range_char_plain. assumption.
Qed.

(** ** The output buffer of the writer *)

Lemma print_digits_length fuel : forall n acc,
  (length (print_digits fuel n acc) <= fuel + length acc)%nat.
Proof.
  induction fuel as [|fuel IH]; intros n acc; simpl; [lia|].
  destruct (n <? 10); simpl; [lia|].
  specialize (IH (n / 10) (digit_char (n mod 10) :: acc)). simpl in IH. lia.
Qed.

Lemma print_u_length n : (length (print_u n) <= 10)%nat.
Proof.
  unfold print_u. pose proof (print_digits_length 10 n []) as H.
  change (length (@nil ascii)) with 0%nat in H. lia.
Qed.

Lemma entry_text_length e : (length (entry_text e) <= 21)%nat.
Proof.
  unfold entry_text.
  pose proof (print_u_length (e_first e)) as H1.
  pose proof (print_u_length (e_last e)) as H2.
  destruct (e_first e =? e_last e); [lia|].
  destruct (e_first e <? e_last e); [|simpl; lia].
  rewrite length_app. simpl. lia.
Qed.

Lemma ob_snprintf_fits s b :
  Z.of_nat (length s) < ob_len b - ob_off b ->
  ob_snprintf s b = {| ob_text := ob_text b ++ s; ob_len := ob_len b |}.
Proof.
  intros H. unfold ob_snprintf. rewrite take_ge by lia. reflexivity.
Qed.

Lemma ob_reserve_room need b :
  buf_ok b -> need <= 10240 ->
  ob_text (ob_reserve need b) = ob_text b /\
  ob_len b <= ob_len (ob_reserve need b) /\
  ob_off b + need <= ob_len (ob_reserve need b).
Proof.
  intros [Hlen Hoff] Hneed. unfold ob_reserve.
  destruct (Z.ltb_spec (ob_len b) (ob_off b + need)); simpl; repeat split; lia.
Qed.

(** One entry is written in full and leaves room behind it. *)
Lemma write_entry_step j e b :
  buf_ok b ->
  let b' := ob_snprintf (entry_text e)
              (match j with O => ob_reserve 1024 b | _ => ob_putc "," (ob_reserve 1024 b) end) in
  ob_text b' = ob_text b ++ (match j with O => [] | _ => [","] end) ++ entry_text e /\
  ob_len b <= ob_len b' /\
  ob_off b' + 1000 <= ob_len b'.
Proof.
  intros Hok b'.
  destruct (ob_reserve_room 1024 b Hok ltac:(lia)) as (Ht & Hl & Hr).
  pose proof (entry_text_length e) as He.
  unfold ob_off in *.
  assert (Hfit : b' = {| ob_text := ob_text b ++ (match j with O => [] | _ => [","] end)
                                      ++ entry_text e;
                         ob_len := ob_len (ob_reserve 1024 b) |}).
  { unfold b'. destruct j.
    - rewrite ob_snprintf_fits by (unfold ob_off; rewrite Ht; lia).
      rewrite Ht. reflexivity.
    - rewrite ob_snprintf_fits
        by (unfold ob_off, ob_putc; simpl; rewrite Ht, length_app; simpl; lia).
      simpl. rewrite Ht, <- app_assoc. reflexivity. }
  rewrite Hfit. simpl. split; [reflexivity|]. split; [lia|].
  rewrite !length_app. destruct j; simpl; lia.
Qed.

Lemma write_entries_text ents : forall j b,
  buf_ok b ->
  ob_text (write_entries j ents b) = ob_text b ++ entries_text j ents /\
  ob_len b <= ob_len (write_entries j ents b) /\
  (ents <> [] ->
   ob_off (write_entries j ents b) + 1000 <= ob_len (write_entries j ents b)).
Proof.
  induction ents as [|e ents IH]; intros j b Hok.
  - simpl. rewrite app_nil_r. repeat split; [lia|contradiction].
  - cbn [write_entries entries_text].
    destruct (write_entry_step j e b Hok) as (Ht & Hl & Hr).
    set (b' := ob_snprintf (entry_text e)
                 (match j with O => ob_reserve 1024 b | _ => ob_putc "," (ob_reserve 1024 b) end))
      in *.
    assert (Hok' : buf_ok b') by (destruct Hok; split; lia).
    destruct (IH (S j) b' Hok') as (Ht' & Hl' & Hr').
    split; [|split].
    + rewrite Ht', Ht, <- !app_assoc. reflexivity.
    + lia.
    + intros _. destruct ents as [|e' ents]; [exact Hr|].
      apply Hr'. discriminate.
Qed.

(** A writable group is written as its full line, and the buffer is
    ready for the next one. *)
Lemma write_group_text b mdata :
  buf_ok b -> writable_group mdata ->
  ob_text (write_group b mdata) = ob_text b ++ group_text mdata /\
  buf_ok (write_group b mdata).
Proof.
  intros Hok [Hname Hents]. unfold write_group, group_text.
  destruct (newsrc_ent mdata) as [ents|]; [|rewrite app_nil_r; auto].
  destruct Hents as [Hne _].
  destruct (ob_reserve_room (Z.of_nat (length (group mdata)) + 3) b Hok ltac:(lia))
    as (Ht & Hl & Hr).
  set (b1 := ob_reserve (Z.of_nat (length (group mdata)) + 3) b) in *.
  set (head := group mdata ++ [if subscribed mdata then ":" else "!"; " "]).
  assert (Hhead : Z.of_nat (length head) = Z.of_nat (length (group mdata)) + 2)
    by (unfold head; rewrite length_app; simpl; lia).
  cbv zeta.
  rewrite (ob_snprintf_fits head b1) by (unfold ob_off in *; rewrite Ht; lia).
  set (b2 := {| ob_text := ob_text b1 ++ head; ob_len := ob_len b1 |}).
  assert (Hok2 : buf_ok b2).
  { destruct Hok. unfold buf_ok, b2, ob_off in *. simpl.
    rewrite Ht, length_app. split; lia. }
  destruct (write_entries_text ents 0 b2 Hok2) as (Ht' & Hl' & Hr').
  specialize (Hr' Hne). split.
  - simpl. rewrite Ht'. unfold b2, newsrc_line, head. simpl.
    rewrite Ht, <- !app_assoc. reflexivity.
  - destruct Hok2. unfold buf_ok, ob_putc, ob_off in *. simpl.
    rewrite length_app. simpl. split; lia.
Qed.

(** With writable groups only, the text handed to [update_file] is the
    lines of the groups that have an entry array, in registry order. *)
Lemma newsrc_buf_lines adata :
  Forall writable_group (groups_list adata) ->
  newsrc_buf adata = flat_map group_text (groups_list adata).
Proof.
  unfold newsrc_buf.
  assert (H : forall gl b, buf_ok b -> Forall writable_group gl ->
            ob_text (fold_left write_group gl b) = ob_text b ++ flat_map group_text gl).
  { induction gl as [|g gl IH]; intros b Hok Hall; simpl.
    - rewrite app_nil_r. reflexivity.
    - inversion Hall as [|? ? Hg Hall']; subst.
      destruct (write_group_text b g Hok Hg) as [Ht Hok'].
      rewrite IH, Ht, <- app_assoc by assumption. reflexivity. }
  intros Hall. rewrite H; [reflexivity| |assumption].
  unfold buf_ok, newsrc_buf_init, ob_off. simpl. lia.
Qed.


(** ** Reading the newsrc file *)





Lemma unread_stat_fields mdata :
  group (nntp_group_unread_stat mdata) = group mdata /\
  newsrc_ent (nntp_group_unread_stat mdata) = newsrc_ent mdata /\
  subscribed (nntp_group_unread_stat mdata) = subscribed mdata.
Proof.
  unfold nntp_group_unread_stat.
  destruct ((last_message mdata =? 0) || (last_message mdata <? first_message mdata));
    repeat split; reflexivity.
Qed.

Lemma mdata_find_lookup adata name :
  registry_ok adata ->
  exists mdata,
    groups_list (fst (mdata_find adata name)) !! snd (mdata_find adata name) = Some mdata
    /\ groups_hash (fst (mdata_find adata name)) !! name = Some (snd (mdata_find adata name))
    /\ group mdata = name \/
       groups_list (fst (mdata_find adata name)) !! snd (mdata_find adata name) = Some mdata
    /\ groups_hash (fst (mdata_find adata name)) !! name = Some (snd (mdata_find adata name))
    /\ groups_hash adata !! name = Some (snd (mdata_find adata name)).
Proof.
  intros Hok. unfold mdata_find.
  destruct (groups_hash adata !! name) as [i|] eqn:Hh; simpl.
  - destruct (lookup_lt_is_Some_2 (groups_list adata) i (Hok _ _ Hh)) as [mdata Hm].
    exists mdata. right. auto.
  - exists (mdata_new name). left. split; [|split].
    + apply list_lookup_middle. reflexivity.
    + apply lookup_insert_eq.
    + reflexivity.
Qed.

(** After a marked line has been read, its group is in the registry with
    the mark and the ranges of the line. *)
Lemma newsrc_parse_line_group adata line name subs ents :
  registry_ok adata ->
  newsrc_line_fields line = Some (name, subs, ents) ->
  exists i mdata,
    hash_find (newsrc_parse_line adata line) name = Some (i, mdata) /\
    newsrc_ent mdata = Some ents /\ subscribed mdata = subs.
Proof.
  intros Hok Hf. unfold newsrc_parse_line. rewrite Hf.
  destruct (mdata_find_lookup adata name Hok) as [mdata Hm].
  destruct (mdata_find adata name) as [adata1 i]. simpl in Hm.
  assert (Hl : groups_list adata1 !! i = Some mdata) by (destruct Hm as [[? _]|[? _]]; assumption).
  assert (Hh : groups_hash adata1 !! name = Some i)
    by (destruct Hm as [(_ & ? & _)|(_ & ? & _)]; assumption).
  rewrite Hl. cbv zeta.
  match goal with
  | |- context [store_mdata i (nntp_group_unread_stat ?m) adata1] => set (m2 := m)
  end.
  exists i, (nntp_group_unread_stat m2). split.
  - unfold hash_find, store_mdata. simpl. rewrite Hh.
    rewrite list_lookup_insert_eq by (eapply lookup_lt_Some; exact Hl).
    reflexivity.
  - destruct (unread_stat_fields m2) as (_ & -> & ->).
    unfold m2.
    destruct (last_message (set_subscribed subs (set_newsrc_ent (Some ents) mdata)) =? 0);
      split; reflexivity.
Qed.





(** The registry stays well formed while the file is read. *)
Lemma newsrc_parse_line_registry_ok adata line :
  registry_ok adata -> registry_ok (newsrc_parse_line adata line).
Proof.
  intros Hok. unfold newsrc_parse_line.
  destruct (newsrc_line_fields line) as [[[name subs] ents]|]; [|exact Hok].
  assert (Hfind : registry_ok (fst (mdata_find adata name))).
  { unfold mdata_find. destruct (groups_hash adata !! name) as [i|] eqn:Hh; [exact Hok|].
    intros nm j. simpl. rewrite length_app. simpl.
    destruct (decide (name = nm)) as [->|Hne].
    - rewrite lookup_insert_eq. intros H. inversion H. lia.
    - rewrite lookup_insert_ne by assumption. intros H.
      specialize (Hok _ _ H). lia. }
  destruct (mdata_find adata name) as [adata1 i]. simpl in Hfind.
  destruct (groups_list adata1 !! i) as [mdata|]; [|exact Hfind].
  intros nm j. unfold store_mdata. simpl. rewrite length_insert. apply Hfind.
Qed.

Lemma nntp_newsrc_parse_registry_ok io adata :
  registry_ok adata -> registry_ok (snd (nntp_newsrc_parse io adata)).
Proof.
  intros Hok. unfold nntp_newsrc_parse.
  destruct (io_fopen_ok io); [|exact Hok].
  destruct (io_lock_ok io); [|exact Hok].
  destruct (io_stat io) as [[sz mt]|]; [|exact Hok].
  simpl. destruct ((size adata =? sz) && (mtime adata =? mt)); [exact Hok|].
  simpl.
  assert (Hfold : forall lines a, registry_ok a ->
            registry_ok (fold_left newsrc_parse_line lines a)).
  { induction lines as [|l lines IH]; intros a Ha; [exact Ha|].
    simpl. apply IH. apply newsrc_parse_line_registry_ok. exact Ha. }
  apply Hfold. intros nm j. simpl. rewrite length_map. apply Hok.
Qed.

(** C5: with the file opened and locked, if its size and modification
    time are the ones recorded in the account, [nntp_newsrc_parse]
    returns 0 (not changed) and the registry is what it was: no group's
    subscription flag, ranges or unread count is touched, whatever they
    were set to since the last parse. *)
Theorem newsrc_parse_unchanged io adata :
  io_fopen_ok io = true ->
  io_lock_ok io = true ->
  io_stat io = Some (size adata, mtime adata) ->
  fst (nntp_newsrc_parse io adata) = 0 /\
  groups_list (snd (nntp_newsrc_parse io adata)) = groups_list adata /\
  groups_hash (snd (nntp_newsrc_parse io adata)) = groups_hash adata /\
  (forall name, hash_find (snd (nntp_newsrc_parse io adata)) name = hash_find adata name).
Proof.
  intros Ho Hl Hs. unfold nntp_newsrc_parse.
  rewrite Ho, Hl, Hs. simpl. rewrite !Z.eqb_refl. simpl.
  repeat split; reflexivity.
Qed.

Lemma newsrc_parse_unchanged_witness :
  io_fopen_ok unchanged_file = true /\
  io_lock_ok unchanged_file = true /\
  io_stat unchanged_file = Some (size account_after_catchup, mtime account_after_catchup) /\
  fst (nntp_newsrc_parse unchanged_file account_after_catchup) = 0 /\
  groups_list (snd (nntp_newsrc_parse unchanged_file account_after_catchup))
    = groups_list account_after_catchup.
Proof.
  assert (H1 : io_fopen_ok unchanged_file = true) by reflexivity.
  assert (H2 : io_lock_ok unchanged_file = true) by reflexivity.
  assert (H3 : io_stat unchanged_file
               = Some (size account_after_catchup, mtime account_after_catchup))
    by reflexivity.
  split; [exact H1|]. split; [exact H2|]. split; [exact H3|].
  destruct (newsrc_parse_unchanged unchanged_file account_after_catchup H1 H2 H3)
    as (Hrc & Hl & _).
  split; assumption.
Defined.



(** ** Writing a group and reading it back *)

(** C2: what [nntp_newsrc_update] appends to its buffer for a group with
    valid intervals ([lo <= hi], both article numbers) is a line that the
    line parser of [nntp_newsrc_parse] reads back as the group's name,
    its mark and the same list of intervals, one entry per interval in
    the same order: nothing is merged; reading the line into a registry
    leaves the group with exactly these intervals.  The group has a name
    the line format can carry, and an entry array is never empty. *)
Theorem newsrc_line_roundtrip b mdata ents :
  buf_ok b ->
  newsrc_ent mdata = Some ents ->
  ents <> [] ->
  Forall valid_entry ents ->
  Forall name_char (group mdata) ->
  Z.of_nat (length (group mdata)) + 3 <= 10240 ->
  exists line,
    ob_text (write_group b mdata) = ob_text b ++ line /\
    buf_ok (write_group b mdata) /\
    line = newsrc_line (group mdata) (subscribed mdata) ents /\
    newsrc_line_fields line = Some (group mdata, subscribed mdata, ents) /\
    (forall adata,
       registry_ok adata ->
       exists i mdata',
         hash_find (newsrc_parse_line adata line) (group mdata) = Some (i, mdata') /\
         newsrc_ent mdata' = Some ents /\
         subscribed mdata' = subscribed mdata).
Proof.
  intros Hok Hent Hne Hv Hname Hlen.
  assert (Hw : writable_group mdata).
  { split; [exact Hlen|]. rewrite Hent. auto. }
  destruct (write_group_text b mdata Hok Hw) as [Ht Hok'].
  assert (Hfields : newsrc_line_fields (newsrc_line (group mdata) (subscribed mdata) ents)
                    = Some (group mdata, subscribed mdata, ents))
    by (apply newsrc_line_fields_line; assumption).
  exists (newsrc_line (group mdata) (subscribed mdata) ents).
  split; [|split; [exact Hok'|split; [reflexivity|split; [exact Hfields|]]]].
  - rewrite Ht. unfold group_text. rewrite Hent. reflexivity.
  - intros adata Hreg. apply newsrc_parse_line_group; assumption.
Qed.

Lemma newsrc_line_roundtrip_witness :
  buf_ok newsrc_buf_init /\
  newsrc_ent group_with_neighbours = Some ranges_with_neighbours /\
  ranges_with_neighbours <> [] /\
  Forall valid_entry ranges_with_neighbours /\
  Forall name_char (group group_with_neighbours) /\
  Z.of_nat (length (group group_with_neighbours)) + 3 <= 10240 /\
  ob_text (write_group newsrc_buf_init group_with_neighbours)
    = text_line "alt.test: 1-2,3-4,3-10,12" /\
  exists line,
    ob_text (write_group newsrc_buf_init group_with_neighbours)
      = ob_text newsrc_buf_init ++ line /\
    newsrc_line_fields line
      = Some (group group_with_neighbours, subscribed group_with_neighbours,
              ranges_with_neighbours).
Proof.
  assert (H1 : buf_ok newsrc_buf_init)
    by (unfold buf_ok, newsrc_buf_init, ob_off; simpl; lia).
  assert (H2 : newsrc_ent group_with_neighbours = Some ranges_with_neighbours)
    by reflexivity.
  assert (H3 : ranges_with_neighbours <> []) by discriminate.
  assert (H4 : Forall valid_entry ranges_with_neighbours)
    by (repeat constructor; simpl; try lia; unfold ANUM_MAX, ANUM_BITS; lia).
  assert (H5 : Forall name_char (group group_with_neighbours))
    by (repeat constructor; discriminate).
  assert (H6 : Z.of_nat (length (group group_with_neighbours)) + 3 <= 10240)
    by (simpl; lia).
  split; [exact H1|]. split; [exact H2|]. split; [exact H3|]. split; [exact H4|].
  split; [exact H5|]. split; [exact H6|]. split; [vm_compute; reflexivity|].
  destruct (newsrc_line_roundtrip newsrc_buf_init group_with_neighbours
              ranges_with_neighbours H1 H2 H3 H4 H5 H6)
    as (line & Htext & _ & _ & Hfields & _).
  exists line. split; [exact Htext|exact Hfields].
Defined.

(** ** Rewriting a file *)

Lemma read_lines_whole_file n : forall fuel s,
  (0 < n)%nat -> (length s <= fuel)%nat -> concat (read_lines fuel n s) = s.
Proof.
  assert (Hfgets : forall k s l r, fgets k s = (l, r) ->
            s = l ++ r /\ ((0 < k)%nat -> s <> [] -> l <> [])).
  { induction k as [|k IH]; intros s l r H.
    - destruct s; inversion H; subst; split; try reflexivity; lia.
    - destruct s as [|c s]; simpl in H.
      + inversion H; subst. split; [reflexivity|]. intros _ Hne. contradiction.
      + destruct (Ascii.eqb c "010").
        * inversion H; subst. split; [reflexivity|]. discriminate.
        * destruct (fgets k s) as [l' r'] eqn:Hk. inversion H; subst.
          destruct (IH _ _ _ Hk) as [-> _]. split; [reflexivity|]. discriminate. }
  induction fuel as [|fuel IH]; intros s Hn Hlen.
  - destruct s; [reflexivity|simpl in Hlen; lia].
  - destruct s as [|c s]; [reflexivity|].
    cbn [read_lines].
    destruct (fgets n (c :: s)) as [l r] eqn:Hf.
    destruct (Hfgets _ _ _ _ Hf) as [Heq Hne].
    specialize (Hne Hn ltac:(discriminate)).
    cbn [concat]. rewrite IH; [symmetry; exact Heq|assumption|].
    assert (length (c :: s) = length l + length r)%nat
      by (rewrite Heq, length_app; reflexivity).
    destruct l; [contradiction|]. simpl in *. lia.
Qed.




(** ** Subscription commands *)

Lemma hash_find_store adata name i mdata mdata' :
  hash_find adata name = Some (i, mdata) ->
  hash_find (store_mdata i mdata' adata) name = Some (i, mdata').
Proof.
  unfold hash_find, store_mdata. simpl.
  destruct (groups_hash adata !! name) as [j|]; [|discriminate].
  destruct (groups_list adata !! j) as [g|] eqn:Hg; [|discriminate].
  intros H. inversion H; subst.
  rewrite list_lookup_insert_eq by (eapply lookup_lt_Some; exact Hg).
  reflexivity.
Qed.

Lemma hash_find_absent adata name :
  groups_hash adata !! name = None -> hash_find adata name = None.
Proof. unfold hash_find. intros ->. reflexivity. Qed.

(** C4, as stated, fails: a group without an entry array has none after
    catchup and uncatchup either. *)
Lemma catchup_uncatchup_without_ranges :
  exists mdata,
    hash_find account_no_ranges (str "alt.test") = Some (0%nat, mdata) /\
    first_message mdata = 1 /\
    exists mdata',
      hash_find (catchup_uncatchup None account_no_ranges (str "alt.test")) (str "alt.test")
        = Some (0%nat, mdata') /\
      newsrc_ent mdata' = None /\
      newsrc_ent mdata' <> Some [sentinel].
Proof.
  eexists. split; [reflexivity|]. split; [reflexivity|].
  eexists. split; [reflexivity|]. split; [reflexivity|discriminate].
Qed.

(** C4, amended: for a group of the registry that has an entry array,
    catchup leaves the single entry [1 .. last_message] and a following
    uncatchup with [first_message = 1] leaves the single entry 1-0,
    whatever [last_message] is and whether or not the group is open. *)
Theorem catchup_uncatchup_sentinel m adata name i mdata :
  name <> [] ->
  hash_find adata name = Some (i, mdata) ->
  newsrc_ent mdata <> None ->
  first_message mdata = 1 ->
  (exists mdata1,
     hash_find (snd (mutt_newsgroup_catchup m adata name)) name = Some (i, mdata1) /\
     newsrc_ent mdata1 = Some [ {| e_first := 1; e_last := last_message mdata |} ]) /\
  (exists mdata2,
     hash_find (catchup_uncatchup m adata name) name = Some (i, mdata2) /\
     newsrc_ent mdata2 = Some [sentinel]).
Proof.
  intros Hname Hfind Hent Hfirst.
  destruct name as [|c name]; [contradiction|].
  destruct (newsrc_ent mdata) as [ents|] eqn:He; [clear Hent|contradiction].
  set (mdata1 := set_unread 0 (set_newsrc_ent
                   (Some [ {| e_first := 1; e_last := last_message mdata |} ]) mdata)).
  assert (Hc : mutt_newsgroup_catchup m adata (c :: name)
               = (Some i, if is_open_on m i then mark_all true m else m,
                  store_mdata i mdata1 adata)).
  { unfold mutt_newsgroup_catchup. rewrite Hfind, He. reflexivity. }
  assert (Hf1 : hash_find (store_mdata i mdata1 adata) (c :: name) = Some (i, mdata1))
    by (eapply hash_find_store; exact Hfind).
  split.
  - exists mdata1. rewrite Hc. split; [exact Hf1|reflexivity].
  - unfold catchup_uncatchup. rewrite Hc.
    unfold mutt_newsgroup_uncatchup. rewrite Hf1.
    assert (Hw : wrap (first_message mdata1 - 1) = 0)
      by (unfold mdata1; simpl; rewrite Hfirst; reflexivity).
    change (newsrc_ent mdata1) with (Some [ {| e_first := 1; e_last := last_message mdata |} ]).
    cbv zeta. rewrite Hw.
    destruct (is_open_on (if is_open_on m i then mark_all true m else m) i);
      eexists; (split; [eapply hash_find_store; exact Hf1|reflexivity]).
Qed.

Lemma catchup_uncatchup_sentinel_witness :
  str "alt.test" <> [] /\
  hash_find account_after_catchup (str "alt.test") = Some (0%nat, caught_up_group) /\
  newsrc_ent caught_up_group <> None /\
  first_message caught_up_group = 1 /\
  exists mdata2,
    hash_find (catchup_uncatchup None account_after_catchup (str "alt.test")) (str "alt.test")
      = Some (0%nat, mdata2) /\
    newsrc_ent mdata2 = Some [sentinel].
Proof.
  assert (H1 : str "alt.test" <> []) by discriminate.
  assert (H2 : hash_find account_after_catchup (str "alt.test")
               = Some (0%nat, caught_up_group)) by reflexivity.
  assert (H3 : newsrc_ent caught_up_group <> None) by discriminate.
  assert (H4 : first_message caught_up_group = 1) by reflexivity.
  split; [exact H1|]. split; [exact H2|]. split; [exact H3|]. split; [exact H4|].
  exact (proj2 (catchup_uncatchup_sentinel None account_after_catchup (str "alt.test")
                  0%nat caught_up_group H1 H2 H3 H4)).
Defined.

(** C10: on a name that is not in the registry, unsubscribe, catchup and
    uncatchup return NULL and leave the registry (and the mailbox) as they
    were, while subscribe, given a name that is not empty, adds the group
    at the end of the registry, subscribed and with the single entry 1-0. *)
Theorem absent_group_commands save m adata name :
  groups_hash adata !! name = None ->
  mutt_newsgroup_unsubscribe save adata name = (None, adata) /\
  mutt_newsgroup_catchup m adata name = (None, m, adata) /\
  mutt_newsgroup_uncatchup m adata name = (None, m, adata) /\
  (name <> [] ->
   let i := length (groups_list adata) in
   let mdata := set_newsrc_ent (Some [sentinel]) (set_subscribed true (mdata_new name)) in
   fst (mutt_newsgroup_subscribe adata name) = Some i /\
   groups_list (snd (mutt_newsgroup_subscribe adata name)) = groups_list adata ++ [mdata] /\
   groups_hash (snd (mutt_newsgroup_subscribe adata name)) = <[name := i]> (groups_hash adata) /\
   hash_find (snd (mutt_newsgroup_subscribe adata name)) name = Some (i, mdata)).
Proof.
  intros Habs. pose proof (hash_find_absent adata name Habs) as Hf.
  split; [|split; [|split]].
  - unfold mutt_newsgroup_unsubscribe. rewrite Hf. destruct name; reflexivity.
  - unfold mutt_newsgroup_catchup. rewrite Hf. destruct name; reflexivity.
  - unfold mutt_newsgroup_uncatchup. rewrite Hf. destruct name; reflexivity.
  - intros Hne i mdata. destruct name as [|c name]; [contradiction|].
    unfold mutt_newsgroup_subscribe, mdata_find. rewrite Habs.
    cbn [groups_list]. fold i.
    rewrite (list_lookup_middle (groups_list adata) [] (mdata_new (c :: name)) i eq_refl).
    cbn [fst snd]. unfold store_mdata, hash_find. cbn.
    assert (Hins : <[i := mdata]> (groups_list adata ++ [mdata_new (c :: name)])
                   = groups_list adata ++ [mdata]).
    { unfold i. rewrite insert_app_r_alt by lia.
      rewrite Nat.sub_diag. reflexivity. }
    fold mdata. rewrite Hins. repeat split.
    rewrite lookup_insert_eq.
    rewrite (list_lookup_middle (groups_list adata) [] mdata i eq_refl). reflexivity.
Qed.

Lemma absent_group_commands_witness :
  groups_hash account_no_ranges !! str "comp.lang.c" = None /\
  mutt_newsgroup_unsubscribe false account_no_ranges (str "comp.lang.c")
    = (None, account_no_ranges) /\
  fst (mutt_newsgroup_subscribe account_no_ranges (str "comp.lang.c")) = Some 1%nat.
Proof.
  assert (H1 : groups_hash account_no_ranges !! str "comp.lang.c" = None) by reflexivity.
  split; [exact H1|].
  destruct (absent_group_commands false None account_no_ranges (str "comp.lang.c") H1)
    as (Hu & _ & _ & Hs).
  split; [exact Hu|].
  destruct (Hs ltac:(discriminate)) as (Hi & _). exact Hi.
Defined.

(** ** The next group with unread articles *)

Lemma live_unread_count m : live_unread m = Z.of_nat (live_count m).
Proof.
  unfold live_unread, live_count.
  assert (H : forall es u,
            fold_left (fun u e => if negb (read e) && negb (deleted e) then u + 1 else u) es u
            = u + Z.of_nat (length (List.filter
                                      (fun e => negb (read e) && negb (deleted e)) es))).
  { induction es as [|e es IH]; intros u; simpl; [lia|].
    rewrite IH. destruct (negb (read e) && negb (deleted e)); simpl; lia. }
  rewrite H. lia.
Qed.

Lemma live_count_zero m :
  Forall (fun e => read e = true \/ deleted e = true) (emails m) -> live_count m = 0%nat.
Proof.
  unfold live_count. induction 1 as [|e es He _ IH]; simpl; [reflexivity|].
  destruct He as [-> | ->]; simpl; rewrite ?andb_false_r; exact IH.
Qed.

(** One turn of the loop: stop at an eligible group, go on otherwise. *)
Lemma nntp_mailbox_scan_cons m mdata rest :
  nntp_mailbox_scan m (mdata :: rest) =
    if eligible m mdata then Some (group mdata) else nntp_mailbox_scan m rest.
Proof.
  simpl. unfold eligible, is_open_group. rewrite live_unread_count.
  destruct (subscribed mdata); simpl; [|reflexivity].
  destruct (unread mdata =? 0); simpl; [reflexivity|].
  destruct (is_nntp (magic m) && bool_decide (group mdata = mbox_group m)); [|reflexivity].
  destruct (live_count m); reflexivity.
Qed.

Lemma nntp_mailbox_scan_first m gl name :
  nntp_mailbox_scan m gl = Some name <->
  exists before mdata after,
    gl = before ++ mdata :: after /\ group mdata = name /\
    eligible m mdata = true /\ Forall (fun g => eligible m g = false) before.
Proof.
  induction gl as [|g gl IH]; [simpl|rewrite nntp_mailbox_scan_cons].
  - split; [discriminate|].
    intros (before & mdata & after & H & _). destruct before; discriminate.
  - destruct (eligible m g) eqn:Hg.
    + split.
      * intros H. inversion H; subst. exists [], g, gl. auto.
      * intros (before & mdata & after & H & Hn & He & Hb).
        destruct before as [|b before].
        -- inversion H; subst. reflexivity.
        -- inversion H; subst. inversion Hb; subst. congruence.
    + rewrite IH. split.
      * intros (before & mdata & after & H & Hn & He & Hb).
        exists (g :: before), mdata, after. subst. auto.
      * intros (before & mdata & after & H & Hn & He & Hb).
        destruct before as [|b before].
        -- inversion H; subst. congruence.
        -- inversion H; subst. inversion Hb; subst.
           exists before, mdata, after. auto.
Qed.

Lemma nntp_mailbox_scan_none m gl :
  nntp_mailbox_scan m gl = None <-> Forall (fun g => eligible m g = false) gl.
Proof.
  induction gl as [|g gl IH]; [simpl|rewrite nntp_mailbox_scan_cons].
  - split; auto.
  - destruct (eligible m g) eqn:Hg.
    + split; [discriminate|]. intros H. inversion H; subst. congruence.
    + rewrite IH. split; [auto|]. intros H. inversion H; assumption.
Qed.

(** C8: [nntp_mailbox] goes through the registry in order and stops at
    the first group that is subscribed and has a cached unread count
    other than zero, except that the group the caller has open is passed
    over when none of its messages is unread (neither read nor deleted),
    whatever its cached count says; the name of the group it stops at is
    copied into the buffer. *)
Theorem nntp_mailbox_first_unread :
  (forall m gl name,
     nntp_mailbox_scan m gl = Some name <->
     exists before mdata after,
       gl = before ++ mdata :: after /\ group mdata = name /\
       eligible m mdata = true /\ Forall (fun g => eligible m g = false) before) /\
  (forall m gl,
     nntp_mailbox_scan m gl = None <-> Forall (fun g => eligible m g = false) gl) /\
  (forall m mdata rest,
     is_nntp (magic m) = true ->
     group mdata = mbox_group m ->
     Forall (fun e => read e = true \/ deleted e = true) (emails m) ->
     nntp_mailbox_scan m (mdata :: rest) = nntp_mailbox_scan m rest) /\
  (forall srv m buf buflen name,
     nntp_mailbox_scan m (groups_list srv) = Some name ->
     (length name < buflen)%nat ->
     nntp_mailbox srv (Some m) buf buflen = name) /\
  (forall srv m buf buflen,
     nntp_mailbox_scan m (groups_list srv) = None ->
     nntp_mailbox srv (Some m) buf buflen = buf).
Proof.
  split; [exact nntp_mailbox_scan_first|].
  split; [exact nntp_mailbox_scan_none|].
  split; [|split].
  - intros m mdata rest Hn Hg Hall. rewrite nntp_mailbox_scan_cons.
    unfold eligible, is_open_group.
    rewrite Hn, Hg, bool_decide_eq_true_2 by reflexivity.
    rewrite (live_count_zero m Hall). simpl.
    rewrite andb_false_r. reflexivity.
  - intros srv m buf buflen name Hs Hlen. unfold nntp_mailbox. rewrite Hs.
    unfold mutt_str_strfcpy. destruct buflen as [|n]; [lia|].
    apply take_ge. lia.
  - intros srv m buf buflen Hs. unfold nntp_mailbox. rewrite Hs. reflexivity.
Qed.

Lemma nntp_mailbox_first_unread_witness :
  (is_nntp (magic all_read_mailbox) = true /\
   group stale_group = mbox_group all_read_mailbox /\
   Forall (fun e => read e = true \/ deleted e = true) (emails all_read_mailbox) /\
   unread stale_group = 2 /\
   nntp_mailbox_scan all_read_mailbox [stale_group; other_group]
     = nntp_mailbox_scan all_read_mailbox [other_group]) /\
  (nntp_mailbox_scan all_read_mailbox
     (groups_list (set_groups_list [stale_group; other_group] empty_account))
     = Some (str "comp.lang.c") /\
   (length (str "comp.lang.c") < 1024)%nat /\
   nntp_mailbox (set_groups_list [stale_group; other_group] empty_account)
     (Some all_read_mailbox) [] 1024 = str "comp.lang.c") /\
  (nntp_mailbox_scan all_read_mailbox
     (groups_list (set_groups_list [stale_group] empty_account)) = None /\
   nntp_mailbox (set_groups_list [stale_group] empty_account)
     (Some all_read_mailbox) (str "old") 1024 = str "old").
Proof.
  destruct nntp_mailbox_first_unread as (_ & _ & Hstale & Hcopy & Hnone).
  split; [|split].
  - assert (H1 : is_nntp (magic all_read_mailbox) = true) by reflexivity.
    assert (H2 : group stale_group = mbox_group all_read_mailbox) by reflexivity.
    assert (H3 : Forall (fun e => read e = true \/ deleted e = true)
                   (emails all_read_mailbox)).
    { constructor; [left; reflexivity|].
      constructor; [right; reflexivity|constructor]. }
    split; [exact H1|]. split; [exact H2|]. split; [exact H3|].
    split; [reflexivity|].
    exact (Hstale all_read_mailbox stale_group [other_group] H1 H2 H3).
  - assert (H1 : nntp_mailbox_scan all_read_mailbox
                   (groups_list (set_groups_list [stale_group; other_group] empty_account))
                 = Some (str "comp.lang.c")) by reflexivity.
    assert (H2 : (length (str "comp.lang.c") < 1024)%nat) by (simpl; lia).
    split; [exact H1|]. split; [exact H2|].
    exact (Hcopy _ all_read_mailbox [] 1024%nat (str "comp.lang.c") H1 H2).
  - assert (H1 : nntp_mailbox_scan all_read_mailbox
                   (groups_list (set_groups_list [stale_group] empty_account)) = None)
      by reflexivity.
    split; [exact H1|].
    exact (Hnone _ all_read_mailbox (str "old") 1024%nat H1).
Defined.

(** ** Trimming the caches *)

Lemma scan_u_range s v r : scan_u s = Some (v, r) -> 0 <= v <= ANUM_MAX.
Proof.
  unfold scan_u.
  destruct (match skip_space s with
            | [] => (false, skip_space s)
            | c :: r0 => if Ascii.eqb c "-" then (true, r0)
                         else if Ascii.eqb c "+" then (false, r0)
                         else (false, skip_space s)
            end) as [neg s2].
  destruct s2 as [|c s2]; [discriminate|].
  destruct (isdigit c); [|discriminate].
  destruct (scan_digits 0 (c :: s2)) as [v' rest].
  intros H. inversion H; subst. apply wrap_range.
Qed.

Lemma scan_id_print n : 0 <= n <= ANUM_MAX -> scan_id (print_u n) = Some n.
Proof.
  intros Hn. unfold scan_id.
  rewrite cstr_id.
  - pose proof (scan_u_print [] n [] (List.Forall_nil _) Hn ltac:(discriminate)) as H.
    simpl in H. rewrite app_nil_r in H. rewrite H. reflexivity.
  - eapply Forall_impl; [apply print_u_digits; lia|].
    simpl. intros c Hc. apply (isdigit_not_special c Hc).
Qed.

Lemma bcache_delete_keeps mdata id bc :
  nntp_bcache_delete id bc (Some mdata) =
    if bcache_keeps mdata id then bc else bc ∖ {[ id ]}.
Proof.
  unfold nntp_bcache_delete, bcache_keeps, mutt_bcache_del.
  destruct (scan_id id) as [anum|]; [|reflexivity].
  destruct ((anum <? first_message mdata) || (last_message mdata <? anum)); reflexivity.
Qed.

Lemma bcache_fold (mdata : NntpMboxData) (ids : list (list ascii)) :
  forall (bc : gset (list ascii)) (id : list ascii),
  id ∈ foldl (fun bc id => nntp_bcache_delete id bc (Some mdata)) bc ids <->
  id ∈ bc /\ (id ∈ ids -> bcache_keeps mdata id = true).
Proof.
  induction ids as [|a ids IH]; intros bc id; cbn [foldl].
  - split; [intros H; split; [exact H|]|intros [H _]; exact H].
    intros Hin. inversion Hin.
  - rewrite IH, bcache_delete_keeps. rewrite elem_of_cons.
    destruct (bcache_keeps mdata a) eqn:Ha.
    + split.
      * intros [Hb Hk]. split; [exact Hb|]. intros [->|Hin]; auto.
      * intros [Hb Hk]. split; [exact Hb|]. auto.
    + rewrite elem_of_difference, elem_of_singleton. split.
      * intros [[Hb Hne] Hk]. split; [exact Hb|]. intros [->|Hin]; [contradiction|auto].
      * intros [Hb Hk]. split; [split; [exact Hb|]|auto].
        intros ->. specialize (Hk (or_introl eq_refl)). congruence.
Qed.

Lemma bcache_update_spec (mdata : NntpMboxData) (bc : gset (list ascii)) (id : list ascii) :
  id ∈ nntp_bcache_update mdata bc <-> id ∈ bc /\ bcache_keeps mdata id = true.
Proof.
  unfold nntp_bcache_update, mutt_bcache_list. rewrite bcache_fold.
  split.
  - intros [Hb Hk]. split; [exact Hb|]. apply Hk. apply elem_of_elements. exact Hb.
  - intros [Hb Hk]. auto.
Qed.

Lemma index_not_number n : 0 <= n -> print_u n <> str "index".
Proof.
  intros Hn Heq. pose proof (print_u_digits n Hn) as Hd.
  rewrite Heq in Hd. inversion Hd as [|? ? Hi _]. discriminate.
Qed.

(** What the cleaning loop leaves under the key of article [n]. *)
Lemma hcache_clean_fold fm lm n : forall l (hc : gmap (list ascii) (list ascii)),
  0 <= n <= ANUM_MAX ->
  Forall (fun k => 0 <= k <= ANUM_MAX) l ->
  foldl (hcache_clean fm lm) hc l !! print_u n =
    if bool_decide (n ∈ l) && negb ((fm <=? n) && (n <=? lm))
    then None else hc !! print_u n.
Proof.
  induction l as [|k l IH]; intros hc Hn Hl; simpl.
  - reflexivity.
  - inversion Hl as [|? ? Hk Hl']; subst.
    rewrite IH by assumption. unfold hcache_clean.
    destruct (decide (n = k)) as [->|Hne].
    + rewrite (bool_decide_eq_true_2 (k ∈ k :: l)) by (left).
      destruct ((fm <=? k) && (k <=? lm)) eqn:Hw; simpl.
      * rewrite andb_false_r. reflexivity.
      * rewrite andb_true_r, lookup_delete_eq.
        destruct (bool_decide (k ∈ l)); reflexivity.
    + assert (Hk' : print_u k <> print_u n).
      { intros Heq. apply Hne. symmetry. apply print_u_inj; assumption. }
      assert (Hin : bool_decide (n ∈ k :: l) = bool_decide (n ∈ l)).
      { apply bool_decide_ext. rewrite elem_of_cons. tauto. }
      rewrite Hin.
      destruct ((fm <=? k) && (k <=? lm)); [reflexivity|].
      rewrite lookup_delete_ne by assumption. reflexivity.
Qed.


Lemma seqZ_range first last :
  0 <= first -> last <= ANUM_MAX ->
  Forall (fun k => 0 <= k <= ANUM_MAX) (seqZ first (last - first + 1)).
Proof.
  intros Hf Hl. apply Forall_forall. intros k Hk.
  apply elem_of_seqZ in Hk. lia.
Qed.

(** C9, as stated, fails for the header cache: with the window
    100 .. 200 and an index record that says 100 .. 200, the header
    cached under key 50 outlives [nntp_hcache_update]. *)
Lemma hcache_update_misses_key_50 :
  in_window window_100_200 50 = false /\
  headers_index_100_200 !! str "50" = Some (str "header of 50") /\
  hcache_after window_100_200 headers_index_100_200 (str "50")
    = Some (Some (str "header of 50")).
Proof.
  split; [reflexivity|]. split; vm_compute; reflexivity.
Qed.

(** C9, amended: trimming the body cache deletes the entry keyed by
    article number [n] exactly when [n] lies outside
    [first_message .. last_message]; trimming the header cache deletes
    the entry keyed by [n] exactly when [n] lies outside that window and
    inside the range [first .. last] recorded under ["index"] by the
    previous update, and deletes nothing when there is no readable index
    record; with the window 100 .. 200, body-cache keys 50 and 250 are
    deleted and 150 is kept, and so are the header-cache keys when the
    recorded range is 40 .. 260. *)
Theorem cache_trim_window :
  (forall (mdata : NntpMboxData) (bc : gset (list ascii)) (n : Z),
     0 <= n <= ANUM_MAX ->
     (print_u n ∈ nntp_bcache_update mdata bc <->
      print_u n ∈ bc /\ in_window mdata n = true)) /\
  (forall (mdata : NntpMboxData) (hc : gmap (list ascii) (list ascii)) hdata first last n,
     hc !! str "index" = Some hdata ->
     scan_index hdata = Some (first, last) ->
     last <> ANUM_MAX ->
     0 <= n <= ANUM_MAX ->
     exists mdata' hc',
       nntp_hcache_update mdata hc = Some (mdata', hc') /\
       hc' !! print_u n =
         if (first <=? n) && (n <=? last) && negb (in_window mdata n)
         then None else hc !! print_u n) /\
  (forall (mdata : NntpMboxData) (hc : gmap (list ascii) (list ascii)) (n : Z),
     match hc !! str "index" with
     | Some hdata => scan_index hdata = None
     | None => True
     end ->
     0 <= n ->
     exists hc',
       nntp_hcache_update mdata hc = Some (mdata, hc') /\
       hc' !! print_u n = hc !! print_u n) /\
  nntp_bcache_update window_100_200 bodies_50_150_250 = {[ str "150" ]} /\
  hcache_after window_100_200 headers_index_40_260 (str "50") = Some None /\
  hcache_after window_100_200 headers_index_40_260 (str "250") = Some None /\
  hcache_after window_100_200 headers_index_40_260 (str "150")
    = Some (Some (str "header of 150")).
Proof.
  split; [|split; [|split; [|split]]].
  - intros mdata bc n Hn. rewrite bcache_update_spec.
    unfold bcache_keeps, in_window. rewrite scan_id_print by assumption.
    destruct (Z.ltb_spec n (first_message mdata)), (Z.leb_spec (first_message mdata) n),
      (Z.ltb_spec (last_message mdata) n), (Z.leb_spec n (last_message mdata));
      simpl; try lia; tauto.
  - intros mdata hc hdata first last n Hidx Hscan Hlast Hn.
    unfold nntp_hcache_update. rewrite Hidx, Hscan.
    destruct (Z.eqb_spec last ANUM_MAX); [contradiction|].
    assert (Hr : 0 <= first /\ last <= ANUM_MAX).
    { unfold scan_index in Hscan.
      destruct (scan_u (cstr hdata)) as [[f r]|] eqn:H1; [|discriminate].
      destruct (scan_u r) as [[l r']|] eqn:H2; [|discriminate].
      inversion Hscan; subst.
      pose proof (scan_u_range _ _ _ H1). pose proof (scan_u_range _ _ _ H2). lia. }
    destruct Hr as [Hf Hl].
    eexists _, _. split; [reflexivity|].
    assert (Hfold : foldl (hcache_clean (first_message mdata) (last_message mdata)) hc
                      (seqZ first (last - first + 1)) !! print_u n
                    = if (first <=? n) && (n <=? last) && negb (in_window mdata n)
                      then None else hc !! print_u n).
    { rewrite hcache_clean_fold by (try assumption; apply seqZ_range; assumption).
      unfold in_window.
      assert (Hin : bool_decide (n ∈ seqZ first (last - first + 1))
                    = (first <=? n) && (n <=? last)).
      { destruct (Z.leb_spec first n), (Z.leb_spec n last); simpl.
        - apply bool_decide_eq_true_2. apply elem_of_seqZ. lia.
        - apply bool_decide_eq_false_2. rewrite elem_of_seqZ. lia.
        - apply bool_decide_eq_false_2. rewrite elem_of_seqZ. lia.
        - apply bool_decide_eq_false_2. rewrite elem_of_seqZ. lia. }
      rewrite Hin. reflexivity. }
    destruct (negb (first_message mdata =? first) || negb (last_message mdata =? last)).
    + rewrite lookup_insert_ne by (intros Heq; symmetry in Heq;
        revert Heq; apply index_not_number; lia).
      exact Hfold.
    + exact Hfold.
  - intros mdata hc n Hidx Hn. unfold nntp_hcache_update.
    destruct (hc !! str "index") as [hdata|].
    + rewrite Hidx. eexists. split; [reflexivity|].
      apply lookup_insert_ne. intros Heq. symmetry in Heq.
      revert Heq. apply index_not_number. assumption.
    + eexists. split; [reflexivity|].
      apply lookup_insert_ne. intros Heq. symmetry in Heq.
      revert Heq. apply index_not_number. assumption.
  - apply set_eq. intros id. rewrite bcache_update_spec.
    unfold bodies_50_150_250. rewrite !elem_of_union, !elem_of_singleton.
    split.
    + intros [[[->| ->]| ->] Hk]; [discriminate Hk|reflexivity|discriminate Hk].
    + intros ->. split; [left; right; reflexivity|reflexivity].
  - repeat split; vm_compute; reflexivity.
Qed.

Lemma cache_trim_window_witness :
  (0 <= 250 <= ANUM_MAX /\
   (print_u 250 ∈ nntp_bcache_update window_100_200 bodies_50_150_250 <->
    print_u 250 ∈ bodies_50_150_250 /\ in_window window_100_200 250 = true)) /\
  (headers_index_40_260 !! str "index" = Some (index_text 40 260) /\
   scan_index (index_text 40 260) = Some (40, 260) /\
   260 <> ANUM_MAX /\
   0 <= 50 <= ANUM_MAX /\
   exists mdata' hc',
     nntp_hcache_update window_100_200 headers_index_40_260 = Some (mdata', hc') /\
     hc' !! print_u 50 =
       if (40 <=? 50) && (50 <=? 260) && negb (in_window window_100_200 50)
       then None else headers_index_40_260 !! print_u 50) /\
  (match (∅ : gmap (list ascii) (list ascii)) !! str "index" with
   | Some hdata => scan_index hdata = None
   | None => True
   end /\
   0 <= 50 /\
   exists hc',
     nntp_hcache_update window_100_200 ∅ = Some (window_100_200, hc') /\
     hc' !! print_u 50 = (∅ : gmap (list ascii) (list ascii)) !! print_u 50).
Proof.
  destruct cache_trim_window as (Hbody & Hhead & Hnoindex & _).
  split; [|split].
  - assert (H1 : 0 <= 250 <= ANUM_MAX) by (unfold ANUM_MAX, ANUM_BITS; lia).
    split; [exact H1|].
    exact (Hbody window_100_200 bodies_50_150_250 250 H1).
  - assert (H1 : headers_index_40_260 !! str "index" = Some (index_text 40 260))
      by (vm_compute; reflexivity).
    assert (H2 : scan_index (index_text 40 260) = Some (40, 260)) by reflexivity.
    assert (H3 : 260 <> ANUM_MAX) by (unfold ANUM_MAX, ANUM_BITS; lia).
    assert (H4 : 0 <= 50 <= ANUM_MAX) by (unfold ANUM_MAX, ANUM_BITS; lia).
    split; [exact H1|]. split; [exact H2|]. split; [exact H3|]. split; [exact H4|].
    exact (Hhead window_100_200 headers_index_40_260 (index_text 40 260) 40 260 50
             H1 H2 H3 H4).
  - assert (H1 : match (∅ : gmap (list ascii) (list ascii)) !! str "index" with
                 | Some hdata => scan_index hdata = None
                 | None => True
                 end) by (rewrite lookup_empty; exact I).
    assert (H2 : 0 <= 50) by lia.
    split; [exact H1|]. split; [exact H2|].
    exact (Hnoindex window_100_200 ∅ 50 H1 H2).
Defined.

(** * Properties of the rest of newsrc.c *)

(** ** The registry *)

Lemma registry_wf_ok adata : registry_wf adata -> registry_ok adata.
Proof.
  intros [H _] name i Hi. destruct (H _ _ Hi) as (mdata & Hm & _).
  eapply lookup_lt_Some. exact Hm.
Qed.

Lemma hash_find_wf adata name i mdata :
  registry_wf adata ->
  (hash_find adata name = Some (i, mdata) <->
   groups_list adata !! i = Some mdata /\ group mdata = name).
Proof.
  intros [H1 H2]. unfold hash_find. split.
  - destruct (groups_hash adata !! name) as [j|] eqn:Hj; [|discriminate].
    destruct (H1 _ _ Hj) as (g & Hg & Hn). rewrite Hg.
    intros Heq. inversion Heq; subst. auto.
  - intros [Hl Hn]. rewrite <- Hn, (H2 _ _ Hl), Hl. reflexivity.
Qed.

Lemma store_mdata_wf adata i mdata mdata' :
  registry_wf adata ->
  groups_list adata !! i = Some mdata ->
  group mdata' = group mdata ->
  registry_wf (store_mdata i mdata' adata).
Proof.
  intros [H1 H2] Hi Hg. unfold store_mdata. split; simpl.
  - intros name j Hj. destruct (H1 _ _ Hj) as (g & Hgj & Hn).
    destruct (decide (i = j)) as [->|Hne].
    + exists mdata'. rewrite list_lookup_insert_eq by (eapply lookup_lt_Some; exact Hi).
      split; [reflexivity|]. congruence.
    + exists g. rewrite list_lookup_insert_ne by assumption. auto.
  - intros j g Hj. destruct (decide (i = j)) as [->|Hne].
    + rewrite list_lookup_insert_eq in Hj by (eapply lookup_lt_Some; exact Hi).
      inversion Hj; subst. rewrite Hg. apply H2. assumption.
    + rewrite list_lookup_insert_ne in Hj by assumption. apply H2. assumption.
Qed.

Lemma mdata_find_wf adata name :
  registry_wf adata -> registry_wf (fst (mdata_find adata name)).
Proof.
  intros [H1 H2]. unfold mdata_find.
  destruct (groups_hash adata !! name) as [i|] eqn:Hi; [split; assumption|].
  split; simpl.
  - intros nm j Hj. destruct (decide (name = nm)) as [->|Hne].
    + rewrite lookup_insert_eq in Hj. inversion Hj; subst.
      exists (mdata_new nm). split; [|reflexivity].
      apply list_lookup_middle. reflexivity.
    + rewrite lookup_insert_ne in Hj by assumption.
      destruct (H1 _ _ Hj) as (g & Hg & Hn). exists g. split; [|assumption].
      apply lookup_app_l_Some. assumption.
  - intros j g Hj. apply lookup_app_Some in Hj. destruct Hj as [Hj|[Hlen Hj]].
    + destruct (decide (name = group g)) as [->|Hne].
      * rewrite (H2 _ _ Hj) in Hi. discriminate.
      * rewrite lookup_insert_ne by assumption. apply H2. assumption.
    + destruct (j - length (groups_list adata))%nat as [|k] eqn:Hk; [|destruct k; discriminate].
      simpl in Hj. inversion Hj; subst. simpl.
      rewrite lookup_insert_eq. f_equal. lia.
Qed.

(** What [mdata_find] does to a well-formed registry. *)
Lemma mdata_find_facts adata name :
  registry_wf adata ->
  let adata' := fst (mdata_find adata name) in
  let i := snd (mdata_find adata name) in
  registry_wf adata' /\
  (exists mdata, hash_find adata' name = Some (i, mdata) /\ group mdata = name) /\
  (forall j mdata, groups_list adata !! j = Some mdata ->
                   groups_list adata' !! j = Some mdata) /\
  (forall k, groups_hash adata !! name = Some k -> adata' = adata /\ i = k) /\
  (groups_hash adata !! name = None ->
   groups_list adata' = groups_list adata ++ [mdata_new name] /\
   i = length (groups_list adata)) /\
  mdata_find adata' name = (adata', i).
Proof.
  intros Hwf adata' i.
  pose proof (mdata_find_wf adata name Hwf) as Hwf'. fold adata' in Hwf'.
  assert (Hhash : groups_hash adata' !! name = Some i).
  { unfold adata', i, mdata_find.
    destruct (groups_hash adata !! name) as [k|] eqn:Hk; simpl; [exact Hk|].
    apply lookup_insert_eq. }
  split; [exact Hwf'|]. split; [|split; [|split; [|split]]].
  - destruct (proj1 Hwf' _ _ Hhash) as (g & Hg & Hn). exists g.
    split; [|exact Hn]. apply hash_find_wf; auto.
  - intros j g Hj. unfold adata', mdata_find.
    destruct (groups_hash adata !! name); simpl; [exact Hj|].
    apply lookup_app_l_Some. exact Hj.
  - intros k Hk. unfold adata', i, mdata_find. rewrite Hk. auto.
  - intros Hk. unfold adata', i, mdata_find. rewrite Hk. auto.
  - unfold mdata_find at 1. rewrite Hhash. reflexivity.
Qed.

Lemma hash_find_mdata_find_other adata name other :
  registry_wf adata -> other <> name ->
  hash_find (fst (mdata_find adata name)) other = hash_find adata other.
Proof.
  intros Hwf Hne. unfold mdata_find.
  destruct (groups_hash adata !! name) as [k|] eqn:Hk; [reflexivity|].
  unfold hash_find. simpl. rewrite lookup_insert_ne by congruence.
  destruct (groups_hash adata !! other) as [j|] eqn:Hj; [|reflexivity].
  destruct (proj1 Hwf _ _ Hj) as (g & Hg & _).
  rewrite (lookup_app_l_Some _ _ _ _ Hg), Hg. reflexivity.
Qed.

(** X1: [mdata_find] finds or creates: on a well-formed registry it
    returns the position of a group of the given name, which the hash
    then finds there; the registry stays well formed, the groups it had
    keep their positions and their contents and no other name is found
    differently, a name already known changes nothing, an unknown one
    adds a fresh group (marked deleted, no ranges) at the end, and
    asking again returns the same position without any further change. *)
Theorem mdata_find_or_create adata name :
  registry_wf adata ->
  let adata' := fst (mdata_find adata name) in
  let i := snd (mdata_find adata name) in
  registry_wf adata' /\
  (exists mdata, hash_find adata' name = Some (i, mdata) /\ group mdata = name) /\
  (forall j mdata, groups_list adata !! j = Some mdata ->
                   groups_list adata' !! j = Some mdata) /\
  (forall other, other <> name -> hash_find adata' other = hash_find adata other) /\
  (forall k, groups_hash adata !! name = Some k -> adata' = adata /\ i = k) /\
  (groups_hash adata !! name = None ->
   groups_list adata' = groups_list adata ++ [mdata_new name] /\
   i = length (groups_list adata) /\
   hash_find adata' name = Some (i, mdata_new name)) /\
  mdata_find adata' name = (adata', i).
Proof.
  intros Hwf adata' i.
  destruct (mdata_find_facts adata name Hwf)
    as (Hwf' & (g & Hg & Hgn) & Hkeep & Hold & Hnew & Hagain).
  fold adata' in Hwf', Hg, Hkeep, Hold, Hnew, Hagain.
  fold i in Hg, Hold, Hnew, Hagain.
  split; [exact Hwf'|]. split; [exists g; auto|]. split; [exact Hkeep|].
  split; [intros other Hne; apply hash_find_mdata_find_other; assumption|].
  split; [exact Hold|]. split; [|exact Hagain].
  intros Hk. destruct (Hnew Hk) as [Hl Hi]. split; [exact Hl|]. split; [exact Hi|].
  rewrite Hg. f_equal. f_equal.
  apply (hash_find_wf adata' name i g Hwf') in Hg. destruct Hg as [Hgi _].
  rewrite Hl, Hi in Hgi.
  rewrite (list_lookup_middle (groups_list adata) [] (mdata_new name) _ eq_refl) in Hgi.
  congruence.
Qed.

Lemma two_groups_wf : registry_wf two_groups.
Proof.
  split.
  - intros name i Hi. unfold two_groups in *. simpl in *.
    destruct (decide (str "comp.lang.c" = name)) as [<-|Hne].
    + rewrite lookup_insert_eq in Hi. inversion Hi; subst.
      exists other_group. split; reflexivity.
    + rewrite lookup_insert_ne in Hi by assumption.
      apply lookup_singleton_Some in Hi. destruct Hi as [<- <-].
      exists stale_group. split; reflexivity.
  - intros i mdata Hi. unfold two_groups in *. simpl in *.
    destruct i as [|[|i]]; simpl in Hi; inversion Hi; subst; reflexivity.
Qed.

Lemma mdata_find_or_create_witness :
  registry_wf two_groups /\
  snd (mdata_find two_groups (str "comp.lang.c")) = 1%nat /\
  snd (mdata_find two_groups (str "news.answers")) = 2%nat /\
  registry_wf (fst (mdata_find two_groups (str "news.answers"))).
Proof.
  split; [exact two_groups_wf|]. split; [reflexivity|]. split; [reflexivity|].
  exact (proj1 (mdata_find_or_create two_groups (str "news.answers") two_groups_wf)).
Defined.

(** ** Reading the newsrc file into a registry *)

Lemma newsrc_parse_line_wf adata line :
  registry_wf adata -> registry_wf (newsrc_parse_line adata line).
Proof.
  intros Hwf. unfold newsrc_parse_line.
  destruct (newsrc_line_fields line) as [[[name subs] ents]|]; [|exact Hwf].
  pose proof (mdata_find_wf adata name Hwf) as Hwf1.
  destruct (mdata_find adata name) as [adata1 i]. simpl in Hwf1.
  destruct (groups_list adata1 !! i) as [mdata|] eqn:Hi; [|exact Hwf1].
  cbv zeta. eapply store_mdata_wf; [exact Hwf1|exact Hi|].
  match goal with |- group (nntp_group_unread_stat ?m) = _ =>
    destruct (unread_stat_fields m) as (-> & _) end.
  destruct (last_message (set_subscribed subs (set_newsrc_ent (Some ents) mdata)) =? 0);
    reflexivity.
Qed.

(** A line about another group leaves a group as it is. *)
Lemma newsrc_parse_line_other adata line name i mdata :
  registry_wf adata ->
  hash_find adata name = Some (i, mdata) ->
  line_group line <> Some name ->
  hash_find (newsrc_parse_line adata line) name = Some (i, mdata).
Proof.
  intros Hwf Hfind Hline.
  pose proof (newsrc_parse_line_wf adata line Hwf) as Hwf'.
  apply hash_find_wf; [exact Hwf'|].
  apply hash_find_wf in Hfind; [|exact Hwf]. destruct Hfind as [Hi Hn].
  split; [|exact Hn].
  unfold newsrc_parse_line, line_group in *.
  destruct (newsrc_line_fields line) as [[[nm subs] ents]|]; [|exact Hi].
  destruct (mdata_find_facts adata nm Hwf) as (Hwf1 & (g & Hg & Hgn) & Hkeep & _).
  destruct (mdata_find adata nm) as [adata1 j]. simpl in *.
  apply hash_find_wf in Hg; [|exact Hwf1]. destruct Hg as [Hj _].
  rewrite Hj. cbv zeta. unfold store_mdata. simpl.
  rewrite list_lookup_insert_ne.
  - apply Hkeep. exact Hi.
  - intros ->. rewrite (Hkeep _ _ Hi) in Hj. inversion Hj; subst. congruence.
Qed.

Lemma newsrc_parse_line_stat adata line :
  size (newsrc_parse_line adata line) = size adata /\
  mtime (newsrc_parse_line adata line) = mtime adata /\
  newsrc_modified (newsrc_parse_line adata line) = newsrc_modified adata /\
  fp_newsrc (newsrc_parse_line adata line) = fp_newsrc adata /\
  newsrc_file (newsrc_parse_line adata line) = newsrc_file adata.
Proof.
  unfold newsrc_parse_line.
  destruct (newsrc_line_fields line) as [[[name subs] ents]|]; [|auto].
  unfold mdata_find. destruct (groups_hash adata !! name); simpl.
  - destruct (groups_list adata !! n); simpl; auto.
  - destruct ((groups_list adata ++ [mdata_new name]) !! length (groups_list adata));
      simpl; auto.
Qed.

(** A line about a known group gives the group the contents of the line. *)
Lemma newsrc_parse_line_own adata line name subs ents i mdata :
  registry_wf adata ->
  hash_find adata name = Some (i, mdata) ->
  newsrc_line_fields line = Some (name, subs, ents) ->
  hash_find (newsrc_parse_line adata line) name = Some (i, line_result subs ents mdata) /\
  groups_hash (newsrc_parse_line adata line) = groups_hash adata /\
  length (groups_list (newsrc_parse_line adata line)) = length (groups_list adata).
Proof.
  intros Hwf Hfind Hline.
  pose proof Hfind as Hfind'. unfold hash_find in Hfind'.
  destruct (groups_hash adata !! name) as [j|] eqn:Hj; [|discriminate].
  destruct (groups_list adata !! j) as [g|] eqn:Hg; [|discriminate].
  inversion Hfind'; subst j g. clear Hfind'.
  unfold newsrc_parse_line. rewrite Hline. unfold mdata_find. rewrite Hj, Hg.
  cbv zeta. split; [|split].
  - eapply hash_find_store. exact Hfind.
  - reflexivity.
  - unfold store_mdata. simpl. apply length_insert.
Qed.

Lemma parse_lines_wf lines : forall adata,
  registry_wf adata -> registry_wf (fold_left newsrc_parse_line lines adata).
Proof.
  induction lines as [|l lines IH]; intros adata Hwf; [exact Hwf|].
  simpl. apply IH. apply newsrc_parse_line_wf. exact Hwf.
Qed.

Lemma parse_lines_other lines : forall adata name i mdata,
  registry_wf adata ->
  hash_find adata name = Some (i, mdata) ->
  Forall (fun l => line_group l <> Some name) lines ->
  hash_find (fold_left newsrc_parse_line lines adata) name = Some (i, mdata).
Proof.
  induction lines as [|l lines IH]; intros adata name i mdata Hwf Hfind Hall;
    [exact Hfind|].
  inversion Hall as [|? ? Hl Hall']; subst. simpl.
  apply IH; [apply newsrc_parse_line_wf; exact Hwf| |exact Hall'].
  apply newsrc_parse_line_other; assumption.
Qed.

Lemma parse_lines_stat lines : forall adata,
  size (fold_left newsrc_parse_line lines adata) = size adata /\
  mtime (fold_left newsrc_parse_line lines adata) = mtime adata /\
  newsrc_modified (fold_left newsrc_parse_line lines adata) = newsrc_modified adata.
Proof.
  induction lines as [|l lines IH]; intros adata; [auto|].
  simpl. destruct (IH (newsrc_parse_line adata l)) as (-> & -> & ->).
  destruct (newsrc_parse_line_stat adata l) as (-> & -> & -> & _). auto.
Qed.

Lemma reset_groups_wf adata :
  registry_wf adata ->
  registry_wf (set_groups_list (map reset_group (groups_list adata)) adata).
Proof.
  intros [H1 H2]. split; simpl.
  - intros name i Hi. destruct (H1 _ _ Hi) as (g & Hg & Hn).
    exists (reset_group g). rewrite list_lookup_fmap, Hg. auto.
  - intros i g Hi. rewrite list_lookup_fmap in Hi.
    destruct (groups_list adata !! i) as [g0|] eqn:Hg; [|discriminate].
    inversion Hi; subst. apply H2 in Hg. exact Hg.
Qed.

(** The state in which [nntp_newsrc_parse] starts to read the lines. *)
Lemma nntp_newsrc_parse_reparse io adata sz mt :
  io_fopen_ok io = true -> io_lock_ok io = true -> io_stat io = Some (sz, mt) ->
  (size adata =? sz) && (mtime adata =? mt) = false ->
  nntp_newsrc_parse io adata =
    (1, fold_left newsrc_parse_line (lines_read io sz)
          (set_groups_list (map reset_group (groups_list adata))
             (set_newsrc_modified true (set_stat sz mt (set_fp_newsrc true adata))))).
Proof.
  intros Ho Hl Hs Hd. unfold nntp_newsrc_parse. rewrite Ho, Hl, Hs. simpl.
  rewrite Hd. reflexivity.
Qed.

(** X2: when the newsrc file has changed, [nntp_newsrc_parse] forgets what
    it knew: a group of a well-formed registry that no line of the file
    names ends up unsubscribed and without ranges, its other fields and
    its position untouched; the new size and time are recorded, the
    file is marked as modified and the registry stays well formed. *)
Theorem newsrc_parse_forgets_unlisted io adata sz mt name i mdata :
  registry_wf adata ->
  io_fopen_ok io = true -> io_lock_ok io = true -> io_stat io = Some (sz, mt) ->
  (size adata =? sz) && (mtime adata =? mt) = false ->
  hash_find adata name = Some (i, mdata) ->
  Forall (fun l => line_group l <> Some name) (lines_read io sz) ->
  let adata' := snd (nntp_newsrc_parse io adata) in
  fst (nntp_newsrc_parse io adata) = 1 /\
  hash_find adata' name = Some (i, reset_group mdata) /\
  size adata' = sz /\ mtime adata' = mt /\ newsrc_modified adata' = true /\
  registry_wf adata'.
Proof.
  intros Hwf Ho Hl Hs Hd Hfind Hall adata'. unfold adata'.
  rewrite (nntp_newsrc_parse_reparse io adata sz mt Ho Hl Hs Hd). simpl.
  set (start := set_groups_list _ _).
  assert (Hwf0 : registry_wf start).
  { apply (reset_groups_wf
             (set_newsrc_modified true (set_stat sz mt (set_fp_newsrc true adata)))).
    exact Hwf. }
  assert (Hfind0 : hash_find start name = Some (i, reset_group mdata)).
  { apply hash_find_wf; [exact Hwf0|].
    apply hash_find_wf in Hfind; [|exact Hwf]. destruct Hfind as [Hi Hn].
    unfold start. simpl. rewrite list_lookup_fmap, Hi. auto. }
  split; [reflexivity|]. split; [|split; [|split; [|split]]].
  - apply parse_lines_other; assumption.
  - destruct (parse_lines_stat (lines_read io sz) start) as (-> & _). reflexivity.
  - destruct (parse_lines_stat (lines_read io sz) start) as (_ & -> & _). reflexivity.
  - destruct (parse_lines_stat (lines_read io sz) start) as (_ & _ & ->). reflexivity.
  - apply parse_lines_wf. exact Hwf0.
Qed.

Lemma newsrc_parse_forgets_unlisted_witness :
  registry_wf two_groups /\
  hash_find two_groups (str "alt.test") = Some (0%nat, stale_group) /\
  Forall (fun l => line_group l <> Some (str "alt.test"))
    (lines_read (fresh_start (text_line "comp.lang.c: 1-4")) 17) /\
  hash_find (snd (nntp_newsrc_parse (fresh_start (text_line "comp.lang.c: 1-4")) two_groups))
    (str "alt.test") = Some (0%nat, reset_group stale_group).
Proof.
  assert (H1 : hash_find two_groups (str "alt.test") = Some (0%nat, stale_group))
    by reflexivity.
  assert (H2 : Forall (fun l => line_group l <> Some (str "alt.test"))
                 (lines_read (fresh_start (text_line "comp.lang.c: 1-4")) 17))
    by (repeat constructor; discriminate).
  split; [exact two_groups_wf|]. split; [exact H1|]. split; [exact H2|].
  exact (proj1 (proj2 (newsrc_parse_forgets_unlisted
           (fresh_start (text_line "comp.lang.c: 1-4")) two_groups 17 7
           (str "alt.test") 0%nat stale_group two_groups_wf eq_refl eq_refl eq_refl
           eq_refl H1 H2))).
Defined.

(** ** Writing the registry and reading it back *)

Lemma fgets_whole_line n body rest :
  Forall (fun c => c <> "010") body ->
  (length (body ++ ["010"]) <= n)%nat ->
  fgets n ((body ++ ["010"]) ++ rest) = (body ++ ["010"], rest).
Proof.
  intros Hb. revert n. induction Hb as [|c body Hc _ IH]; intros n Hlen.
  - destruct n; [simpl in Hlen; lia|]. reflexivity.
  - destruct n; [simpl in Hlen; lia|]. simpl.
    destruct (Ascii.eqb_spec c "010"); [contradiction|].
    rewrite IH by (simpl in Hlen; lia). reflexivity.
Qed.

Lemma read_lines_concat n ls : forall fuel,
  Forall (whole_line n) ls ->
  (length (concat ls) <= fuel)%nat ->
  read_lines fuel n (concat ls) = ls.
Proof.
  induction ls as [|l ls IH]; intros fuel Hall Hfuel.
  - destruct fuel; reflexivity.
  - inversion Hall as [|? ? (body & -> & Hb & Hlen) Hall']; subst.
    cbn [concat] in *. rewrite length_app in Hfuel.
    destruct fuel as [|fuel]; [rewrite length_app in Hfuel; simpl in Hfuel; lia|].
    cbn [read_lines].
    destruct ((body ++ ["010"]) ++ concat ls) as [|c s] eqn:Hs.
    { destruct body; discriminate. }
    rewrite <- Hs, fgets_whole_line by assumption.
    rewrite IH; [reflexivity|assumption|].
    rewrite length_app in Hfuel. simpl in Hfuel. lia.
Qed.

Lemma group_lines_text gl : concat (group_lines gl) = flat_map group_text gl.
Proof.
  induction gl as [|g gl IH]; [reflexivity|].
  simpl. unfold group_text at 1. destruct (newsrc_ent g); simpl; rewrite IH; reflexivity.
Qed.

Lemma group_lines_app g1 g2 : group_lines (g1 ++ g2) = group_lines g1 ++ group_lines g2.
Proof.
  induction g1 as [|g g1 IH]; [reflexivity|].
  simpl. destruct (newsrc_ent g); simpl; rewrite IH; reflexivity.
Qed.

Lemma range_char_not_nl c : range_char c -> c <> "010".
Proof.
  intros [H|[->| ->]]; try discriminate.
  intros ->. discriminate.
Qed.

Lemma portable_line mdata ents :
  portable_group mdata -> newsrc_ent mdata = Some ents ->
  line_group (newsrc_line (group mdata) (subscribed mdata) ents) = Some (group mdata) /\
  newsrc_line_fields (newsrc_line (group mdata) (subscribed mdata) ents)
    = Some (group mdata, subscribed mdata, ents) /\
  exists body, newsrc_line (group mdata) (subscribed mdata) ents = body ++ ["010"] /\
               Forall (fun c => c <> "010") body.
Proof.
  intros [[Hlen Hents] Hname] He. rewrite He in Hents. destruct Hents as [Hne Hv].
  assert (Hf : newsrc_line_fields (newsrc_line (group mdata) (subscribed mdata) ents)
               = Some (group mdata, subscribed mdata, ents)).
  { apply newsrc_line_fields_line; [|assumption|assumption].
    eapply Forall_impl; [exact Hname|]. intros c [H _]. exact H. }
  split; [unfold line_group; rewrite Hf; reflexivity|]. split; [exact Hf|].
  exists (group mdata ++ [if subscribed mdata then ":" else "!"; " "] ++ entries_text 0 ents).
  split; [unfold newsrc_line; rewrite <- !app_assoc; reflexivity|].
  apply Forall_app. split.
  - eapply Forall_impl; [exact Hname|]. intros c [_ H]. exact H.
  - apply Forall_app. split.
    + destruct (subscribed mdata); repeat constructor; discriminate.
    + eapply Forall_impl; [apply entries_text_chars; exact Hv|].
      intros c. apply range_char_not_nl.
Qed.

Lemma group_lines_whole gl n :
  Forall portable_group gl ->
  (length (concat (group_lines gl)) <= n)%nat ->
  Forall (whole_line n) (group_lines gl).
Proof.
  induction gl as [|g gl IH]; intros Hall Hn; [constructor|].
  inversion Hall as [|? ? Hg Hall']; subst. simpl in *.
  destruct (newsrc_ent g) as [ents|] eqn:He; [|apply IH; assumption].
  cbn [concat] in Hn. rewrite length_app in Hn. constructor.
  - destruct (portable_line g ents Hg He) as (_ & _ & body & Hb & Hnl).
    exists body. split; [exact Hb|]. split; [exact Hnl|]. lia.
  - apply IH; [assumption|lia].
Qed.

(** The lines of other groups are about other groups. *)
Lemma group_lines_other gl name :
  Forall portable_group gl ->
  Forall (fun g => group g <> name) gl ->
  Forall (fun l => line_group l <> Some name) (group_lines gl).
Proof.
  induction gl as [|g gl IH]; intros Hp Hn; [constructor|].
  inversion Hp as [|? ? Hg Hp']; subst. inversion Hn as [|? ? Hgn Hn']; subst.
  simpl. destruct (newsrc_ent g) as [ents|] eqn:He; [|apply IH; assumption].
  constructor; [|apply IH; assumption].
  destruct (portable_line g ents Hg He) as (-> & _). congruence.
Qed.

(** In a well-formed registry no two groups have the same name. *)
Lemma registry_wf_distinct adata g1 mdata g2 :
  registry_wf adata ->
  groups_list adata = g1 ++ mdata :: g2 ->
  Forall (fun g => group g <> group mdata) (g1 ++ g2).
Proof.
  intros [_ H2] Hl.
  assert (Hk : groups_hash adata !! group mdata = Some (length g1)).
  { apply H2. rewrite Hl. apply list_lookup_middle. reflexivity. }
  apply Forall_app. split; apply Forall_forall; intros g Hin Heq.
  - apply list_elem_of_lookup in Hin. destruct Hin as [j Hj].
    assert (Hj' : groups_list adata !! j = Some g).
    { rewrite Hl. apply lookup_app_l_Some. exact Hj. }
    apply H2 in Hj'. rewrite Heq, Hk in Hj'. inversion Hj'.
    apply lookup_lt_Some in Hj. lia.
  - apply list_elem_of_lookup in Hin. destruct Hin as [j Hj].
    assert (Hj' : groups_list adata !! (length g1 + S j)%nat = Some g).
    { rewrite Hl. rewrite lookup_app_r by lia.
      replace (length g1 + S j - length g1)%nat with (S j) by lia. exact Hj. }
    apply H2 in Hj'. rewrite Heq, Hk in Hj'. inversion Hj'. lia.
Qed.

Lemma lines_read_written adata io sz :
  Forall portable_group (groups_list adata) ->
  Forall writable_group (groups_list adata) ->
  io_content io = newsrc_buf adata ->
  Z.of_nat (length (newsrc_buf adata)) <= sz ->
  lines_read io sz = group_lines (groups_list adata).
Proof.
  intros Hp Hw Hc Hsz. unfold lines_read. rewrite Hc.
  rewrite (newsrc_buf_lines adata Hw) in *. rewrite <- group_lines_text in *.
  destruct (Z.eqb_spec sz 0) as [->|Hnz].
  - destruct (group_lines (groups_list adata)) as [|l ls] eqn:Hl; [reflexivity|].
    exfalso. assert (Hlen : length (concat (l :: ls)) = 0%nat) by lia.
    pose proof (group_lines_whole (groups_list adata) (length (concat (l :: ls))) Hp) as Hwl.
    rewrite Hl in Hwl. specialize (Hwl (Nat.le_refl _)).
    inversion Hwl as [|? ? (body & -> & _) _]; subst.
    cbn [concat] in Hlen. rewrite !length_app in Hlen. simpl in Hlen. lia.
  - apply read_lines_concat; [|lia].
    apply group_lines_whole; [exact Hp|lia].
Qed.

(** X3: what [nntp_newsrc_update] writes, [nntp_newsrc_parse] reads back:
    for a well-formed registry whose groups the file can carry, parsing
    the written text into any well-formed registry (a fresh one, or this
    one after an external change) leaves every group that had ranges
    with the same ranges and the same subscription mark. *)
Theorem newsrc_update_parse_roundtrip adata other io sz mt k mdata ents :
  registry_wf adata ->
  Forall portable_group (groups_list adata) ->
  registry_wf other ->
  io_fopen_ok io = true -> io_lock_ok io = true ->
  io_content io = newsrc_buf adata ->
  io_stat io = Some (sz, mt) ->
  Z.of_nat (length (newsrc_buf adata)) <= sz ->
  (size other =? sz) && (mtime other =? mt) = false ->
  groups_list adata !! k = Some mdata ->
  newsrc_ent mdata = Some ents ->
  fst (nntp_newsrc_parse io other) = 1 /\
  exists i mdata',
    hash_find (snd (nntp_newsrc_parse io other)) (group mdata) = Some (i, mdata') /\
    newsrc_ent mdata' = Some ents /\
    subscribed mdata' = subscribed mdata.
Proof.
  intros Hwf Hp Hwfo Ho Hl Hc Hs Hsz Hd Hk He.
  assert (Hw : Forall writable_group (groups_list adata)).
  { eapply Forall_impl; [exact Hp|]. intros g [H _]. exact H. }
  rewrite (nntp_newsrc_parse_reparse io other sz mt Ho Hl Hs Hd). simpl.
  split; [reflexivity|].
  rewrite (lines_read_written adata io sz Hp Hw Hc Hsz).
  set (start := set_groups_list _ _).
  assert (Hwf0 : registry_wf start).
  { apply (reset_groups_wf
             (set_newsrc_modified true (set_stat sz mt (set_fp_newsrc true other)))).
    exact Hwfo. }
  destruct (list_elem_of_split_length _ _ _ Hk) as (g1 & g2 & Hsplit & _).
  pose proof (registry_wf_distinct adata g1 mdata g2 Hwf Hsplit) as Hdist.
  apply Forall_app in Hdist. destruct Hdist as [Hd1 Hd2].
  rewrite Hsplit in Hp. apply Forall_app in Hp. destruct Hp as [Hp1 Hp2].
  inversion Hp2 as [|? ? Hpm Hp2']; subst.
  rewrite Hsplit, group_lines_app. cbn [group_lines]. rewrite He.
  rewrite fold_left_app. cbn [fold_left].
  set (s1 := fold_left newsrc_parse_line (group_lines g1) start).
  assert (Hwf1 : registry_wf s1) by (apply parse_lines_wf; exact Hwf0).
  destruct (portable_line mdata ents Hpm He) as (_ & Hfields & _).
  destruct (newsrc_parse_line_group s1 _ _ _ _ (registry_wf_ok _ Hwf1) Hfields)
    as (i & g' & Hfind & Hents & Hsubs).
  exists i, g'. split; [|auto].
  apply parse_lines_other; [apply newsrc_parse_line_wf; exact Hwf1|exact Hfind|].
  apply group_lines_other; assumption.
Qed.

Lemma two_read_groups_wf : registry_wf two_read_groups.
Proof.
  split.
  - intros name i Hi. unfold two_read_groups in *. simpl in *.
    destruct (decide (str "comp.lang.c" = name)) as [<-|Hne].
    + rewrite lookup_insert_eq in Hi. inversion Hi; subst.
      exists other_group. split; reflexivity.
    + rewrite lookup_insert_ne in Hi by assumption.
      apply lookup_singleton_Some in Hi. destruct Hi as [<- <-].
      exists read_group. split; reflexivity.
  - intros i mdata Hi. unfold two_read_groups in *. simpl in *.
    destruct i as [|[|i]]; simpl in Hi; inversion Hi; subst; reflexivity.
Qed.

Lemma empty_account_wf : registry_wf empty_account.
Proof.
  split.
  - intros name i H. simpl in H. rewrite lookup_empty in H. discriminate.
  - intros i g H. destruct i; discriminate.
Qed.

Lemma two_read_groups_portable : Forall portable_group (groups_list two_read_groups).
Proof.
  constructor; [|constructor; [|constructor]].
  - split; [split; [simpl; lia|]|].
    + simpl. split; [discriminate|]. constructor; [|constructor].
      unfold valid_entry, ANUM_MAX, ANUM_BITS. simpl. lia.
    + simpl. repeat constructor; discriminate.
  - split; [split; [simpl; lia|]|].
    + simpl. split; [discriminate|]. constructor; [|constructor].
      unfold valid_entry, ANUM_MAX, ANUM_BITS. simpl. lia.
    + simpl. repeat constructor; discriminate.
Qed.

Lemma newsrc_update_parse_roundtrip_witness :
  registry_wf two_read_groups /\
  Forall portable_group (groups_list two_read_groups) /\
  registry_wf empty_account /\
  newsrc_buf two_read_groups = text_line "alt.test! 1-2" ++ text_line "comp.lang.c: 1-4" /\
  exists i mdata',
    hash_find (snd (nntp_newsrc_parse (fresh_start (newsrc_buf two_read_groups))
                      empty_account))
      (group other_group) = Some (i, mdata') /\
    newsrc_ent mdata' = Some [ {| e_first := 1; e_last := 4 |} ] /\
    subscribed mdata' = subscribed other_group.
Proof.
  split; [exact two_read_groups_wf|]. split; [exact two_read_groups_portable|].
  split; [exact empty_account_wf|]. split; [vm_compute; reflexivity|].
  exact (proj2 (newsrc_update_parse_roundtrip two_read_groups empty_account
           (fresh_start (newsrc_buf two_read_groups))
           (Z.of_nat (length (newsrc_buf two_read_groups))) 7 1%nat other_group
           [ {| e_first := 1; e_last := 4 |} ]
           two_read_groups_wf two_read_groups_portable empty_account_wf
           eq_refl eq_refl eq_refl eq_refl
           (Z.le_refl _) eq_refl eq_refl eq_refl)).
Defined.

(** ** The status of an article *)

Lemma in_newsrc_covered ents n : in_newsrc ents n = true <-> covered ents n.
Proof.
  induction ents as [|e ents IH]; simpl.
  - rewrite covered_nil. split; [discriminate|tauto].
  - rewrite covered_cons, orb_true_iff, andb_true_iff, IH. unfold covers.
    rewrite !Z.leb_le. tauto.
Qed.

Lemma gen_entries_covers_loaded m mdata e :
  increasing 0 (emails m) ->
  Forall (fun e => article_num e <= last_loaded mdata) (emails m) ->
  last_loaded mdata <= ANUM_MAX ->
  In e (emails m) ->
  in_newsrc (ranges_of (nntp_newsrc_gen_entries m mdata)) (article_num e)
    = counts_read (first_message mdata) e.
Proof.
  intros Hinc Hll Hmax Hin.
  apply eq_true_iff_eq. rewrite in_newsrc_covered.
  rewrite ranges_of_gen_entries, gen_entries_tail.
  rewrite (gen_tail_covered (first_message mdata) (last_loaded mdata) (emails m) true 1 0);
    try assumption; try lia; try discriminate.
  rewrite (counted_read_loaded (first_message mdata) (emails m) 0 true e Hinc Hin).
  pose proof (increasing_above (emails m) 0 e Hinc Hin).
  pose proof (proj1 (List.Forall_forall _ _) Hll e Hin) as Hle. simpl in Hle.
  intuition lia.
Qed.

(** X4: the ranges [nntp_newsrc_gen_entries] leaves in the group bring
    the flags back when the group is loaded again: [nntp_article_status]
    marks a loaded article read exactly when it was read, deleted or
    below the first article of the group, and an article that was unread
    becomes old only under [mark_old] and when it is not above
    [last_cached]. *)
Theorem article_status_after_gen_entries C_MarkOld adata m mdata e e0 old :
  increasing 0 (emails m) ->
  Forall (fun e => article_num e <= last_loaded mdata) (emails m) ->
  last_loaded mdata <= ANUM_MAX ->
  groups_list adata !! mbox_mdata m = Some (nntp_newsrc_gen_entries m mdata) ->
  In e (emails m) ->
  nntp_article_status C_MarkOld adata m e0 old None (article_num e) =
    if counts_read (first_message mdata) e then (set_read true e0, old)
    else (e0, if last_cached mdata <? article_num e then old
              else if C_MarkOld then true else old).
Proof.
  intros Hinc Hll Hmax Hg Hin. unfold nntp_article_status. rewrite Hg.
  rewrite (gen_entries_covers_loaded m mdata e Hinc Hll Hmax Hin).
  destruct (counts_read (first_message mdata) e); [reflexivity|].
  replace (last_cached (nntp_newsrc_gen_entries m mdata)) with (last_cached mdata).
  - destruct (last_cached mdata <? article_num e); reflexivity.
  - unfold nntp_newsrc_gen_entries.
    destruct (gen_entries _ _ _); reflexivity.
Qed.

Lemma article_status_after_gen_entries_witness :
  let adata := store_mdata 0 (nntp_newsrc_gen_entries mailbox_1_to_5 group_1_to_5)
                 (set_groups_list [group_1_to_5] empty_account) in
  let e3 := {| article_num := 3; read := false; deleted := false |} in
  let e4 := {| article_num := 4; read := true; deleted := false |} in
  let fresh n := {| article_num := n; read := false; deleted := false |} in
  nntp_article_status true adata mailbox_1_to_5 (fresh 3) false None 3 = (fresh 3, false) /\
  nntp_article_status true adata mailbox_1_to_5 (fresh 4) false None 4
    = (set_read true (fresh 4), false).
Proof.
  intros adata e3 e4 fresh.
  assert (Hinc : increasing 0 (emails mailbox_1_to_5)) by (simpl; lia).
  assert (Hll : Forall (fun e => article_num e <= last_loaded group_1_to_5)
                  (emails mailbox_1_to_5)) by (repeat constructor; simpl; lia).
  assert (Hmax : last_loaded group_1_to_5 <= ANUM_MAX) by (vm_compute; discriminate).
  assert (Hg : groups_list adata !! mbox_mdata mailbox_1_to_5
               = Some (nntp_newsrc_gen_entries mailbox_1_to_5 group_1_to_5)) by reflexivity.
  split.
  - exact (article_status_after_gen_entries true adata mailbox_1_to_5 group_1_to_5
             e3 (fresh 3) false Hinc Hll Hmax Hg
             (or_intror (or_intror (or_introl eq_refl)))).
  - exact (article_status_after_gen_entries true adata mailbox_1_to_5 group_1_to_5
             e4 (fresh 4) false Hinc Hll Hmax Hg
             (or_intror (or_intror (or_intror (or_introl eq_refl))))).
Defined.

(** X5: after [mutt_newsgroup_catchup] on a group that has ranges,
    [nntp_article_status] marks every article from 1 to [last_message]
    read; after [mutt_newsgroup_uncatchup] on a group whose first article
    is at least 1 it marks no article from [first_message] on, and leaves
    the message as it is when nothing is cached. *)
Theorem catchup_then_article_status C_MarkOld cur adata name i mdata m e old anum :
  name <> [] ->
  hash_find adata name = Some (i, mdata) ->
  newsrc_ent mdata <> None ->
  (1 <= anum <= last_message mdata ->
   nntp_article_status C_MarkOld (snd (mutt_newsgroup_catchup cur adata name))
     m e old (Some name) anum = (set_read true e, old)) /\
  (1 <= first_message mdata <= anum -> first_message mdata <= ANUM_MAX ->
   last_cached mdata < anum ->
   nntp_article_status C_MarkOld (snd (mutt_newsgroup_uncatchup cur adata name))
     m e old (Some name) anum = (e, old)).
Proof.
  intros Hname Hfind Hent.
  destruct name as [|c name]; [contradiction|].
  destruct (newsrc_ent mdata) as [ents|] eqn:He; [clear Hent|contradiction].
  split.
  - intros Hn. unfold mutt_newsgroup_catchup. rewrite Hfind, He. cbn [snd].
    unfold nntp_article_status.
    erewrite hash_find_store by exact Hfind. cbn [fmap option_fmap option_map snd].
    unfold ranges_of. cbn [newsrc_ent set_unread set_newsrc_ent in_newsrc e_first e_last].
    replace (1 <=? anum) with true by (symmetry; apply Z.leb_le; lia).
    replace (anum <=? last_message mdata) with true by (symmetry; apply Z.leb_le; lia).
    reflexivity.
  - intros Hf Hmax Hc. unfold mutt_newsgroup_uncatchup. rewrite Hfind, He.
    assert (Hw : wrap (first_message mdata - 1) = first_message mdata - 1).
    { apply wrap_small. unfold ANUM_MAX in *. lia. }
    destruct (is_open_on cur i); cbn [snd];
      unfold nntp_article_status;
      (erewrite hash_find_store by exact Hfind);
      cbn [fmap option_fmap option_map snd];
      unfold ranges_of;
      cbn [newsrc_ent set_unread set_newsrc_ent in_newsrc e_first e_last
           last_cached last_message];
      rewrite Hw;
      replace (anum <=? first_message mdata - 1) with false
        by (symmetry; apply Z.leb_gt; lia);
      rewrite andb_false_r; cbn [orb];
      replace (last_cached mdata <? anum) with true by (symmetry; apply Z.ltb_lt; lia);
      reflexivity.
Qed.

Lemma catchup_then_article_status_witness :
  let e := {| article_num := 6; read := false; deleted := false |} in
  nntp_article_status true
    (snd (mutt_newsgroup_catchup None two_groups (str "comp.lang.c")))
    mailbox_1_to_5 e false (Some (str "comp.lang.c")) 6 = (set_read true e, false) /\
  nntp_article_status true
    (snd (mutt_newsgroup_uncatchup None two_groups (str "comp.lang.c")))
    mailbox_1_to_5 e false (Some (str "comp.lang.c")) 6 = (e, false).
Proof.
  intros e.
  assert (Hn : str "comp.lang.c" <> []) by discriminate.
  assert (Hf : hash_find two_groups (str "comp.lang.c") = Some (1%nat, other_group))
    by reflexivity.
  assert (He : newsrc_ent other_group <> None) by discriminate.
  destruct (catchup_then_article_status true None two_groups (str "comp.lang.c") 1%nat
              other_group mailbox_1_to_5 e false 6 Hn Hf He) as [H1 H2].
  split.
  - apply H1. simpl. lia.
  - apply H2; simpl; unfold ANUM_MAX, ANUM_BITS; lia.
Defined.

(** ** The subscription commands and the registry *)

Lemma store_same adata i mdata :
  groups_list adata !! i = Some mdata -> store_mdata i mdata adata = adata.
Proof.
  intros H. unfold store_mdata, set_groups_list. rewrite list_insert_id by exact H.
  destruct adata; reflexivity.
Qed.

Lemma hash_find_store_other adata name i mdata mdata' other :
  registry_wf adata ->
  hash_find adata name = Some (i, mdata) ->
  other <> name ->
  hash_find (store_mdata i mdata' adata) other = hash_find adata other.
Proof.
  intros Hwf Hfind Hne.
  apply (hash_find_wf adata name i mdata Hwf) in Hfind. destruct Hfind as [Hi Hn].
  unfold hash_find, store_mdata. simpl.
  destruct (groups_hash adata !! other) as [j|] eqn:Hj; [|reflexivity].
  destruct (decide (j = i)) as [->|Hji].
  - destruct (proj1 Hwf _ _ Hj) as (g & Hg & Hgn). congruence.
  - rewrite list_lookup_insert_ne by congruence. reflexivity.
Qed.

Lemma hash_find_group adata name i mdata :
  registry_wf adata -> hash_find adata name = Some (i, mdata) ->
  groups_list adata !! i = Some mdata /\ group mdata = name.
Proof. intros Hwf H. apply (hash_find_wf adata name i mdata Hwf). exact H. Qed.

(** X6: the four commands keep the hash and the array of groups in
    agreement, and none of them touches a group of another name. *)
Theorem commands_keep_registry save cur adata name :
  registry_wf adata ->
  (registry_wf (snd (mutt_newsgroup_subscribe adata name)) /\
   registry_wf (snd (mutt_newsgroup_unsubscribe save adata name)) /\
   registry_wf (snd (mutt_newsgroup_catchup cur adata name)) /\
   registry_wf (snd (mutt_newsgroup_uncatchup cur adata name))) /\
  (forall other, other <> name ->
     hash_find (snd (mutt_newsgroup_subscribe adata name)) other = hash_find adata other /\
     hash_find (snd (mutt_newsgroup_unsubscribe save adata name)) other
       = hash_find adata other /\
     hash_find (snd (mutt_newsgroup_catchup cur adata name)) other = hash_find adata other /\
     hash_find (snd (mutt_newsgroup_uncatchup cur adata name)) other
       = hash_find adata other).
Proof.
  intros Hwf.
  destruct name as [|c name].
  { split; [split; [|split; [|split]]; exact Hwf|].
    intros other _. split; [|split; [|split]]; reflexivity. }
  set (nm := c :: name).
  assert (Hsub : registry_wf (snd (mutt_newsgroup_subscribe adata nm)) /\
                 forall other, other <> nm ->
                   hash_find (snd (mutt_newsgroup_subscribe adata nm)) other
                     = hash_find adata other).
  { unfold mutt_newsgroup_subscribe, nm.
    destruct (mdata_find_facts adata (c :: name) Hwf) as (Hwf1 & (g & Hg & Hgn) & _).
    destruct (mdata_find adata (c :: name)) as [adata1 i] eqn:Hmf.
    cbn [fst snd] in *.
    destruct (hash_find_group adata1 _ i g Hwf1 Hg) as [Hi _]. rewrite Hi.
    cbn [snd]. split.
    - eapply store_mdata_wf; [exact Hwf1|exact Hi|].
      destruct (newsrc_ent (set_subscribed true g)); reflexivity.
    - intros other Hne.
      rewrite (hash_find_store_other adata1 (c :: name) i g _ other Hwf1 Hg Hne).
      replace adata1 with (fst (mdata_find adata (c :: name))) by (rewrite Hmf; reflexivity).
      apply hash_find_mdata_find_other; assumption. }
  assert (Hrest : forall (f : NntpMboxData -> NntpMboxData),
            (forall g, group (f g) = group g) ->
            forall i g, hash_find adata nm = Some (i, g) ->
              registry_wf (store_mdata i (f g) adata) /\
              forall other, other <> nm ->
                hash_find (store_mdata i (f g) adata) other = hash_find adata other).
  { intros f Hf i g Hg. destruct (hash_find_group adata nm i g Hwf Hg) as [Hi _]. split.
    - eapply store_mdata_wf; [exact Hwf|exact Hi|apply Hf].
    - intros other Hne. eapply hash_find_store_other; eassumption. }
  assert (Huns : registry_wf (snd (mutt_newsgroup_unsubscribe save adata nm)) /\
                 forall other, other <> nm ->
                   hash_find (snd (mutt_newsgroup_unsubscribe save adata nm)) other
                     = hash_find adata other).
  { unfold mutt_newsgroup_unsubscribe, nm. fold nm.
    destruct (hash_find adata nm) as [[i g]|] eqn:Hg; [|split; [exact Hwf|reflexivity]].
    cbn [snd].
    apply (Hrest (fun g => if save then set_subscribed false g
                           else set_newsrc_ent None (set_subscribed false g)));
      [|reflexivity].
    intros g0. destruct save; reflexivity. }
  assert (Hcat : registry_wf (snd (mutt_newsgroup_catchup cur adata nm)) /\
                 forall other, other <> nm ->
                   hash_find (snd (mutt_newsgroup_catchup cur adata nm)) other
                     = hash_find adata other).
  { unfold mutt_newsgroup_catchup, nm. fold nm.
    destruct (hash_find adata nm) as [[i g]|] eqn:Hg; [|split; [exact Hwf|reflexivity]].
    cbn [snd].
    apply (Hrest (fun g => set_unread 0
                    match newsrc_ent g with
                    | Some _ => set_newsrc_ent
                                  (Some [{| e_first := 1; e_last := last_message g |}]) g
                    | None => g
                    end)); [|reflexivity].
    intros g0. destruct (newsrc_ent g0); reflexivity. }
  assert (Hunc : registry_wf (snd (mutt_newsgroup_uncatchup cur adata nm)) /\
                 forall other, other <> nm ->
                   hash_find (snd (mutt_newsgroup_uncatchup cur adata nm)) other
                     = hash_find adata other).
  { unfold mutt_newsgroup_uncatchup, nm. fold nm.
    destruct (hash_find adata nm) as [[i g]|] eqn:Hg; [|split; [exact Hwf|reflexivity]].
    destruct (hash_find_group adata nm i g Hwf Hg) as [Hi _].
    destruct (is_open_on cur i); cbn [snd]; (split;
      [eapply store_mdata_wf; [exact Hwf|exact Hi|destruct (newsrc_ent g); reflexivity]
      |intros other Hne; eapply hash_find_store_other; eassumption]). }
  split.
  - split; [|split; [|split]]; [apply Hsub|apply Huns|apply Hcat|apply Hunc].
  - intros other Hne. split; [|split; [|split]];
      [apply Hsub|apply Huns|apply Hcat|apply Hunc]; exact Hne.
Qed.

Lemma commands_keep_registry_witness :
  registry_wf two_groups /\
  registry_wf (snd (mutt_newsgroup_subscribe two_groups (str "news.answers"))) /\
  hash_find (snd (mutt_newsgroup_unsubscribe false two_groups (str "alt.test")))
    (str "comp.lang.c") = Some (1%nat, other_group).
Proof.
  split; [exact two_groups_wf|]. split.
  - exact (proj1 (proj1 (commands_keep_registry false None two_groups (str "news.answers")
                           two_groups_wf))).
  - assert (Hne : str "comp.lang.c" <> str "alt.test") by discriminate.
    exact (proj1 (proj2 (proj2 (commands_keep_registry false None two_groups
                                  (str "alt.test") two_groups_wf)
                           (str "comp.lang.c") Hne))).
Defined.

(** X7: [mutt_newsgroup_subscribe] on a name that is not empty always
    returns a group, subscribed and with ranges; a group that was there
    stays where it is with its window, its unread count and the ranges
    it had; and subscribing a second time changes nothing. *)
Theorem subscribe_keeps_ranges adata name :
  registry_wf adata -> name <> [] ->
  let r := mutt_newsgroup_subscribe adata name in
  (exists i g,
     fst r = Some i /\ hash_find (snd r) name = Some (i, g) /\
     subscribed g = true /\ newsrc_ent g <> None /\
     forall i0 g0, hash_find adata name = Some (i0, g0) ->
       i = i0 /\
       g = set_newsrc_ent (Some (match newsrc_ent g0 with
                                 | Some ents => ents
                                 | None => [sentinel]
                                 end)) (set_subscribed true g0)) /\
  mutt_newsgroup_subscribe (snd r) name = r.
Proof.
  intros Hwf Hname r. destruct name as [|c name]; [contradiction|].
  set (nm := c :: name) in *.
  destruct (mdata_find_facts adata nm Hwf) as (Hwf1 & (g & Hg & Hgn) & _ & Hold & _ & Hagain).
  unfold r, mutt_newsgroup_subscribe. fold nm.
  destruct (mdata_find adata nm) as [adata1 i] eqn:Hmf. cbn [fst snd] in *.
  destruct (hash_find_group adata1 nm i g Hwf1 Hg) as [Hi _]. rewrite Hi.
  set (g' := match newsrc_ent (set_subscribed true g) with
             | Some _ => set_subscribed true g
             | None => set_newsrc_ent (Some [sentinel]) (set_subscribed true g)
             end).
  assert (Hfind' : hash_find (store_mdata i g' adata1) nm = Some (i, g'))
    by (eapply hash_find_store; exact Hg).
  cbn [fst snd]. split.
  - exists i, g'. split; [reflexivity|]. split; [exact Hfind'|].
    split; [unfold g'; destruct (newsrc_ent (set_subscribed true g)); reflexivity|].
    split; [unfold g'; destruct g as [? ? ? ? ? ? ? ? [ents|]]; discriminate|].
    intros i0 g0 H0.
    assert (Hk : groups_hash adata !! nm = Some i0).
    { unfold hash_find in H0. destruct (groups_hash adata !! nm) as [k|]; [|discriminate].
      destruct (groups_list adata !! k); [|discriminate]. congruence. }
    destruct (Hold i0 Hk) as [-> ->]. split; [reflexivity|].
    assert (g = g0) by congruence. subst g0.
    unfold g'. simpl. destruct g as [? ? ? ? ? ? ? ? [ents|]]; reflexivity.
  - assert (Hmf' : mdata_find (store_mdata i g' adata1) nm = (store_mdata i g' adata1, i)).
    { unfold mdata_find. cbn [groups_hash store_mdata set_groups_list].
      unfold hash_find in Hg. destruct (groups_hash adata1 !! nm) as [k|]; [|discriminate].
      destruct (groups_list adata1 !! k); [|discriminate]. congruence. }
    subst nm. cbv iota. cbn [snd]. rewrite Hmf'.
    assert (Hi' : groups_list (store_mdata i g' adata1) !! i = Some g').
    { unfold hash_find in Hfind'.
      destruct (groups_hash (store_mdata i g' adata1) !! (c :: name)) as [k|]; [|discriminate].
      destruct (groups_list (store_mdata i g' adata1) !! k) eqn:E; [|discriminate].
      congruence. }
    rewrite Hi'.
    assert (Hsame : match newsrc_ent (set_subscribed true g') with
                    | Some _ => set_subscribed true g'
                    | None => set_newsrc_ent (Some [sentinel]) (set_subscribed true g')
                    end = g').
    { unfold g'. destruct g as [? ? ? ? ? ? ? ? [ents|]]; reflexivity. }
    rewrite Hsame, (store_same _ i g' Hi'). reflexivity.
Qed.

Lemma subscribe_keeps_ranges_witness :
  exists i g,
    fst (mutt_newsgroup_subscribe two_groups (str "comp.lang.c")) = Some i /\
    hash_find (snd (mutt_newsgroup_subscribe two_groups (str "comp.lang.c")))
      (str "comp.lang.c") = Some (i, g) /\
    subscribed g = true /\ newsrc_ent g <> None.
Proof.
  assert (Hn : str "comp.lang.c" <> []) by discriminate.
  destruct (proj1 (subscribe_keeps_ranges two_groups (str "comp.lang.c") two_groups_wf Hn))
    as (i & g & H1 & H2 & H3 & H4 & _).
  exists i, g. auto.
Defined.

(** ** What the commands mean for the file, the counts and the next group *)

Lemma hash_find_middle adata g1 mdata g2 :
  registry_wf adata -> groups_list adata = g1 ++ mdata :: g2 ->
  hash_find adata (group mdata) = Some (length g1, mdata).
Proof.
  intros Hwf Hl. apply (hash_find_wf adata _ _ _ Hwf). split; [|reflexivity].
  rewrite Hl. apply list_lookup_middle. reflexivity.
Qed.




Lemma gen_fold_all_read fm es : forall last,
  Forall (fun e => read e = true) es ->
  exists last',
    fold_left (gen_step fm) es
      {| gs_ents := []; gs_series := true; gs_first := 1; gs_last := last |}
    = {| gs_ents := []; gs_series := true; gs_first := 1; gs_last := last' |}.
Proof.
  induction es as [|e es IH]; intros last Hall.
  - exists last. reflexivity.
  - inversion Hall as [|? ? He Hall']; subst. cbn [fold_left].
    unfold gen_step at 2. cbn [gs_series gs_ents gs_first gs_last]. rewrite He.
    rewrite andb_false_r. apply IH. exact Hall'.
Qed.

Lemma gen_entries_all_read fm ll es :
  Forall (fun e => read e = true) es ->
  gen_entries fm ll es = if 1 <=? ll then [ {| e_first := 1; e_last := ll |} ] else [].
Proof.
  intros Hall. unfold gen_entries, gen_init.
  destruct (gen_fold_all_read fm es 0 Hall) as [last' ->]. reflexivity.
Qed.

(** X9: a group that has just been caught up is not the one
    [nntp_mailbox] stops at, whatever mailbox is open; and when the group
    is the open one, all its messages are read afterwards, so that
    [nntp_newsrc_gen_entries] leaves the single range from 1 to
    [last_loaded] (no range when [last_loaded] is 0). *)
Theorem catchup_group_not_offered cur adata name i mdata :
  registry_wf adata -> name <> [] ->
  hash_find adata name = Some (i, mdata) ->
  let r := mutt_newsgroup_catchup cur adata name in
  (forall m, nntp_mailbox_scan m (groups_list (snd r)) <> Some name) /\
  (forall mb, is_open_on cur i = true -> snd (fst r) = Some mb ->
     forall g, ranges_of (nntp_newsrc_gen_entries mb g) =
               if 1 <=? last_loaded g
               then [ {| e_first := 1; e_last := last_loaded g |} ] else []).
Proof.
  intros Hwf Hname Hfind r.
  destruct name as [|c name]; [contradiction|].
  set (nm := c :: name) in *.
  set (g' := set_unread 0
               match newsrc_ent mdata with
               | Some _ => set_newsrc_ent
                             (Some [{| e_first := 1; e_last := last_message mdata |}]) mdata
               | None => mdata
               end).
  assert (Hr : r = (Some i, if is_open_on cur i then mark_all true cur else cur,
                    store_mdata i g' adata)).
  { unfold r, mutt_newsgroup_catchup, nm. fold nm. rewrite Hfind. reflexivity. }
  destruct (hash_find_group adata nm i mdata Hwf Hfind) as [Hi Hgn].
  assert (Hwf' : registry_wf (store_mdata i g' adata)).
  { eapply store_mdata_wf; [exact Hwf|exact Hi|].
    unfold g'. destruct (newsrc_ent mdata); reflexivity. }
  assert (Hfind' : hash_find (store_mdata i g' adata) nm = Some (i, g'))
    by (eapply hash_find_store; exact Hfind).
  rewrite Hr. cbn [fst snd]. split.
  - intros m Hscan. apply nntp_mailbox_scan_first in Hscan.
    destruct Hscan as (before & g & after & Hl & Hg & Helig & _).
    assert (Hg' : hash_find (store_mdata i g' adata) nm = Some (length before, g)).
    { rewrite <- Hg. apply hash_find_middle with (g2 := after); assumption. }
    rewrite Hfind' in Hg'. inversion Hg'; subst g.
    unfold eligible in Helig. replace (unread g') with 0 in Helig by reflexivity.
    simpl in Helig. rewrite andb_false_r in Helig. discriminate.
  - intros mb Hopen Hmb g. rewrite Hopen in Hmb.
    destruct cur as [cm|]; [|discriminate]. simpl in Hmb. inversion Hmb; subst mb.
    rewrite ranges_of_gen_entries. apply gen_entries_all_read.
    simpl. apply List.Forall_forall. intros e He. apply in_map_iff in He.
    destruct He as (e0 & <- & _). reflexivity.
Qed.

Lemma catchup_group_not_offered_witness :
  nntp_mailbox_scan all_read_mailbox
    (groups_list (snd (mutt_newsgroup_catchup None two_groups (str "alt.test"))))
    <> Some (str "alt.test").
Proof.
  assert (Hn : str "alt.test" <> []) by discriminate.
  assert (Hf : hash_find two_groups (str "alt.test") = Some (0%nat, stale_group))
    by reflexivity.
  exact (proj1 (catchup_group_not_offered None two_groups (str "alt.test") 0%nat stale_group
                  two_groups_wf Hn Hf) all_read_mailbox).
Defined.

(** X10: on a group that has ranges and whose window starts at 1 or
    above, the unread count the two commands leave is the one
    [nntp_group_unread_stat] computes from the ranges they leave: 0 after
    [mutt_newsgroup_catchup], and the size of the window after
    [mutt_newsgroup_uncatchup] on a group that is not open. *)
Theorem catchup_counts_consistent cur adata name i mdata :
  name <> [] ->
  hash_find adata name = Some (i, mdata) ->
  newsrc_ent mdata <> None ->
  1 <= first_message mdata <= last_message mdata + 1 ->
  last_message mdata <= ANUM_MAX ->
  (exists g,
     hash_find (snd (mutt_newsgroup_catchup cur adata name)) name = Some (i, g) /\
     unread g = 0 /\ unread_consistent g) /\
  (is_open_on cur i = false ->
   exists g,
     hash_find (snd (mutt_newsgroup_uncatchup cur adata name)) name = Some (i, g) /\
     unread g = last_message mdata - first_message mdata + 1 /\ unread_consistent g).
Proof.
  intros Hname Hfind Hent Hfm Hmax.
  destruct name as [|c name]; [contradiction|].
  destruct (newsrc_ent mdata) as [ents|] eqn:He; [clear Hent|contradiction].
  assert (Hmax' : last_message mdata < 2 ^ 32) by (unfold ANUM_MAX, ANUM_BITS in Hmax; lia).
  assert (Hw1 : wrap (first_message mdata - 1) = first_message mdata - 1)
    by (apply wrap_small; lia).
  split.
  - eexists. unfold mutt_newsgroup_catchup. rewrite Hfind, He. cbn [snd].
    split; [eapply hash_find_store; exact Hfind|]. split; [reflexivity|].
    unfold unread_consistent, nntp_group_unread_stat.
    cbn [last_message first_message newsrc_ent unread set_unread set_newsrc_ent].
    destruct ((last_message mdata =? 0) || (last_message mdata <? first_message mdata))
      eqn:Hc; [reflexivity|].
    apply orb_false_iff in Hc. destruct Hc as [H0 Hlt].
    apply Z.ltb_ge in Hlt. cbn [fold_left unread set_unread].
    unfold unread_step. cbn [e_first e_last].
    replace (if 1 <? first_message mdata then first_message mdata else 1)
      with (first_message mdata) by (destruct (Z.ltb_spec 1 (first_message mdata)); lia).
    rewrite Z.ltb_irrefl.
    replace (first_message mdata <=? last_message mdata) with true
      by (symmetry; apply Z.leb_le; lia).
    rewrite Z.sub_diag. reflexivity.
  - intros Hopen. eexists. unfold mutt_newsgroup_uncatchup. rewrite Hfind, He, Hopen.
    cbn [snd].
    split; [eapply hash_find_store; exact Hfind|].
    cbn [last_message first_message newsrc_ent unread set_unread set_newsrc_ent
         List.hd e_last].
    rewrite Hw1.
    assert (Hu : wrap (last_message mdata - (first_message mdata - 1))
                 = last_message mdata - first_message mdata + 1).
    { rewrite wrap_small by lia. lia. }
    rewrite Hu. split; [reflexivity|].
    unfold unread_consistent, nntp_group_unread_stat.
    cbn [last_message first_message newsrc_ent unread set_unread set_newsrc_ent].
    destruct ((last_message mdata =? 0) || (last_message mdata <? first_message mdata))
      eqn:Hc.
    + cbn [unread set_unread]. apply orb_true_iff in Hc. destruct Hc as [H0|Hlt].
      * apply Z.eqb_eq in H0. lia.
      * apply Z.ltb_lt in Hlt. lia.
    + apply orb_false_iff in Hc. destruct Hc as [H0 Hlt].
      apply Z.ltb_ge in Hlt. cbn [fold_left unread set_unread].
      unfold unread_step. cbn [e_first e_last].
      replace (if 1 <? first_message mdata then first_message mdata else 1)
        with (first_message mdata) by (destruct (Z.ltb_spec 1 (first_message mdata)); lia).
      replace (last_message mdata <? first_message mdata - 1) with false
        by (symmetry; apply Z.ltb_ge; lia).
      replace (first_message mdata <=? first_message mdata - 1) with false
        by (symmetry; apply Z.leb_gt; lia).
      rewrite (wrap_small (last_message mdata - first_message mdata)) by lia.
      apply wrap_small. lia.
Qed.

Lemma catchup_counts_consistent_witness :
  exists g,
    hash_find (snd (mutt_newsgroup_uncatchup None two_groups (str "comp.lang.c")))
      (str "comp.lang.c") = Some (1%nat, g) /\
    unread g = 7 /\ unread_consistent g.
Proof.
  assert (Hn : str "comp.lang.c" <> []) by discriminate.
  assert (Hf : hash_find two_groups (str "comp.lang.c") = Some (1%nat, other_group))
    by reflexivity.
  assert (He : newsrc_ent other_group <> None) by discriminate.
  assert (Hfm : 1 <= first_message other_group <= last_message other_group + 1)
    by (simpl; lia).
  assert (Hmax : last_message other_group <= ANUM_MAX) by (vm_compute; discriminate).
  exact (proj2 (catchup_counts_consistent None two_groups (str "comp.lang.c") 1%nat
                  other_group Hn Hf He Hfm Hmax) eq_refl).
Defined.

(** ** More on the caches *)

Lemma bcache_fold_all (ids : list (list ascii)) :
  forall (bc : gset (list ascii)) (id : list ascii),
  id ∈ foldl (fun bc id => nntp_bcache_delete id bc None) bc ids <->
  id ∈ bc /\ id ∉ ids.
Proof.
  induction ids as [|x ids IH]; intros bc id; simpl.
  - rewrite elem_of_nil. tauto.
  - rewrite IH. unfold mutt_bcache_del.
    rewrite elem_of_cons, elem_of_difference, elem_of_singleton. tauto.
Qed.

(** X11: trimming the body cache only removes, keeps nothing but ids
    that read as an article number of the window, and has nothing left
    to do when it is run again. *)
Theorem bcache_update_idempotent (mdata : NntpMboxData) (bc : gset (list ascii)) :
  nntp_bcache_update mdata bc ⊆ bc /\
  (forall id, id ∈ nntp_bcache_update mdata bc ->
     exists n, scan_id id = Some n /\ first_message mdata <= n <= last_message mdata) /\
  nntp_bcache_update mdata (nntp_bcache_update mdata bc) = nntp_bcache_update mdata bc.
Proof.
  split; [|split].
  - intros id Hid. apply bcache_update_spec in Hid. tauto.
  - intros id Hid. apply bcache_update_spec in Hid. destruct Hid as [_ Hk].
    unfold bcache_keeps in Hk. destruct (scan_id id) as [n|]; [|discriminate].
    exists n. split; [reflexivity|].
    apply negb_true_iff, orb_false_iff in Hk. destruct Hk as [H1 H2].
    apply Z.ltb_ge in H1. apply Z.ltb_ge in H2. lia.
  - apply set_eq. intros id. rewrite !bcache_update_spec. tauto.
Qed.

(** X12: [nntp_delete_group_cache] does nothing for a server that is not
    cacheable; otherwise it resets [last_cached], leaves no id at all in
    the body cache, numeric or not, and takes away the header cache file
    and no other file (that one too stays when [unlink] fails). *)
Theorem delete_group_cache_empties cacheable io hfile fs bcache mdata :
  let r := nntp_delete_group_cache cacheable io hfile fs bcache mdata in
  (cacheable = false -> r = (mdata, fs, bcache)) /\
  (cacheable = true ->
     fst (fst r) = set_last_cached 0 mdata /\
     snd r = (fun _ => ∅) <$> bcache /\
     (forall path, path <> hfile -> snd (fst r) !! path = fs !! path) /\
     snd (fst r) !! hfile = if w_unlink_ok io then None else fs !! hfile).
Proof.
  intros r. unfold r, nntp_delete_group_cache. split; intros ->; simpl; [reflexivity|].
  split; [reflexivity|]. split; [|split].
  - destruct bcache as [bc|]; simpl; [|reflexivity]. f_equal.
    apply set_eq. intros id. unfold mutt_bcache_list.
    rewrite bcache_fold_all, elem_of_elements, elem_of_empty. tauto.
  - intros path Hne. unfold unlink. destruct (w_unlink_ok io); [|reflexivity].
    apply lookup_delete_ne. congruence.
  - unfold unlink. destruct (w_unlink_ok io); [|reflexivity].
    apply lookup_delete_eq.
Qed.

Lemma delete_group_cache_empties_witness :
  let r := nntp_delete_group_cache true all_calls_succeed (str "/home/user/.newsrc")
             one_newsrc (Some bodies_50_150_250) window_100_200 in
  snd r = Some ∅ /\ snd (fst r) !! str "/home/user/.newsrc" = None.
Proof.
  intros r.
  destruct (proj2 (delete_group_cache_empties true all_calls_succeed
                     (str "/home/user/.newsrc") one_newsrc (Some bodies_50_150_250)
                     window_100_200) eq_refl) as (_ & H2 & _ & H4).
  split; [exact H2|exact H4].
Defined.


Lemma digits_no_zero s : Forall (fun c => isdigit c = true) s -> Forall (fun c => c <> zero) s.
Proof.
  intros H. eapply Forall_impl; [exact H|]. intros c Hc. apply isdigit_not_special. exact Hc.
Qed.






(** ** The name of the header cache file *)










(** ** The list of the groups of the server *)

Lemma scan_nonspace_word w : forall name rest,
  Forall (fun c => isspace c = false) name ->
  (length name <= w)%nat ->
  (forall c r, rest = c :: r -> isspace c = true) ->
  scan_nonspace w (name ++ rest) = (name, rest).
Proof.
  induction w as [|w IH]; intros name rest Hn Hlen Hrest.
  - destruct name; [|simpl in Hlen; lia]. simpl. destruct rest; reflexivity.
  - destruct name as [|c name].
    + simpl. destruct rest as [|c r]; [reflexivity|].
      rewrite (Hrest c r eq_refl). reflexivity.
    + inversion Hn as [|? ? Hc Hn']; subst. simpl. rewrite Hc.
      rewrite IH; [reflexivity|assumption|simpl in Hlen; lia|assumption].
Qed.

Lemma scan_not_nl_text w : forall d rest,
  Forall (fun c => c <> "010") d ->
  (length d <= w)%nat ->
  (forall c r, rest = c :: r -> c = "010") ->
  scan_not_nl w (d ++ rest) = (d, rest).
Proof.
  induction w as [|w IH]; intros d rest Hd Hlen Hrest.
  - destruct d; [|simpl in Hlen; lia]. simpl. destruct rest; reflexivity.
  - destruct d as [|c d].
    + simpl. destruct rest as [|c r]; [reflexivity|].
      rewrite (Hrest c r eq_refl). reflexivity.
    + inversion Hd as [|? ? Hc Hd']; subst. simpl.
      destruct (Ascii.eqb_spec c "010"); [contradiction|].
      rewrite IH; [reflexivity|assumption|simpl in Hlen; lia|assumption].
Qed.

Lemma skip_space_word s c r : s = c :: r -> isspace c = false -> skip_space s = s.
Proof. intros -> H. simpl. rewrite H. reflexivity. Qed.

(** The line of a group reads back as its fields. *)
Lemma scan_group_line_active mdata info :
  listed_group mdata info ->
  scan_group_line (active_line mdata info)
    = Some (group mdata, last_message mdata, first_message mdata,
            if allowed info then "y" else "n", default [] (desc info)).
Proof.
  intros ((Hne & Hname & Hlen) & Hdesc & Hfm & Hlm & _).
  unfold scan_group_line.
  set (tail := match desc info with Some d => " " :: d | None => [] end ++ ["010"]).
  set (flag := if allowed info then "y" else "n").
  assert (Hflag : isspace flag = false /\ flag <> zero /\ isdigit flag = false).
  { unfold flag. destruct (allowed info); repeat split; discriminate. }
  assert (Htail0 : Forall (fun c => c <> zero) tail).
  { unfold tail. apply Forall_app. split; [|repeat constructor; discriminate].
    destruct (desc info) as [[|c d]|]; [contradiction| |constructor].
    destruct Hdesc as (_ & Hd & _). constructor; [discriminate|].
    eapply Forall_impl; [exact Hd|]. intros x [_ H]. exact H. }
  assert (Hline : active_line mdata info =
                  group mdata ++ " " :: print_u (last_message mdata) ++
                    " " :: print_u (first_message mdata) ++ " " :: flag :: tail)
    by reflexivity.
  rewrite Hline, cstr_id.
  2:{ apply Forall_app. split.
      - eapply Forall_impl; [exact Hname|]. intros c [_ H]. exact H.
      - constructor; [discriminate|]. apply Forall_app. split.
        + apply digits_no_zero, print_u_digits. lia.
        + constructor; [discriminate|]. apply Forall_app. split.
          * apply digits_no_zero, print_u_digits. lia.
          * constructor; [discriminate|]. constructor; [apply Hflag|exact Htail0]. }
  unfold scan_s.
  destruct (group mdata) as [|c name] eqn:Hg; [contradiction|].
  inversion Hname as [|? ? [Hc _] Hname']; subst.
  rewrite (skip_space_word ((c :: name) ++ _) c (name ++ " " :: print_u (last_message mdata) ++
             " " :: print_u (first_message mdata) ++ " " :: flag :: tail) eq_refl Hc).
  rewrite scan_nonspace_word.
  2:{ constructor; [exact Hc|]. eapply Forall_impl; [exact Hname'|]. intros x [H _]. exact H. }
  2:{ cbn [length] in Hlen |- *. lia. }
  2:{ intros x r H. inversion H. reflexivity. }
  change (" " :: print_u (last_message mdata) ++
            " " :: print_u (first_message mdata) ++ " " :: flag :: tail)
    with ([" "] ++ print_u (last_message mdata) ++
            (" " :: print_u (first_message mdata) ++ " " :: flag :: tail)).
  rewrite scan_u_print; [|repeat constructor|assumption|intros x r H; inversion H; reflexivity].
  change (" " :: print_u (first_message mdata) ++ " " :: flag :: tail)
    with ([" "] ++ print_u (first_message mdata) ++ (" " :: flag :: tail)).
  rewrite scan_u_print; [|repeat constructor|assumption|intros x r H; inversion H; reflexivity].
  cbn [skip_space]. change (isspace " ") with true. cbv iota.
  cbn [skip_space]. rewrite (proj1 Hflag).
  f_equal. f_equal. unfold tail.
  destruct (desc info) as [[|x d]|]; [contradiction| |reflexivity].
  destruct Hdesc as (Hx & Hd & Hdl).
  change ((" " :: x :: d) ++ ["010"]) with (" " :: (x :: d) ++ ["010"]).
  cbn [skip_space]. change (isspace " ") with true. cbv iota.
  rewrite (skip_space_word ((x :: d) ++ ["010"]) x (d ++ ["010"]) eq_refl Hx).
  rewrite scan_not_nl_text; [reflexivity| | |intros y r H; inversion H; reflexivity].
  - eapply Forall_impl; [exact Hd|]. intros y [H _]. exact H.
  - cbn [length] in Hdl |- *. lia.
Qed.

Lemma mutt_str_replace_desc d :
  listed_desc d -> mutt_str_replace (default [] d) = d.
Proof. destruct d as [[|c d]|]; [contradiction|reflexivity|reflexivity]. Qed.

Lemma info_eta info :
  {| allowed := allowed info; desc := desc info |} = info.
Proof. destruct info; reflexivity. Qed.

(** What [nntp_add_group] does with a line that names a group. *)
Lemma nntp_add_group_fields line name last first flag d adata infos :
  registry_wf adata ->
  scan_group_line line = Some (name, last, first, flag, d) ->
  let r := nntp_add_group line (adata, infos) in
  registry_wf (fst r) /\
  (exists i g,
     hash_find (fst r) name = Some (i, g) /\
     first_message g = first /\ last_message g = last /\ mdata_deleted g = false /\
     snd r !! i = Some {| allowed := Ascii.eqb flag "y" || Ascii.eqb flag "m";
                          desc := mutt_str_replace d |} /\
     forall i0 g0, hash_find adata name = Some (i0, g0) ->
       i = i0 /\ newsrc_ent g = newsrc_ent g0 /\ subscribed g = subscribed g0 /\
       last_cached g = last_cached g0) /\
  (forall other, other <> name -> hash_find (fst r) other = hash_find adata other) /\
  (forall j, groups_hash (fst r) !! name <> Some j -> snd r !! j = infos !! j).
Proof.
  intros Hwf Hscan r. unfold r, nntp_add_group. rewrite Hscan.
  destruct (mdata_find_facts adata name Hwf) as (Hwf1 & (g & Hg & Hgn) & _ & Hold & _).
  pose proof (hash_find_mdata_find_other adata name) as Hother.
  destruct (mdata_find adata name) as [adata1 i] eqn:Hmf. cbn [fst snd] in *.
  destruct (hash_find_group adata1 name i g Hwf1 Hg) as [Hi _]. rewrite Hi.
  set (g1 := set_last_message last (set_first_message first (set_mdata_deleted false g))).
  set (g2 := match newsrc_ent g1 with
             | Some _ => nntp_group_unread_stat g1
             | None => _
             end).
  assert (Hg2 : group g2 = group g /\ first_message g2 = first /\ last_message g2 = last /\
                mdata_deleted g2 = false /\ newsrc_ent g2 = newsrc_ent g /\
                subscribed g2 = subscribed g /\ last_cached g2 = last_cached g).
  { assert (Hu : forall x, group (nntp_group_unread_stat x) = group x /\
                   first_message (nntp_group_unread_stat x) = first_message x /\
                   last_message (nntp_group_unread_stat x) = last_message x /\
                   mdata_deleted (nntp_group_unread_stat x) = mdata_deleted x /\
                   newsrc_ent (nntp_group_unread_stat x) = newsrc_ent x /\
                   subscribed (nntp_group_unread_stat x) = subscribed x /\
                   last_cached (nntp_group_unread_stat x) = last_cached x).
    { intros x. unfold nntp_group_unread_stat.
      destruct ((last_message x =? 0) || (last_message x <? first_message x));
        repeat split. }
    unfold g2. destruct (newsrc_ent g1) eqn:E1; [apply (Hu g1)|].
    destruct (negb (last_cached g1 =? 0)); [apply (Hu g1)|].
    destruct (negb (last_message g1 =? 0) && (first_message g1 <=? last_message g1));
      repeat split. }
  destruct Hg2 as (H1 & H2 & H3 & H4 & H5 & H6 & H7).
  cbn [fst snd]. split; [|split; [|split]].
  - eapply store_mdata_wf; [exact Hwf1|exact Hi|exact H1].
  - exists i, g2. split; [eapply hash_find_store; exact Hg|].
    split; [exact H2|]. split; [exact H3|]. split; [exact H4|].
    split; [apply lookup_insert_eq|].
    intros i0 g0 H0.
    assert (Hk : groups_hash adata !! name = Some i0).
    { unfold hash_find in H0. destruct (groups_hash adata !! name) as [k|]; [|discriminate].
      destruct (groups_list adata !! k); [|discriminate]. congruence. }
    destruct (Hold i0 Hk) as [-> ->].
    assert (g = g0) by congruence. subst g0. auto.
  - intros other Hne.
    rewrite (hash_find_store_other adata1 name i g g2 other Hwf1 Hg Hne).
    apply Hother; assumption.
  - intros j Hj. apply lookup_insert_ne. intros ->. apply Hj.
    unfold hash_find in Hg. cbn [groups_hash store_mdata set_groups_list].
    destruct (groups_hash adata1 !! name) as [k|]; [|discriminate].
    destruct (groups_list adata1 !! k); [|discriminate]. congruence.
Qed.

Lemma flag_allowed info :
  Ascii.eqb (if allowed info then "y" else "n") "y"
    || Ascii.eqb (if allowed info then "y" else "n") "m" = allowed info.
Proof. destruct (allowed info); reflexivity. Qed.

(** X15: [nntp_add_group] reads a line of [nntp_active_save_cache] back:
    the group of that name (found, or created) gets the first and the
    last article, the posting flag and the description of the line and
    is no longer marked deleted; a group that was there keeps its
    position, its ranges and its subscription; no other group changes,
    and the hash and the array still agree. *)
Theorem add_group_reads_active_line mdata info adata infos :
  registry_wf adata ->
  listed_group mdata info ->
  let r := nntp_add_group (active_line mdata info) (adata, infos) in
  registry_wf (fst r) /\
  (exists i g,
     hash_find (fst r) (group mdata) = Some (i, g) /\
     first_message g = first_message mdata /\ last_message g = last_message mdata /\
     mdata_deleted g = false /\ info_of (snd r) i = info /\
     forall i0 g0, hash_find adata (group mdata) = Some (i0, g0) ->
       i = i0 /\ newsrc_ent g = newsrc_ent g0 /\ subscribed g = subscribed g0) /\
  (forall other, other <> group mdata -> hash_find (fst r) other = hash_find adata other).
Proof.
  intros Hwf Hl r.
  pose proof (scan_group_line_active mdata info Hl) as Hscan.
  destruct (nntp_add_group_fields _ _ _ _ _ _ adata infos Hwf Hscan)
    as (Hwf' & (i & g & Hg & Hf & Hla & Hd & Hinfo & Hold) & Hother & _).
  fold r in Hwf', Hg, Hinfo, Hother.
  split; [exact Hwf'|]. split; [|exact Hother].
  exists i, g. split; [exact Hg|]. split; [exact Hf|]. split; [exact Hla|].
  split; [exact Hd|]. split.
  - unfold info_of. rewrite Hinfo. simpl.
    rewrite flag_allowed, mutt_str_replace_desc by apply Hl. apply info_eta.
  - intros i0 g0 H0. destruct (Hold i0 g0 H0) as (? & ? & ? & _). auto.
Qed.

Lemma listed_other_group :
  listed_group other_group {| allowed := true; desc := Some (str "The C language") |}.
Proof.
  split; [|split; [|split; [|split]]].
  - split; [discriminate|]. split; [|simpl; lia].
    repeat constructor; discriminate.
  - split; [reflexivity|]. split; [|simpl; lia].
    repeat constructor; discriminate.
  - split; vm_compute; discriminate.
  - split; vm_compute; discriminate.
  - vm_compute. discriminate.
Qed.

Lemma add_group_reads_active_line_witness :
  active_line other_group {| allowed := true; desc := Some (str "The C language") |}
    = text_line "comp.lang.c 7 1 y The C language" /\
  exists i g,
    hash_find (fst (nntp_add_group (text_line "comp.lang.c 7 1 y The C language")
                      (empty_account, ∅))) (str "comp.lang.c") = Some (i, g) /\
    first_message g = 1 /\ last_message g = 7 /\ mdata_deleted g = false.
Proof.
  split; [vm_compute; reflexivity|].
  destruct (proj1 (proj2 (add_group_reads_active_line other_group
                            {| allowed := true; desc := Some (str "The C language") |}
                            empty_account ∅ empty_account_wf listed_other_group)))
    as (i & g & H1 & H2 & H3 & H4 & _).
  exists i, g. auto.
Defined.

(** ** Saving and loading the list of the groups *)

Lemma active_line_length mdata info :
  Z.of_nat (length (active_line mdata info)) <=
    Z.of_nat (length (group mdata)) +
    Z.of_nat (match desc info with Some d => length d | None => 0%nat end) + 26.
Proof.
  unfold active_line.
  pose proof (print_u_length (last_message mdata)) as H1.
  pose proof (print_u_length (first_message mdata)) as H2.
  rewrite length_app. cbn [length]. rewrite length_app. cbn [length].
  rewrite length_app. cbn [length]. rewrite length_app. cbn [length].
  destruct (desc info); cbn [length]; lia.
Qed.

Lemma listed_group_need mdata info :
  listed_group mdata info ->
  Z.of_nat (length (group mdata)) +
  Z.of_nat (match desc info with Some d => length d | None => 0%nat end) + 50 <= 10240.
Proof.
  intros ((_ & _ & Hlen) & Hdesc & _).
  destruct (desc info) as [[|c d]|]; [contradiction| |simpl; lia].
  destruct Hdesc as (_ & _ & Hd). lia.
Qed.

Lemma write_active_text infos : forall gl i b,
  buf_ok b -> all_listed infos i gl ->
  ob_text (write_active infos i gl b) = ob_text b ++ concat (active_lines infos i gl) /\
  buf_ok (write_active infos i gl b).
Proof.
  induction gl as [|g gl IH]; intros i b Hb Hall.
  - simpl. rewrite app_nil_r. split; [reflexivity|exact Hb].
  - destruct Hall as [Hg Hall]. cbn [write_active active_lines].
    destruct (mdata_deleted g); [apply IH; assumption|].
    specialize (Hg eq_refl).
    pose proof (listed_group_need _ _ Hg) as Hneed.
    pose proof (active_line_length g (info_of infos i)) as Hlen.
    set (need := Z.of_nat (length (group g)) +
                 Z.of_nat (match desc (info_of infos i) with
                           | Some d => length d | None => 0%nat end) + 50) in *.
    destruct (ob_reserve_room need b Hb Hneed) as (Ht & Hl & Hroom).
    assert (Hoff : ob_off (ob_reserve need b) = ob_off b) by (unfold ob_off; rewrite Ht; reflexivity).
    rewrite ob_snprintf_fits by (rewrite Hoff; lia).
    match goal with |- context [write_active infos (S i) gl ?b1] =>
      destruct (IH (S i) b1) as [IH1 IH2]; [|exact Hall|] end.
    + destruct Hb as [Hb1 Hb2]. split; cbn [ob_len ob_text]; [lia|].
      unfold ob_off. cbn [ob_text]. rewrite length_app, Ht. unfold ob_off in Hroom. lia.
    + split; [|exact IH2]. rewrite IH1. cbn [ob_text concat]. rewrite Ht, <- app_assoc.
      reflexivity.
Qed.

Lemma print_lu_length n : (length (print_lu n) <= 20)%nat.
Proof.
  unfold print_lu. pose proof (print_digits_length 20 (n mod 2 ^ 64) []) as H.
  change (length (@nil ascii)) with 0%nat in H. lia.
Qed.

Lemma print_lu_digits n : Forall (fun c => isdigit c = true) (print_lu n).
Proof.
  unfold print_lu. apply print_digits_digits; [|constructor].
  apply Z.mod_pos_bound. lia.
Qed.

Lemma active_buf_lines t adata infos :
  all_listed infos 0 (groups_list adata) ->
  active_buf t adata infos =
    concat ((print_lu t ++ ["010"]) :: active_lines infos 0 (groups_list adata)).
Proof.
  intros Hall. unfold active_buf.
  pose proof (print_lu_length t) as Hlen.
  assert (H0 : ob_snprintf (print_lu t ++ ["010"]) newsrc_buf_init
               = {| ob_text := print_lu t ++ ["010"]; ob_len := 10240 |}).
  { rewrite ob_snprintf_fits; [reflexivity|].
    unfold ob_off. cbn [newsrc_buf_init ob_text ob_len length].
    rewrite length_app. cbn [length]. lia. }
  rewrite H0.
  destruct (write_active_text infos (groups_list adata) 0
              {| ob_text := print_lu t ++ ["010"]; ob_len := 10240 |}) as [H1 _];
    [|exact Hall|].
  - split; cbn [ob_len]; [lia|]. unfold ob_off. cbn [ob_text].
    rewrite length_app. cbn [length]. lia.
  - rewrite H1. reflexivity.
Qed.

Lemma isspace_nl c : isspace c = false -> c <> "010".
Proof. intros H ->. discriminate. Qed.

Lemma isdigit_not_nl c : isdigit c = true -> c <> "010".
Proof. intros H ->. discriminate. Qed.

Lemma active_line_whole mdata info :
  listed_group mdata info -> whole_line (Z.to_nat 8191) (active_line mdata info).
Proof.
  intros ((Hne & Hname & Hlen) & Hdesc & Hfm & Hlm & Hfit).
  exists (group mdata ++ " " :: print_u (last_message mdata) ++ " " ::
          print_u (first_message mdata) ++ " " :: (if allowed info then "y" else "n") ::
          match desc info with Some d => " " :: d | None => [] end).
  split; [|split; [|lia]].
  - unfold active_line. rewrite <- !app_assoc. cbn [app]. f_equal. f_equal.
    rewrite <- !app_assoc. cbn [app]. f_equal. f_equal.
    rewrite <- !app_assoc. reflexivity.
  - apply Forall_app. split.
    + eapply Forall_impl; [exact Hname|]. intros c [H _]. apply isspace_nl. exact H.
    + constructor; [discriminate|]. apply Forall_app. split.
      * eapply Forall_impl; [apply print_u_digits; lia|]. apply isdigit_not_nl.
      * constructor; [discriminate|]. apply Forall_app. split.
        -- eapply Forall_impl; [apply print_u_digits; lia|]. apply isdigit_not_nl.
        -- constructor; [discriminate|].
           constructor; [destruct (allowed info); discriminate|].
           destruct (desc info) as [[|c d]|]; [contradiction| |constructor].
           destruct Hdesc as (_ & Hd & _). constructor; [discriminate|].
           eapply Forall_impl; [exact Hd|]. intros x [H _]. exact H.
Qed.

Lemma active_lines_whole infos : forall gl i,
  all_listed infos i gl -> Forall (whole_line (Z.to_nat 8191)) (active_lines infos i gl).
Proof.
  induction gl as [|g gl IH]; intros i Hall; [constructor|].
  destruct Hall as [Hg Hall]. cbn [active_lines].
  destruct (mdata_deleted g); [apply IH; exact Hall|].
  constructor; [apply active_line_whole, Hg; reflexivity|apply IH; exact Hall].
Qed.

Lemma active_lines_other infos name : forall gl i,
  all_listed infos i gl ->
  Forall (fun g => group g <> name) gl ->
  Forall (fun l => active_line_group l <> Some name) (active_lines infos i gl).
Proof.
  induction gl as [|g gl IH]; intros i Hall Hn; [constructor|].
  destruct Hall as [Hg Hall]. inversion Hn as [|? ? Hgn Hn']; subst.
  cbn [active_lines].
  destruct (mdata_deleted g); [apply IH; assumption|].
  constructor; [|apply IH; assumption].
  unfold active_line_group. rewrite (scan_group_line_active _ _ (Hg eq_refl)). congruence.
Qed.

Lemma active_lines_app infos : forall g1 g2 i,
  active_lines infos i (g1 ++ g2) =
    active_lines infos i g1 ++ active_lines infos (i + length g1) g2.
Proof.
  induction g1 as [|g g1 IH]; intros g2 i.
  - simpl. rewrite Nat.add_0_r. reflexivity.
  - cbn [app active_lines length]. rewrite IH.
    replace (S i + length g1)%nat with (i + S (length g1))%nat by lia.
    destruct (mdata_deleted g); reflexivity.
Qed.

Lemma all_listed_app infos : forall g1 g2 i,
  all_listed infos i (g1 ++ g2) ->
  all_listed infos i g1 /\ all_listed infos (i + length g1) g2.
Proof.
  induction g1 as [|g g1 IH]; intros g2 i H.
  - simpl. rewrite Nat.add_0_r. split; [exact I|exact H].
  - destruct H as [Hg H]. apply IH in H. destruct H as [H1 H2].
    cbn [length]. replace (i + S (length g1))%nat with (S i + length g1)%nat by lia.
    split; [split; assumption|exact H2].
Qed.

(** A line about another group leaves the group and what is kept beside
    it alone. *)
Lemma nntp_add_group_other line st name i g :
  registry_wf (fst st) ->
  hash_find (fst st) name = Some (i, g) ->
  active_line_group line <> Some name ->
  registry_wf (fst (nntp_add_group line st)) /\
  hash_find (fst (nntp_add_group line st)) name = Some (i, g) /\
  snd (nntp_add_group line st) !! i = snd st !! i.
Proof.
  destruct st as [adata infos]. cbn [fst snd]. intros Hwf Hfind Hline.
  unfold active_line_group in Hline.
  destruct (scan_group_line line) as [[[[[name' last] first] flag] d]|] eqn:Hscan.
  - assert (Hne : name <> name') by congruence.
    destruct (nntp_add_group_fields line name' last first flag d adata infos Hwf Hscan)
      as (Hwf' & (i' & g' & Hg' & _) & Hother & Hinfo).
    split; [exact Hwf'|]. split; [rewrite Hother by exact Hne; exact Hfind|].
    apply Hinfo. intros Hi.
    destruct (hash_find_group _ _ _ _ Hwf' Hg') as [Hl' Hn'].
    assert (Hf2 : hash_find (fst (nntp_add_group line (adata, infos))) name = Some (i, g))
      by (rewrite Hother by exact Hne; exact Hfind).
    destruct (hash_find_group _ _ _ _ Hwf' Hf2) as [Hl2 Hn2].
    assert (Hi' : groups_hash (fst (nntp_add_group line (adata, infos))) !! name' = Some i').
    { unfold hash_find in Hg'.
      destruct (groups_hash (fst (nntp_add_group line (adata, infos))) !! name') as [k|];
        [|discriminate].
      destruct (groups_list (fst (nntp_add_group line (adata, infos))) !! k); [|discriminate].
      congruence. }
    congruence.
  - unfold nntp_add_group. rewrite Hscan. cbn [fst snd]. auto.
Qed.

Lemma nntp_add_group_wf line st :
  registry_wf (fst st) -> registry_wf (fst (nntp_add_group line st)).
Proof.
  destruct st as [adata infos]. cbn [fst]. intros Hwf.
  destruct (scan_group_line line) as [[[[[name last] first] flag] d]|] eqn:Hscan.
  - apply (nntp_add_group_fields line name last first flag d adata infos Hwf Hscan).
  - unfold nntp_add_group. rewrite Hscan. exact Hwf.
Qed.

Lemma add_lines_wf lines : forall st,
  registry_wf (fst st) ->
  registry_wf (fst (fold_left (fun s l => nntp_add_group l s) lines st)).
Proof.
  induction lines as [|l lines IH]; intros st Hwf; [exact Hwf|].
  cbn [fold_left]. apply IH, nntp_add_group_wf, Hwf.
Qed.

Lemma add_lines_other lines : forall st name i g,
  registry_wf (fst st) ->
  hash_find (fst st) name = Some (i, g) ->
  Forall (fun l => active_line_group l <> Some name) lines ->
  hash_find (fst (fold_left (fun s l => nntp_add_group l s) lines st)) name = Some (i, g) /\
  snd (fold_left (fun s l => nntp_add_group l s) lines st) !! i = snd st !! i.
Proof.
  induction lines as [|l lines IH]; intros st name i g Hwf Hfind Hall; [auto|].
  inversion Hall as [|? ? Hl Hall']; subst. cbn [fold_left].
  destruct (nntp_add_group_other l st name i g Hwf Hfind Hl) as (Hwf' & Hf' & Hi').
  destruct (IH _ name i g Hwf' Hf' Hall') as [H1 H2].
  split; [exact H1|]. rewrite H2. exact Hi'.
Qed.

Lemma add_group_reads_line mdata info st :
  registry_wf (fst st) ->
  listed_group mdata info ->
  registry_wf (fst (nntp_add_group (active_line mdata info) st)) /\
  exists i g,
    hash_find (fst (nntp_add_group (active_line mdata info) st)) (group mdata)
      = Some (i, g) /\
    first_message g = first_message mdata /\ last_message g = last_message mdata /\
    mdata_deleted g = false /\
    snd (nntp_add_group (active_line mdata info) st) !! i = Some info.
Proof.
  destruct st as [adata infos]. cbn [fst]. intros Hwf Hl.
  pose proof (scan_group_line_active mdata info Hl) as Hscan.
  destruct (nntp_add_group_fields _ _ _ _ _ _ adata infos Hwf Hscan)
    as (Hwf' & (i & g & Hg & Hf & Hla & Hd & Hinfo & _) & _).
  split; [exact Hwf'|]. exists i, g.
  split; [exact Hg|]. split; [exact Hf|]. split; [exact Hla|]. split; [exact Hd|].
  rewrite Hinfo, flag_allowed, mutt_str_replace_desc by apply Hl.
  rewrite info_eta. reflexivity.
Qed.

Lemma scan_timestamp_print t :
  0 <= t <= LONG_MAX -> scan_timestamp (print_lu t ++ ["010"]) = Some t.
Proof.
  intros Ht. unfold LONG_MAX in Ht.
  assert (Hmod : t mod 2 ^ 64 = t) by (apply Z.mod_small; lia).
  pose proof (print_lu_digits t) as Hd.
  assert (Hne : print_lu t <> []) by (apply print_digits_ne; left; lia).
  unfold scan_timestamp. rewrite cstr_id.
  2:{ apply Forall_app. split; [apply digits_no_zero, Hd|repeat constructor; discriminate]. }
  unfold scan_ld.
  destruct (print_lu t) as [|c s] eqn:Hp; [contradiction|].
  inversion Hd as [|? ? Hc Hd']; subst.
  destruct (isdigit_not_special c Hc) as (Hsp & Hm & Hpl & _).
  cbn [app skip_space]. rewrite Hsp.
  destruct (Ascii.eqb_spec c "-"); [contradiction|].
  destruct (Ascii.eqb_spec c "+"); [contradiction|].
  rewrite Hc.
  change (c :: s ++ ["010"]) with ((c :: s) ++ ["010"]). rewrite <- Hp.
  unfold print_lu. rewrite Hmod, print_digits_app, <- app_assoc. cbn [app].
  rewrite <- print_digits_app.
  destruct (scan_print_digits 20 t ["010"]) as [k Hk].
  { split; [lia|]. change (10 ^ Z.of_nat 20) with 100000000000000000000. lia. }
  destruct (Hk 0) as [Hk0 _]. rewrite Hk0.
  replace (0 * 10 ^ k + t) with t by lia.
  rewrite scan_digits_stop by (intros x r H; inversion H; reflexivity).
  unfold scan_s. cbn [skip_space]. change (isspace "010") with true. cbv iota.
  cbn [skip_space]. rewrite Z.min_l by (unfold LONG_MAX; lia).
  destruct (Z.to_nat 4095); reflexivity.
Qed.

(** X16: what [nntp_active_save_cache] writes, [active_get_cache] loads:
    with every group that is not deleted fit for the list and a time
    stamp between 1 and [LONG_MAX], the call returns 0 with that time
    stamp and each such group is in the registry afterwards, not marked
    deleted, with its first and last article, posting flag and
    description; a cache written with the time stamp 0 is refused and
    leaves everything as it was. *)
Theorem active_cache_roundtrip t adata infos t0 st0 :
  registry_wf adata ->
  all_listed infos 0 (groups_list adata) ->
  registry_wf (fst st0) ->
  let r := active_get_cache (Some (active_buf t adata infos)) t0 st0 in
  (t = 0 -> r = (-1, t0, st0)) /\
  (0 < t <= LONG_MAX ->
   fst (fst r) = 0 /\ snd (fst r) = t /\
   forall k mdata,
     groups_list adata !! k = Some mdata -> mdata_deleted mdata = false ->
     exists i g,
       hash_find (fst (snd r)) (group mdata) = Some (i, g) /\
       first_message g = first_message mdata /\ last_message g = last_message mdata /\
       mdata_deleted g = false /\ info_of (snd (snd r)) i = info_of infos k).
Proof.
  intros Hwf Hall Hwf0 r.
  set (lines := active_lines infos 0 (groups_list adata)).
  assert (Hread : read_lines (length (active_buf t adata infos)) (Z.to_nat 8191)
                    (active_buf t adata infos) = (print_lu t ++ ["010"]) :: lines).
  { rewrite (active_buf_lines t adata infos Hall). fold lines.
    apply read_lines_concat; [|lia].
    constructor; [|apply active_lines_whole; exact Hall].
    exists (print_lu t). split; [reflexivity|]. split.
    - eapply Forall_impl; [apply print_lu_digits|]. apply isdigit_not_nl.
    - pose proof (print_lu_length t). rewrite length_app. cbn [length]. lia. }
  assert (Hr : 0 <= t <= LONG_MAX ->
               r = if t =? 0 then (-1, t0, st0)
                   else (0, t, fold_left (fun s l => nntp_add_group l s) lines st0)).
  { intros Ht. unfold r, active_get_cache. rewrite Hread, (scan_timestamp_print t Ht).
    reflexivity. }
  split.
  - intros ->. rewrite Hr by (unfold LONG_MAX; lia). reflexivity.
  - intros Ht. rewrite Hr by lia.
    replace (t =? 0) with false by (symmetry; apply Z.eqb_neq; lia).
    cbn [fst snd]. split; [reflexivity|]. split; [reflexivity|].
    intros k mdata Hk Hdel.
    destruct (list_elem_of_split_length _ _ _ Hk) as (g1 & g2 & Hsplit & Hklen).
    pose proof (registry_wf_distinct adata g1 mdata g2 Hwf Hsplit) as Hdist.
    apply Forall_app in Hdist. destruct Hdist as [Hd1 Hd2].
    pose proof Hall as Hall'. rewrite Hsplit in Hall'.
    apply all_listed_app in Hall'. destruct Hall' as [Hall1 [Hm Hall2]].
    cbn [Nat.add] in Hm, Hall2. specialize (Hm Hdel).
    unfold lines. rewrite Hsplit, active_lines_app. cbn [active_lines Nat.add].
    rewrite Hdel, fold_left_app. cbn [fold_left].
    set (s1 := fold_left (fun s l => nntp_add_group l s) (active_lines infos 0 g1) st0).
    assert (Hwf1 : registry_wf (fst s1)) by (apply add_lines_wf; exact Hwf0).
    destruct (add_group_reads_line mdata (info_of infos (length g1)) s1 Hwf1 Hm)
      as (Hwf2 & i & g & Hg & Hf & Hl & Hd & Hi).
    destruct (add_lines_other (active_lines infos (S (length g1)) g2) _ (group mdata) i g
                Hwf2 Hg) as [H1 H2].
    { apply active_lines_other; assumption. }
    exists i, g. split; [exact H1|]. split; [exact Hf|]. split; [exact Hl|].
    split; [exact Hd|]. unfold info_of in *. rewrite H2, Hi, Hklen. reflexivity.
Qed.

Lemma listed_groups_wf : registry_wf listed_groups.
Proof. exact two_groups_wf. Qed.

Lemma listed_groups_all : all_listed listed_infos 0 (groups_list listed_groups).
Proof.
  split; [|split; [|exact I]]; intros _.
  - split; [|split; [|split; [|split]]].
    + split; [discriminate|]. split; [|simpl; lia]. repeat constructor; discriminate.
    + exact I.
    + split; vm_compute; discriminate.
    + split; vm_compute; discriminate.
    + vm_compute. discriminate.
  - exact listed_other_group.
Qed.

Lemma active_cache_roundtrip_witness :
  active_buf 1600000000 listed_groups listed_infos =
    text_line "1600000000" ++ text_line "alt.test 2 1 n" ++
    text_line "comp.lang.c 7 1 y The C language" /\
  fst (active_get_cache (Some (active_buf 1600000000 listed_groups listed_infos)) 0
         (empty_account, ∅)) = (0, 1600000000) /\
  exists i g,
    hash_find (fst (snd (active_get_cache
                           (Some (active_buf 1600000000 listed_groups listed_infos)) 0
                           (empty_account, ∅)))) (str "comp.lang.c") = Some (i, g) /\
    first_message g = 1 /\ last_message g = 7.
Proof.
  assert (Ht : 0 < 1600000000 <= LONG_MAX) by (split; vm_compute; [reflexivity|discriminate]).
  destruct (proj2 (active_cache_roundtrip 1600000000 listed_groups listed_infos 0
                     (empty_account, ∅) listed_groups_wf listed_groups_all
                     empty_account_wf) Ht) as (H1 & H2 & H3).
  split; [vm_compute; reflexivity|]. split.
  - rewrite (surjective_pairing (fst _)), H1, H2. reflexivity.
  - destruct (H3 1%nat other_group eq_refl eq_refl) as (i & g & Hg & Hf & Hl & _).
    exists i, g. auto.
Defined.

(** ** Writing the file and the next parse *)




(** ** The unread count and the order of the ranges *)

Lemma read_in_window_cons fm lm e ents :
  read_in_window fm lm (e :: ents) = clamped_len fm lm e + read_in_window fm lm ents.
Proof. reflexivity. Qed.

Lemma read_in_window_perm fm lm ents ents' :
  ents ≡ₚ ents' -> read_in_window fm lm ents = read_in_window fm lm ents'.
Proof.
  induction 1 as [|e l l' _ IH|a b l|l1 l2 l3 _ IH1 _ IH2].
  - reflexivity.
  - rewrite !read_in_window_cons, IH. reflexivity.
  - rewrite !read_in_window_cons. lia.
  - congruence.
Qed.

Lemma read_in_window_filter fm lm ents :
  read_in_window fm lm (List.filter (fun e => 0 <? clamped_len fm lm e) ents)
    = read_in_window fm lm ents.
Proof.
  induction ents as [|e ents IH]; [reflexivity|].
  cbn [List.filter]. rewrite read_in_window_cons, <- IH.
  destruct (Z.ltb_spec 0 (clamped_len fm lm e)) as [H|H].
  - rewrite read_in_window_cons. reflexivity.
  - assert (clamped_len fm lm e = 0); [|lia].
    unfold clamped_len in *. cbv zeta in *.
    destruct (Z.leb_spec (Z.max (e_first e) fm) (Z.min (e_last e) lm)); lia.
Qed.

(** X18: the count of [nntp_group_unread_stat] does not depend on the
    order of the ranges, and ranges that miss the window of the group
    can be left out without changing it. *)
Theorem unread_stat_order_free mdata ents ents' :
  newsrc_ent mdata = Some ents ->
  ents ≡ₚ ents' ->
  unread (nntp_group_unread_stat (set_newsrc_ent (Some ents') mdata))
    = unread (nntp_group_unread_stat mdata) /\
  unread (nntp_group_unread_stat
            (set_newsrc_ent
               (Some (List.filter
                        (fun e => 0 <? clamped_len (first_message mdata) (last_message mdata) e)
                        ents)) mdata))
    = unread (nntp_group_unread_stat mdata).
Proof.
  intros He Hp. rewrite !unread_stat_closed_form.
  cbn [last_message first_message set_newsrc_ent].
  unfold ranges_of, window_minus_read. cbn [newsrc_ent set_newsrc_ent]. rewrite He.
  rewrite read_in_window_filter, (read_in_window_perm _ _ _ _ Hp). split; reflexivity.
Qed.

Lemma unread_stat_order_free_witness :
  unread (nntp_group_unread_stat
            (bounds_1_10 [ {| e_first := 5; e_last := 7 |}; {| e_first := 1; e_last := 3 |} ]))
    = unread (nntp_group_unread_stat
                (bounds_1_10 [ {| e_first := 1; e_last := 3 |};
                               {| e_first := 5; e_last := 7 |} ])).
Proof.
  assert (Hp : [ {| e_first := 1; e_last := 3 |}; {| e_first := 5; e_last := 7 |} ]
               ≡ₚ [ {| e_first := 5; e_last := 7 |}; {| e_first := 1; e_last := 3 |} ])
    by apply Permutation_swap.
  exact (proj1 (unread_stat_order_free
                  (bounds_1_10 [ {| e_first := 1; e_last := 3 |};
                                 {| e_first := 5; e_last := 7 |} ])
                  _ _ eq_refl Hp)).
Defined.

(** ** More than one line for a group *)

(** X19: when the newsrc file names a group on several lines, the last
    of them decides: after the parse the group has the mark and the
    ranges of the last line that names it, whatever earlier lines said
    and whatever the registry held. *)
Theorem newsrc_parse_last_line_wins io adata sz mt before line after name subs ents :
  registry_wf adata ->
  io_fopen_ok io = true -> io_lock_ok io = true -> io_stat io = Some (sz, mt) ->
  (size adata =? sz) && (mtime adata =? mt) = false ->
  lines_read io sz = before ++ line :: after ->
  newsrc_line_fields line = Some (name, subs, ents) ->
  Forall (fun l => line_group l <> Some name) after ->
  exists i mdata,
    hash_find (snd (nntp_newsrc_parse io adata)) name = Some (i, mdata) /\
    newsrc_ent mdata = Some ents /\ subscribed mdata = subs.
Proof.
  intros Hwf Ho Hl Hs Hd Hlines Hfields Hafter.
  rewrite (nntp_newsrc_parse_reparse io adata sz mt Ho Hl Hs Hd). cbn [snd].
  rewrite Hlines, fold_left_app. cbn [fold_left].
  set (start := set_groups_list _ _).
  assert (Hwf0 : registry_wf start).
  { apply (reset_groups_wf
             (set_newsrc_modified true (set_stat sz mt (set_fp_newsrc true adata)))).
    exact Hwf. }
  set (s1 := fold_left newsrc_parse_line before start).
  assert (Hwf1 : registry_wf s1) by (apply parse_lines_wf; exact Hwf0).
  destruct (newsrc_parse_line_group s1 line name subs ents (registry_wf_ok _ Hwf1) Hfields)
    as (i & g & Hfind & Hents & Hsubs).
  exists i, g. split; [|auto].
  apply parse_lines_other; [apply newsrc_parse_line_wf; exact Hwf1|exact Hfind|exact Hafter].
Qed.

Lemma newsrc_parse_last_line_wins_witness :
  exists i mdata,
    hash_find (snd (nntp_newsrc_parse
                      (fresh_start (text_line "alt.test: 1-3" ++ text_line "alt.test! 5"))
                      two_groups)) (str "alt.test") = Some (i, mdata) /\
    newsrc_ent mdata = Some [ {| e_first := 5; e_last := 5 |} ] /\
    subscribed mdata = false.
Proof.
  assert (Hlines : lines_read (fresh_start (text_line "alt.test: 1-3" ++ text_line "alt.test! 5"))
                     26 = [text_line "alt.test: 1-3"] ++ text_line "alt.test! 5" :: [])
    by (vm_compute; reflexivity).
  assert (Hfields : newsrc_line_fields (text_line "alt.test! 5")
                    = Some (str "alt.test", false, [ {| e_first := 5; e_last := 5 |} ]))
    by (vm_compute; reflexivity).
  exact (newsrc_parse_last_line_wins
           (fresh_start (text_line "alt.test: 1-3" ++ text_line "alt.test! 5"))
           two_groups 26 7 _ _ _ _ _ _ two_groups_wf eq_refl eq_refl eq_refl eq_refl
           Hlines Hfields (List.Forall_nil _)).
Defined.
